(** * FFmpeg Masterclass

    A shallow embedding of [ffmpeg_masterclass.py] and the properties of its
    command construction, error reporting and probing.

    The script drives three things that are not part of it: the Python
    runtime ([str], [repr], [pathlib], [subprocess]), the [ffmpeg-python]
    wrapper library, and the [ffmpeg]/[ffprobe] binaries.  Each is modelled
    in a module of its own, as far as the script uses it; the script's own
    methods follow, under their source names. *)

From stdpp Require Import base strings list gmap pretty.
From Stdlib Require Import Ascii ZArith Lia.

Set Warnings "-register-all".

Open Scope string_scope.
Open Scope list_scope.
Open Scope Z_scope.

(** ** Python values, text and exceptions *)

(** The values the script passes as keyword arguments.  A float is carried
    by the text [str] gives it (the shortest decimal that reads back as the
    same double): the script does no arithmetic on these, it only hands them
    on and renders them. *)
Inductive pyval :=
| PyStr (s : string)
| PyInt (z : Z)
| PyFloat (text : string)
| PyNone.

(** [str(v)], which is also ['{}'.format(v)]. *)
Definition py_str (v : pyval) : string :=
  match v with
  | PyStr s => s
  | PyInt z => pretty z
  | PyFloat text => text
  | PyNone => "None"
  end.

(** A numeric argument of a demo: an [int] or a [float]. *)
Inductive number :=
| NInt (z : Z)
| NFloat (text : string).

Definition number_val (n : number) : pyval :=
  match n with
  | NInt z => PyInt z
  | NFloat text => PyFloat text
  end.

(** Equality of the text and of the integer inside two values. *)
Definition text_eqb (s t : string) : bool := String.eqb s t.
Definition int_eqb (x y : Z) : bool := Z.eqb x y.

Definition pyval_eqb (a b : pyval) : bool :=
  match a, b with
  | PyStr s, PyStr t => text_eqb s t
  | PyInt x, PyInt y => int_eqb x y
  | PyFloat s, PyFloat t => text_eqb s t
  | PyNone, PyNone => true
  | _, _ => false
  end.

(** [sep.join(parts)]. *)
Definition join (sep : string) (parts : list string) : string :=
  String.concat sep parts.

(** [s * n] for a string [s]. *)
Fixpoint str_repeat (s : string) (n : nat) : string :=
  match n with
  | O => ""
  | S n' => s +:+ str_repeat s n'
  end.

Fixpoint str_contains_char (c : ascii) (s : string) : bool :=
  match s with
  | EmptyString => false
  | String d s' => if Ascii.eqb c d then true else str_contains_char c s'
  end.

Definition hex_digit (n : N) : ascii :=
  match n with
  | 0%N => "0" | 1%N => "1" | 2%N => "2" | 3%N => "3" | 4%N => "4"
  | 5%N => "5" | 6%N => "6" | 7%N => "7" | 8%N => "8" | 9%N => "9"
  | 10%N => "a" | 11%N => "b" | 12%N => "c" | 13%N => "d" | 14%N => "e"
  | _ => "f"
  end%char.

(** One character of [repr(s)] inside the quotes [q].  Bytes above 127
    belong to UTF-8 encodings of printable characters, which [repr] keeps. *)
Definition repr_char (q c : ascii) : string :=
  let n := N_of_ascii c in
  if Ascii.eqb c "\"%char then "\\"
  else if Ascii.eqb c q then String "\"%char (String q "")
  else if N.eqb n 9 then "\t"
  else if N.eqb n 10 then "\n"
  else if N.eqb n 13 then "\r"
  else if (N.ltb n 32 || N.eqb n 127)%bool then
    String "\"%char (String "x"%char
      (String (hex_digit (N.div n 16)) (String (hex_digit (N.modulo n 16)) "")))
  else String c "".

Fixpoint repr_chars (q : ascii) (s : string) : string :=
  match s with
  | EmptyString => ""
  | String c s' => repr_char q c +:+ repr_chars q s'
  end.

Definition double_quote : ascii := ascii_of_nat 34.

(** [repr(s)] for a string: single quotes, unless the text has a single
    quote and no double quote. *)
Definition py_repr (s : string) : string :=
  let q : ascii :=
    if (str_contains_char "'"%char s && negb (str_contains_char double_quote s))%bool
    then double_quote else "'"%char in
  String q (repr_chars q s) +:+ String q "".

(** [repr] of a list of strings, which is what ['%s' % cmd] prints. *)
Definition py_repr_list (l : list string) : string :=
  "[" +:+ join ", " (map py_repr l) +:+ "]".

(** The exceptions that occur in the script's paths. *)
Inductive exn :=
| FileNotFoundError (filename : string)
| FileExistsError (filename : string)
| NotADirectoryError (filename : string)
| CalledProcessError (returncode : Z) (cmd : list string) (stdout stderr : string)
| FFmpegError (cmd : string) (stdout stderr : string)
| ValueError (msg : string)
| TypeError (msg : string)
| KeyError (key : string)
| ZeroDivisionError.

Inductive outcome (A : Type) :=
| Returns (a : A)
| Raises (e : exn).
Arguments Returns {A} a.
Arguments Raises {A} e.

(** [repr(signal.Signals(n))] on Linux, for the branch of
    [CalledProcessError.__str__] taken by a negative return code. *)
Definition signal_name (n : Z) : option string :=
  match n with
  | 1 => Some "SIGHUP" | 2 => Some "SIGINT" | 3 => Some "SIGQUIT"
  | 4 => Some "SIGILL" | 5 => Some "SIGTRAP" | 6 => Some "SIGABRT"
  | 7 => Some "SIGBUS" | 8 => Some "SIGFPE" | 9 => Some "SIGKILL"
  | 10 => Some "SIGUSR1" | 11 => Some "SIGSEGV" | 12 => Some "SIGUSR2"
  | 13 => Some "SIGPIPE" | 14 => Some "SIGALRM" | 15 => Some "SIGTERM"
  | 16 => Some "SIGSTKFLT" | 17 => Some "SIGCHLD" | 18 => Some "SIGCONT"
  | 19 => Some "SIGSTOP" | 20 => Some "SIGTSTP" | 21 => Some "SIGTTIN"
  | 22 => Some "SIGTTOU" | 23 => Some "SIGURG" | 24 => Some "SIGXCPU"
  | 25 => Some "SIGXFSZ" | 26 => Some "SIGVTALRM" | 27 => Some "SIGPROF"
  | 28 => Some "SIGWINCH" | 29 => Some "SIGIO" | 30 => Some "SIGPWR"
  | 31 => Some "SIGSYS" | 34 => Some "SIGRTMIN" | 64 => Some "SIGRTMAX"
  | _ => None
  end.

(** [str(e)], what [f"{e}"] prints. *)
Definition exn_str (e : exn) : string :=
  match e with
  | FileNotFoundError f => "[Errno 2] No such file or directory: " +:+ py_repr f
  | FileExistsError f => "[Errno 17] File exists: " +:+ py_repr f
  | NotADirectoryError f => "[Errno 20] Not a directory: " +:+ py_repr f
  | CalledProcessError rc cmd _ _ =>
      if rc <? 0 then
        match signal_name (- rc) with
        | Some s =>
            "Command '" +:+ py_repr_list cmd +:+ "' died with <Signals." +:+ s
              +:+ ": " +:+ pretty (- rc) +:+ ">."
        | None =>
            "Command '" +:+ py_repr_list cmd +:+ "' died with unknown signal "
              +:+ pretty (- rc) +:+ "."
        end
      else
        "Command '" +:+ py_repr_list cmd +:+ "' returned non-zero exit status "
          +:+ pretty rc +:+ "."
  | FFmpegError cmd _ _ => cmd +:+ " error (see stderr output for detail)"
  | ValueError msg => msg
  | TypeError msg => msg
  | KeyError k => py_repr k
  | ZeroDivisionError => "division by zero"
  end.

(** ** pathlib: pure POSIX paths *)

Module pathlib.

(** A [PurePosixPath]: the anchor (["" ], ["/"] or ["//"]) and the
    components after it. *)
Record Path := mkPath { anchor : string; names : list string }.

(** Cut a string at every ["/"]. *)
Fixpoint split_slash (cur : string) (s : string) : list string :=
  match s with
  | EmptyString => [cur]
  | String c s' =>
      if Ascii.eqb c "/"%char then cur :: split_slash "" s'
      else split_slash (cur +:+ String c "") s'
  end.

Definition keep_component (c : string) : bool :=
  negb (String.eqb c "" || String.eqb c ".").

(** Exactly two leading slashes are kept as the anchor ["//"]; one, or
    three and more, give ["/"]. *)
Definition parse_anchor (s : string) : string :=
  match s with
  | String a (String b (String c _)) =>
      if Ascii.eqb a "/"%char then
        if Ascii.eqb b "/"%char then
          if Ascii.eqb c "/"%char then "/" else "//"
        else "/"
      else ""
  | String a (String b EmptyString) =>
      if Ascii.eqb a "/"%char then
        if Ascii.eqb b "/"%char then "//" else "/"
      else ""
  | String a EmptyString => if Ascii.eqb a "/"%char then "/" else ""
  | EmptyString => ""
  end.

(** [Path(s)]: empty and ["."] components are dropped, [".."] is kept. *)
Definition of_str (s : string) : Path :=
  {| anchor := parse_anchor s;
     names := List.filter keep_component (split_slash "" s) |}.

(** [str(p)]. *)
Definition str (p : Path) : string :=
  match anchor p, names p with
  | EmptyString, [] => "."
  | a, ns => a +:+ join "/" ns
  end.

(** [p / s] for a string [s]: an anchored [s] replaces [p]. *)
Definition joinpath (p : Path) (s : string) : Path :=
  let q := of_str s in
  match anchor q with
  | EmptyString => {| anchor := anchor p; names := names p ++ names q |}
  | _ => q
  end.

(** [p.absolute()] in the working directory [cwd]. *)
Definition absolute (cwd p : Path) : Path :=
  match anchor p with
  | EmptyString => {| anchor := anchor cwd; names := names cwd ++ names p |}
  | _ => p
  end.

End pathlib.

Abbreviation Path := pathlib.Path.
Infix "//" := pathlib.joinpath (at level 40, left associativity).

(** ** The object: [FFmpegMasterclass] *)

Record FFmpegMasterclass := { output_dir : Path }.

(** ** Section 1 of the script: the commands of the CLI demos *)

(** Demo 1, lines 57-74. *)
Definition demo_cli_basic_conversion_cmd
    (self : FFmpegMasterclass) (input_file : string) : list string :=
  let output_file := output_dir self // "converted_basic.webm" in
  [ "ffmpeg"; "-i"; input_file;
    "-c:v"; "libvpx-vp9";
    "-c:a"; "libopus";
    "-b:v"; "1M";
    "-b:a"; "128k";
    "-y";
    pathlib.str output_file ].

(** Demo 2, lines 105-135. *)
Definition filter_complex_cli : string :=
  "[0:v]scale=1280:720,"
  +:+ "drawtext=text='FFmpeg Demo':fontsize=48:fontcolor=white:"
  +:+ "x=(w-text_w)/2:y=50:box=1:boxcolor=black@0.5:boxborderw=5,"
  +:+ "eq=contrast=1.2:brightness=0.1[v]".

Definition demo_cli_with_filters_cmd
    (self : FFmpegMasterclass) (input_file : string) : list string :=
  let output_file := output_dir self // "filtered_cli.mp4" in
  [ "ffmpeg"; "-i"; input_file;
    "-filter_complex"; filter_complex_cli;
    "-map"; "[v]";
    "-map"; "0:a?";
    "-c:v"; "libx264";
    "-preset"; "medium";
    "-crf"; "23";
    "-c:a"; "aac";
    "-y";
    pathlib.str output_file ].

(** Demo 3, lines 159-172. *)
Definition demo_cli_extract_audio_cmd
    (self : FFmpegMasterclass) (input_file : string) : list string :=
  let output_file := output_dir self // "extracted_audio.mp3" in
  [ "ffmpeg"; "-i"; input_file;
    "-vn";
    "-acodec"; "libmp3lame";
    "-q:a"; "2";
    "-y";
    pathlib.str output_file ].

(** ** The ffmpeg-python wrapper library

    The library is not part of the script.  Its argument compiler is
    modelled here as the script uses it: [input], [filter], [concat],
    [output], [overwrite_output] build a graph of nodes, [get_args] sorts
    the graph and renders it.  Every stream of the script is the default
    output of its node, so an edge records the upstream node and the
    selector ([.video] is ['v'], [.audio] is ['a']) only.  What no demo
    uses is left out: the [f] alias of [format], [video_size], list-valued
    keyword arguments and the [split] filters. *)

Module ffmpeg.

Definition kwargs := list (string * pyval).

Inductive kind := KInput | KFilter | KOutput | KGlobal.

Inductive node :=
| Node (k : kind) (name : string) (args : list pyval) (kw : kwargs)
       (incoming : list (node * option string)).

Definition stream : Type := node * option string.

Definition node_kind (n : node) : kind := let 'Node k _ _ _ _ := n in k.
Definition node_name (n : node) : string := let 'Node _ nm _ _ _ := n in nm.
Definition node_args (n : node) : list pyval := let 'Node _ _ a _ _ := n in a.
Definition node_kwargs (n : node) : kwargs := let 'Node _ _ _ kw _ := n in kw.
Definition incoming_edges (n : node) : list stream := let 'Node _ _ _ _ i := n in i.

Definition is_kind (k : kind) (n : node) : bool :=
  match k, node_kind n with
  | KInput, KInput | KFilter, KFilter | KOutput, KOutput | KGlobal, KGlobal => true
  | _, _ => false
  end.

(** *** Dictionaries of keyword arguments *)

Fixpoint dict_get (k : string) (d : kwargs) : option pyval :=
  match d with
  | [] => None
  | (k', v) :: d' => if String.eqb k k' then Some v else dict_get k d'
  end.

Fixpoint dict_remove (k : string) (d : kwargs) : kwargs :=
  match d with
  | [] => []
  | (k', v) :: d' =>
      if String.eqb k k' then dict_remove k d' else (k', v) :: dict_remove k d'
  end.

(** [d[k] = v]. *)
Definition dict_set (k : string) (v : pyval) (d : kwargs) : kwargs :=
  match dict_get k d with
  | Some _ => map (fun e => if String.eqb k (fst e) then (k, v) else e) d
  | None => d ++ [(k, v)]
  end.

Fixpoint insert_sorted (e : string * pyval) (d : kwargs) : kwargs :=
  match d with
  | [] => [e]
  | e' :: d' =>
      if String.leb (fst e) (fst e') then e :: e' :: d'
      else e' :: insert_sorted e d'
  end.

(** The items in the order of [sorted(d.keys())]. *)
Definition sorted_items (d : kwargs) : kwargs :=
  fold_right insert_sorted [] d.

Fixpoint list_eqb {A} (eqb : A -> A -> bool) (xs ys : list A) : bool :=
  match xs, ys with
  | [], [] => true
  | x :: xs', y :: ys' => if eqb x y then list_eqb eqb xs' ys' else false
  | _, _ => false
  end.

Definition item_eqb (a b : string * pyval) : bool :=
  if String.eqb (fst a) (fst b) then pyval_eqb (snd a) (snd b) else false.

Definition kwargs_eqb (a b : kwargs) : bool :=
  list_eqb item_eqb (sorted_items a) (sorted_items b).

Definition selector_eqb (a b : option string) : bool :=
  match a, b with
  | None, None => true
  | Some s, Some t => String.eqb s t
  | _, _ => false
  end.

(** Node equality.  The library compares nodes by a hash of their incoming
    edges, arguments and keyword arguments, so two [input] nodes for the
    same file are one node of the graph. *)
Fixpoint node_eqb (a b : node) {struct a} : bool :=
  match a, b with
  | Node _ _ aa kwa ia, Node _ _ ab kwb ib =>
      if list_eqb
           (fun x y : node * option string =>
              if node_eqb (fst x) (fst y) then selector_eqb (snd x) (snd y)
              else false)
           ia ib
      then (if list_eqb pyval_eqb aa ab then kwargs_eqb kwa kwb else false)
      else false
  end.

Fixpoint mem (n : node) (l : list node) : bool :=
  match l with
  | [] => false
  | m :: l' => if node_eqb n m then true else mem n l'
  end.

Fixpoint index_of (n : node) (l : list node) : option nat :=
  match l with
  | [] => None
  | m :: l' => if node_eqb n m then Some O else option_map S (index_of n l')
  end.

(** *** Building the graph *)

(** [ffmpeg.input] with a file name and keyword arguments. *)
Definition input (filename : string) (kw : kwargs) : stream :=
  (Node KInput "input" [] (dict_set "filename" (PyStr filename) kw) [], None).

(** [ffmpeg.filter] and [stream.filter]: a filter node wants at least one
    input stream. *)
Definition filter_ (streams : list stream) (name : string)
    (args : list pyval) (kw : kwargs) : outcome stream :=
  match streams with
  | [] => Raises (ValueError "Expected at least 1 input stream(s); got 0")
  | _ => Returns (Node KFilter name args kw streams, None)
  end.

(** [ffmpeg.concat] with [v] and [a]: the streams come in segments of
    [v + a]; [n] is the number of segments. *)
Definition concat (streams : list stream) (v a : Z) : outcome stream :=
  let stream_count := v + a in
  let len := Z.of_nat (length streams) in
  if negb (len mod stream_count =? 0) then
    Raises (ValueError
      ("Expected concat input streams to have length multiple of "
       +:+ pretty stream_count +:+ " (v=" +:+ pretty v +:+ ", a=" +:+ pretty a
       +:+ "); got " +:+ pretty len))
  else
    filter_ streams "concat" []
      [("v", PyInt v); ("a", PyInt a); ("n", PyInt (len / stream_count))].

(** [ffmpeg.output] and [stream.output]. *)
Definition output (streams : list stream) (filename : string) (kw : kwargs)
    : stream :=
  (Node KOutput "output" [] (dict_set "filename" (PyStr filename) kw) streams, None).

(** [stream.overwrite_output()]. *)
Definition overwrite_output (s : stream) : stream :=
  (Node KGlobal "overwrite_output" [PyStr "-y"] [] [s], None).

(** [stream.video] and [stream.audio]. *)
Definition video (s : stream) : stream := (fst s, Some "v").
Definition audio (s : stream) : stream := (fst s, Some "a").

(** *** Sorting the graph *)

(** [topo_sort]: depth first, a node after the nodes it reads, each node
    once. *)
Fixpoint visit (n : node) (sorted_nodes : list node) {struct n} : list node :=
  if mem n sorted_nodes then sorted_nodes
  else
    match n with
    | Node _ _ _ _ inc =>
        fold_left (fun acc (e : node * option string) => visit (fst e) acc)
          inc sorted_nodes ++ [n]
    end.

Definition topo_sort (n : node) : list node := visit n [].

(** How many edges of the sorted graph leave [n]. *)
Definition outgoing_count (n : node) (sorted_nodes : list node) : nat :=
  length (List.filter (fun e : stream => node_eqb (fst e) n)
            (flat_map incoming_edges sorted_nodes)).

(** *** Rendering *)

Definition in_chars (c : ascii) (chars : string) : bool :=
  str_contains_char c chars.

(** [escape_chars(text, chars)]: a backslash before every listed character. *)
Fixpoint escape_chars (text : string) (chars : string) : string :=
  match text with
  | EmptyString => ""
  | String c t =>
      if in_chars c chars then String "\"%char (String c (escape_chars t chars))
      else String c (escape_chars t chars)
  end.

Definition filter_chars : string := "\'=:".
Definition graph_chars : string := "\'[],;".

(** [FilterNode._get_filter]: positional arguments are escaped twice,
    keyword arguments once and sorted by key. *)
Definition get_filter (n : node) : string :=
  let out_args :=
    map (fun x => escape_chars (escape_chars (py_str x) filter_chars) filter_chars)
      (node_args n) in
  let out_kwargs :=
    map (fun e : string * pyval =>
           (escape_chars (fst e) filter_chars,
            PyStr (escape_chars (py_str (snd e)) filter_chars)))
      (node_kwargs n) in
  let kwarg_params :=
    map (fun e : string * pyval => fst e +:+ "=" +:+ py_str (snd e))
      (sorted_items out_kwargs) in
  let params := out_args ++ kwarg_params in
  let name := escape_chars (node_name n) filter_chars in
  let params_text :=
    match params with
    | [] => name
    | _ => name +:+ "=" +:+ join ":" params
    end in
  escape_chars params_text graph_chars.

(** [stream_name_map]: inputs are numbered, filter outputs are [s0], [s1], ... *)
Definition stream_name (input_nodes filter_nodes : list node) (n : node)
    : outcome string :=
  match index_of n input_nodes with
  | Some i => Returns (pretty (Z.of_nat i))
  | None =>
      match index_of n filter_nodes with
      | Some i => Returns ("s" +:+ pretty (Z.of_nat i))
      | None => Raises (KeyError "stream")
      end
  end.

(** [_format_input_stream_name]. *)
Definition format_input_stream_name (input_nodes filter_nodes : list node)
    (e : stream) (is_final_arg : bool) : outcome string :=
  match stream_name input_nodes filter_nodes (fst e) with
  | Raises x => Raises x
  | Returns prefix =>
      let suffix := match snd e with None => "" | Some sel => ":" +:+ sel end in
      if (is_final_arg && is_kind KInput (fst e))%bool
      then Returns (prefix +:+ suffix)
      else Returns ("[" +:+ prefix +:+ suffix +:+ "]")
  end.

(** Run [f] over a list, stopping at the first exception. *)
Fixpoint map_outcome {A B} (f : A -> outcome B) (l : list A) : outcome (list B) :=
  match l with
  | [] => Returns []
  | x :: l' =>
      match f x with
      | Raises e => Raises e
      | Returns y =>
          match map_outcome f l' with
          | Raises e => Raises e
          | Returns ys => Returns (y :: ys)
          end
      end
  end.

(** [_get_filter_spec]: the inputs, the filter, its one output. *)
Definition get_filter_spec (input_nodes filter_nodes : list node) (n : node)
    : outcome string :=
  match map_outcome (fun e => format_input_stream_name input_nodes filter_nodes e false)
          (incoming_edges n) with
  | Raises x => Raises x
  | Returns inputs =>
      match stream_name input_nodes filter_nodes n with
      | Raises x => Raises x
      | Returns out =>
          Returns (join "" inputs +:+ get_filter n +:+ "[" +:+ out +:+ "]")
      end
  end.

(** [_get_filter_arg]; [_allocate_filter_stream_names] refuses a filter
    output that is read twice. *)
Definition get_filter_arg (sorted_nodes input_nodes filter_nodes : list node)
    : outcome string :=
  if forallb (fun n => Nat.leb (outgoing_count n sorted_nodes) 1) filter_nodes
  then
    match map_outcome (get_filter_spec input_nodes filter_nodes) filter_nodes with
    | Raises x => Raises x
    | Returns specs => Returns (join ";" specs)
    end
  else Raises (ValueError "a `split` filter is probably required").

(** [convert_kwargs_to_cmd_line_args]. *)
Definition convert_kwargs_to_cmd_line_args (kw : kwargs) : list string :=
  flat_map (fun e : string * pyval =>
              match snd e with
              | PyNone => ["-" +:+ fst e]
              | v => ["-" +:+ fst e; py_str v]
              end)
    (sorted_items kw).

(** [_get_input_args]. *)
Definition get_input_args (n : node) : outcome (list string) :=
  match dict_get "filename" (node_kwargs n) with
  | None => Raises (KeyError "filename")
  | Some filename =>
      let kw := dict_remove "filename" (node_kwargs n) in
      let fmt := dict_get "format" kw in
      let kw := dict_remove "format" kw in
      Returns
        (match fmt with
         | Some (PyStr "") | None | Some PyNone => []
         | Some f => ["-f"; py_str f]
         end
         ++ convert_kwargs_to_cmd_line_args kw
         ++ ["-i"; py_str filename])
  end.

(** [_get_output_args]. *)
Definition get_output_args (input_nodes filter_nodes : list node) (n : node)
    : outcome (list string) :=
  match incoming_edges n with
  | [] => Raises (ValueError "Output node has no mapped streams")
  | edges =>
      match map_outcome (fun e => format_input_stream_name input_nodes filter_nodes e true)
              edges with
      | Raises x => Raises x
      | Returns names =>
          let maps :=
            flat_map (fun nm : string =>
                        if (negb (String.eqb nm "0") || Nat.ltb 1 (length edges))%bool
                        then ["-map"; nm] else [])
              names in
          match dict_get "filename" (node_kwargs n) with
          | None => Raises (KeyError "filename")
          | Some filename =>
              let kw := dict_remove "filename" (node_kwargs n) in
              let take (key flag : string) (kw : kwargs) : list string * kwargs :=
                match dict_get key kw with
                | Some v => ([flag; py_str v], dict_remove key kw)
                | None => ([], kw)
                end in
              let '(f_args, kw) := take "format" "-f" kw in
              let '(bv_args, kw) := take "video_bitrate" "-b:v" kw in
              let '(ba_args, kw) := take "audio_bitrate" "-b:a" kw in
              Returns (maps ++ f_args ++ bv_args ++ ba_args
                       ++ convert_kwargs_to_cmd_line_args kw
                       ++ [py_str filename])
          end
      end
  end.

(** [reduce(operator.add, lists)] without an initial value. *)
Definition reduce_add (lists : list (list string)) : outcome (list string) :=
  match lists with
  | [] => Raises (TypeError "reduce() of empty iterable with no initial value")
  | _ => Returns (List.concat lists)
  end.

Definition bind_outcome {A B} (o : outcome A) (f : A -> outcome B) : outcome B :=
  match o with
  | Raises e => Raises e
  | Returns a => f a
  end.

(** [get_args(stream)] with the default [overwrite_output=False]. *)
Definition get_args (s : stream) : outcome (list string) :=
  let sorted_nodes := topo_sort (fst s) in
  let input_nodes := List.filter (is_kind KInput) sorted_nodes in
  let output_nodes := List.filter (is_kind KOutput) sorted_nodes in
  let global_nodes := List.filter (is_kind KGlobal) sorted_nodes in
  let filter_nodes := List.filter (is_kind KFilter) sorted_nodes in
  bind_outcome (get_filter_arg sorted_nodes input_nodes filter_nodes) (fun filter_arg =>
  bind_outcome (map_outcome get_input_args input_nodes) (fun ins =>
  bind_outcome (reduce_add ins) (fun input_args =>
  bind_outcome (map_outcome (get_output_args input_nodes filter_nodes) output_nodes) (fun outs =>
  bind_outcome (reduce_add outs) (fun output_args =>
  Returns
    (input_args
     ++ (if String.eqb filter_arg "" then [] else ["-filter_complex"; filter_arg])
     ++ output_args
     ++ flat_map (fun n => map py_str (node_args n)) global_nodes)))))).

(** [ffmpeg.compile(stream)]: the command with the program name in front. *)
Definition compile (s : stream) : outcome (list string) :=
  bind_outcome (get_args s) (fun args => Returns ("ffmpeg" :: args)).

End ffmpeg.


Notation "'let*' x ':=' m 'in' k" := (ffmpeg.bind_outcome m (fun x => k))
  (at level 10, x name, m at level 100, k at level 200, only parsing).

(** ** Section 2 and 3 of the script: the streams of the library demos

    Each definition is the expression the demo binds to [stream]; it is
    evaluated inside the demo's [try], before [ffmpeg.run]. *)

(** Demo 4, lines 195-210. *)
Definition demo_ffmpeg_python_basic_stream
    (self : FFmpegMasterclass) (input_file : string) : outcome ffmpeg.stream :=
  let output_file := output_dir self // "converted_python.mp4" in
  Returns
    (ffmpeg.overwrite_output
       (ffmpeg.output [ffmpeg.input input_file []] (pathlib.str output_file)
          [ ("vcodec", PyStr "libx264"); ("acodec", PyStr "aac");
            ("video_bitrate", PyStr "2M"); ("audio_bitrate", PyStr "192k");
            ("preset", PyStr "medium") ])).

(** Demo 6, lines 282-293. *)
Definition demo_ffmpeg_python_filters_stream
    (self : FFmpegMasterclass) (input_file : string) : outcome ffmpeg.stream :=
  let output_file := output_dir self // "filtered_python.mp4" in
  let* s1 := ffmpeg.filter_ [ffmpeg.input input_file []] "scale"
               [PyInt 1280; PyInt 720] [] in
  let* s2 := ffmpeg.filter_ [s1] "fps" [] [("fps", PyInt 30)] in
  let* s3 := ffmpeg.filter_ [s2] "eq" []
               [("contrast", PyFloat "1.1"); ("brightness", PyFloat "0.05")] in
  let* s4 := ffmpeg.filter_ [s3] "hue" [] [("h", PyInt 10)] in
  Returns
    (ffmpeg.overwrite_output
       (ffmpeg.output [s4] (pathlib.str output_file)
          [("vcodec", PyStr "libx264"); ("crf", PyInt 23); ("acodec", PyStr "aac")])).

(** Demo 7, lines 318-331. *)
Definition demo_ffmpeg_python_trim_stream
    (self : FFmpegMasterclass) (input_file : string) (start duration : number)
    : outcome ffmpeg.stream :=
  let output_file := output_dir self // "trimmed.mp4" in
  Returns
    (ffmpeg.overwrite_output
       (ffmpeg.output
          [ffmpeg.input input_file
             [("ss", number_val start); ("t", number_val duration)]]
          (pathlib.str output_file)
          [("vcodec", PyStr "copy"); ("acodec", PyStr "copy")])).

(** Demo 8, lines 350-363. *)
Definition demo_ffmpeg_python_concat_stream
    (self : FFmpegMasterclass) (input_files : list string) : outcome ffmpeg.stream :=
  let output_file := output_dir self // "concatenated.mp4" in
  let inputs := map (fun f => ffmpeg.input f []) input_files in
  let* joined := ffmpeg.concat inputs 1 1 in
  Returns
    (ffmpeg.overwrite_output
       (ffmpeg.output [joined] (pathlib.str output_file)
          [("vcodec", PyStr "libx264"); ("acodec", PyStr "aac")])).

(** Demo 9, lines 381-397. *)
Definition demo_ffmpeg_python_overlay_stream
    (self : FFmpegMasterclass) (base_video overlay_video : string)
    : outcome ffmpeg.stream :=
  let output_file := output_dir self // "overlay.mp4" in
  let base := ffmpeg.input base_video [] in
  let overlay := ffmpeg.input overlay_video [] in
  let* scaled := ffmpeg.filter_ [overlay] "scale" [PyStr "iw/4"; PyStr "ih/4"] [] in
  let* mixed := ffmpeg.filter_ [base; scaled] "overlay" []
                  [("x", PyStr "W-w-10"); ("y", PyStr "H-h-10")] in
  Returns
    (ffmpeg.overwrite_output
       (ffmpeg.output [mixed] (pathlib.str output_file)
          [("vcodec", PyStr "libx264"); ("acodec", PyStr "aac")])).

(** Demo 10, lines 421-431. *)
Definition demo_extract_frames_stream
    (self : FFmpegMasterclass) (input_file : string) (fps : Z)
    : outcome ffmpeg.stream :=
  let frames_dir := output_dir self // "frames" in
  let output_pattern := frames_dir // "frame_%04d.png" in
  let* s := ffmpeg.filter_ [ffmpeg.input input_file []] "fps" [] [("fps", PyInt fps)] in
  Returns
    (ffmpeg.overwrite_output
       (ffmpeg.output [s] (pathlib.str output_pattern)
          [("format", PyStr "image2"); ("vcodec", PyStr "png")])).

(** Demo 11, lines 449-456. *)
Definition demo_create_video_from_images_stream
    (self : FFmpegMasterclass) (image_pattern : string) (fps : Z)
    : outcome ffmpeg.stream :=
  let output_file := output_dir self // "from_images.mp4" in
  Returns
    (ffmpeg.overwrite_output
       (ffmpeg.output
          [ffmpeg.input image_pattern
             [("pattern_type", PyStr "glob"); ("framerate", PyInt fps)]]
          (pathlib.str output_file)
          [("vcodec", PyStr "libx264"); ("pix_fmt", PyStr "yuv420p"); ("crf", PyInt 20)])).

(** Demo 12, lines 474-487. *)
Definition demo_add_audio_to_video_stream
    (self : FFmpegMasterclass) (video_file audio_file : string)
    : outcome ffmpeg.stream :=
  let output_file := output_dir self // "with_audio.mp4" in
  let video := ffmpeg.input video_file [] in
  let audio := ffmpeg.input audio_file [] in
  Returns
    (ffmpeg.overwrite_output
       (ffmpeg.output [ffmpeg.video video; ffmpeg.audio audio]
          (pathlib.str output_file)
          [("vcodec", PyStr "copy"); ("acodec", PyStr "aac"); ("shortest", PyNone)])).

(** Demo 13, lines 505-515. *)
Definition demo_create_gif_stream
    (self : FFmpegMasterclass) (input_file : string) (start duration : number)
    : outcome ffmpeg.stream :=
  let output_file := output_dir self // "output.gif" in
  let* s1 := ffmpeg.filter_
               [ffmpeg.input input_file
                  [("ss", number_val start); ("t", number_val duration)]]
               "fps" [] [("fps", PyInt 10)] in
  let* s2 := ffmpeg.filter_ [s1] "scale" [PyInt 480; PyInt (-1)] [] in
  Returns
    (ffmpeg.overwrite_output
       (ffmpeg.output [s2] (pathlib.str output_file) [("format", PyStr "gif")])).

(** Demo 14, lines 535-552. *)
Definition demo_streaming_hls_stream
    (self : FFmpegMasterclass) (input_file : string) : outcome ffmpeg.stream :=
  let hls_dir := output_dir self // "hls" in
  let playlist := hls_dir // "playlist.m3u8" in
  Returns
    (ffmpeg.overwrite_output
       (ffmpeg.output [ffmpeg.input input_file []] (pathlib.str playlist)
          [ ("format", PyStr "hls"); ("start_number", PyInt 0);
            ("hls_time", PyInt 10); ("hls_list_size", PyInt 0);
            ("vcodec", PyStr "libx264"); ("acodec", PyStr "aac") ])).

(** Demo 15, lines 572-582. *)
Definition demo_watermark_stream
    (self : FFmpegMasterclass) (input_file watermark_image : string)
    : outcome ffmpeg.stream :=
  let output_file := output_dir self // "watermarked.mp4" in
  let video := ffmpeg.input input_file [] in
  let watermark := ffmpeg.input watermark_image [] in
  let* mixed := ffmpeg.filter_ [video; watermark] "overlay" []
                  [("x", PyStr "W-w-10"); ("y", PyStr "10")] in
  Returns
    (ffmpeg.overwrite_output
       (ffmpeg.output [mixed] (pathlib.str output_file)
          [("vcodec", PyStr "libx264"); ("acodec", PyStr "copy")])).

(** Demo 16, lines 600-610. *)
Definition demo_audio_visualization_stream
    (self : FFmpegMasterclass) (audio_file : string) : outcome ffmpeg.stream :=
  let output_file := output_dir self // "audio_viz.mp4" in
  let* s := ffmpeg.filter_ [ffmpeg.input audio_file []] "showwaves" []
              [("s", PyStr "1280x720"); ("mode", PyStr "line"); ("colors", PyStr "blue")] in
  Returns
    (ffmpeg.overwrite_output
       (ffmpeg.output [s] (pathlib.str output_file)
          [("vcodec", PyStr "libx264"); ("pix_fmt", PyStr "yuv420p");
           ("acodec", PyStr "aac")])).

(** ** The operations, as requests *)

(** One constructor for each demo that runs [ffmpeg] to write an output,
    with the arguments its caller supplies. *)
Inductive operation :=
| CliBasicConversion (input_file : string)
| CliWithFilters (input_file : string)
| CliExtractAudio (input_file : string)
| PythonBasic (input_file : string)
| PythonFilters (input_file : string)
| PythonTrim (input_file : string) (start duration : number)
| PythonConcat (input_files : list string)
| PythonOverlay (base_video overlay_video : string)
| ExtractFrames (input_file : string) (fps : Z)
| CreateVideoFromImages (image_pattern : string) (fps : Z)
| AddAudioToVideo (video_file audio_file : string)
| CreateGif (input_file : string) (start duration : number)
| StreamingHls (input_file : string)
| Watermark (input_file watermark_image : string)
| AudioVisualization (audio_file : string).

(** The stream of a library demo; [None] for the three CLI demos. *)
Definition operation_stream (self : FFmpegMasterclass) (op : operation)
    : option (outcome ffmpeg.stream) :=
  match op with
  | CliBasicConversion _ | CliWithFilters _ | CliExtractAudio _ => None
  | PythonBasic f => Some (demo_ffmpeg_python_basic_stream self f)
  | PythonFilters f => Some (demo_ffmpeg_python_filters_stream self f)
  | PythonTrim f s d => Some (demo_ffmpeg_python_trim_stream self f s d)
  | PythonConcat fs => Some (demo_ffmpeg_python_concat_stream self fs)
  | PythonOverlay b o => Some (demo_ffmpeg_python_overlay_stream self b o)
  | ExtractFrames f fps => Some (demo_extract_frames_stream self f fps)
  | CreateVideoFromImages p fps => Some (demo_create_video_from_images_stream self p fps)
  | AddAudioToVideo v a => Some (demo_add_audio_to_video_stream self v a)
  | CreateGif f s d => Some (demo_create_gif_stream self f s d)
  | StreamingHls f => Some (demo_streaming_hls_stream self f)
  | Watermark f w => Some (demo_watermark_stream self f w)
  | AudioVisualization f => Some (demo_audio_visualization_stream self f)
  end.

(** The command an operation hands to the process launcher: the list [cmd]
    of a CLI demo, [ffmpeg.compile(stream)] of a library demo. *)
Definition constructed_command (self : FFmpegMasterclass) (op : operation)
    : outcome (list string) :=
  match op with
  | CliBasicConversion f => Returns (demo_cli_basic_conversion_cmd self f)
  | CliWithFilters f => Returns (demo_cli_with_filters_cmd self f)
  | CliExtractAudio f => Returns (demo_cli_extract_audio_cmd self f)
  | _ =>
      match operation_stream self op with
      | Some s => let* st := s in ffmpeg.compile st
      | None => Raises (ValueError "no stream")
      end
  end.

(** The argument sequence: the command without the program name. *)
Definition constructed_args (self : FFmpegMasterclass) (op : operation)
    : outcome (list string) :=
  let* cmd := constructed_command self op in Returns (tail cmd).

(** The input paths the caller supplies. *)
Definition input_paths (op : operation) : list string :=
  match op with
  | CliBasicConversion f | CliWithFilters f | CliExtractAudio f
  | PythonBasic f | PythonFilters f | PythonTrim f _ _
  | ExtractFrames f _ | CreateVideoFromImages f _ | CreateGif f _ _
  | StreamingHls f | AudioVisualization f => [f]
  | PythonConcat fs => fs
  | PythonOverlay a b | AddAudioToVideo a b | Watermark a b => [a; b]
  end.

(** ** The grammar of the ffmpeg command line

    As far as the constructed commands use it: [-i] takes the next token as
    an input url; [-vn], [-y] and [-shortest] are switches; every other
    token that starts with a dash takes the next token as its value; any
    other token is an output url. *)

Definition is_option (tok : string) : bool :=
  match tok with
  | String c (String _ _) => Ascii.eqb c "-"%char
  | _ => false
  end.

Definition is_switch (tok : string) : bool :=
  (String.eqb tok "-vn" || String.eqb tok "-y" || String.eqb tok "-shortest")%bool.

(** The input urls of an argument sequence, in order. *)
Fixpoint cli_inputs (args : list string) : list string :=
  match args with
  | [] => []
  | tok :: rest =>
      if String.eqb tok "-i" then
        match rest with
        | [] => []
        | url :: rest' => url :: cli_inputs rest'
        end
      else if (is_option tok && negb (is_switch tok))%bool then
        match rest with
        | [] => []
        | _ :: rest' => cli_inputs rest'
        end
      else cli_inputs rest
  end.


(** ** The environment: JSON values, processes, the file system *)

(** What [json.loads] returns. *)
Inductive json :=
| JNull
| JBool (b : bool)
| JInt (z : Z)
| JFloat (text : string)
| JStr (s : string)
| JList (l : list json)
| JDict (d : list (string * json)).

(** What launching a command does: the program is missing
    ([FileNotFoundError]), or it runs and exits.  Captured output is text;
    [bytes.decode()] of captured bytes is that same text. *)
Inductive launch :=
| NotFound
| Exited (returncode : Z) (stdout stderr : string).

Module posix.

Inductive node_type := Dir | File.

(** A file system: what is at each location.  A location is the list of
    names from the root; symbolic links are not modelled. *)
Abbreviation filesystem := (gmap (list string) node_type).

Inductive errno := ENOENT | ENOTDIR | EEXIST.

(** Follow [comps] from the directory [cur]: every step needs [cur] to be a
    directory; [..] goes up. *)
Fixpoint walk (fs : filesystem) (cur : list string) (comps : list string)
    : errno + list string :=
  match comps with
  | [] => inr cur
  | c :: rest =>
      match fs !! cur with
      | Some Dir => walk fs (if String.eqb c ".." then removelast cur else cur ++ [c]) rest
      | Some File => inl ENOTDIR
      | None => inl ENOENT
      end
  end.

(** Where a path starts: the root for an anchored path, else the working
    directory. *)
Definition start (cwd : Path) (p : Path) : list string :=
  match pathlib.anchor p with
  | EmptyString => pathlib.names cwd
  | _ => []
  end.

(** [mkdir(2)]. *)
Definition mkdir (cwd p : Path) (fs : filesystem) : errno + filesystem :=
  match rev (pathlib.names p) with
  | [] => inl EEXIST
  | c :: dirs =>
      match walk fs (start cwd p) (rev dirs) with
      | inl e => inl e
      | inr d =>
          match fs !! d with
          | None => inl ENOENT
          | Some File => inl ENOTDIR
          | Some Dir =>
              if String.eqb c ".." then inl EEXIST
              else
                match fs !! (d ++ [c]) with
                | Some _ => inl EEXIST
                | None => inr (<[d ++ [c] := Dir]> fs)
                end
          end
      end
  end.

(** [os.path.isdir]: false on every error. *)
Definition isdir (cwd p : Path) (fs : filesystem) : bool :=
  match walk fs (start cwd p) (pathlib.names p) with
  | inr d => match fs !! d with Some Dir => true | _ => false end
  | inl _ => false
  end.

End posix.

Definition oserror (e : posix.errno) (filename : string) : exn :=
  match e with
  | posix.ENOENT => FileNotFoundError filename
  | posix.ENOTDIR => NotADirectoryError filename
  | posix.EEXIST => FileExistsError filename
  end.

(** How a number is shown by the three format expressions of the probe demo
    that go through floating point. *)
Inductive float_format :=
| Seconds2f     (* f"{float(v):.2f}" *)
| Megabytes2f   (* f"{int(v) / 1024 / 1024:.2f}" *)
| Kbps0f.       (* f"{int(v) / 1000:.0f}" *)

(** What the script can observe of a run. *)
Inductive event :=
| Print (text : string)
| Spawn (cmd : list string) (l : launch).

Record state := mkState { fs : posix.filesystem; events : list event }.

(** The environment of a run.  Floating point is kept out of the model:
    the text of a formatted float comes from the environment, as does the
    parser of [json.loads] and the behaviour of [eval] on texts outside the
    fragment interpreted below. *)
Record env := {
  cwd : Path;
  launch_of : list string -> launch;
  json_loads : string -> outcome json;
  format_float : float_format -> json -> outcome string;
  format_quotient_2f : Z -> Z -> string;
  eval_other : string -> state -> state * outcome json
}.

(** ** Effects: a state, reader and exception monad *)

Definition M (A : Type) : Type := env -> state -> state * outcome A.

Definition ret {A} (a : A) : M A := fun _ st => (st, Returns a).

Definition bind {A B} (m : M A) (k : A -> M B) : M B :=
  fun e st =>
    match m e st with
    | (st', Returns a) => k a e st'
    | (st', Raises x) => (st', Raises x)
    end.

Definition raise {A} (x : exn) : M A := fun _ st => (st, Raises x).

Definition lift {A} (o : outcome A) : M A := fun _ st => (st, o).

(** [try: body except ...: handler]; the handler declines an exception it
    does not name. *)
Definition try_except {A} (body : M A) (handler : exn -> option (M A)) : M A :=
  fun e st =>
    match body e st with
    | (st', Raises x) =>
        match handler x with
        | Some h => h e st'
        | None => (st', Raises x)
        end
    | r => r
    end.

Notation "x <- m ;; k" := (bind m (fun x => k))
  (at level 100, m at next level, right associativity, only parsing).
Notation "m >> k" := (bind m (fun _ => k))
  (at level 100, right associativity, only parsing).

Definition nl : string := String (ascii_of_nat 10) "".

(** [print(text)]. *)
Definition print (text : string) : M unit :=
  fun _ st => ({| fs := fs st; events := events st ++ [Print text] |}, Returns tt).

(** Launch a command and wait for it: the common part of [subprocess.run]
    and [Popen(...).communicate()]. *)
Definition spawn (cmd : list string) : M (Z * string * string) :=
  fun e st =>
    let l := launch_of e cmd in
    ({| fs := fs st; events := events st ++ [Spawn cmd l] |},
     match l with
     | NotFound => Raises (FileNotFoundError (hd "" cmd))
     | Exited rc out err => Returns (rc, out, err)
     end).

Module subprocess.

(** [subprocess.run(cmd, check=check, ...)] with captured output. *)
Definition run (cmd : list string) (check : bool) : M (Z * string * string) :=
  r <- spawn cmd ;;
  let '(rc, out, err) := r in
  if (check && negb (rc =? 0))%bool
  then raise (CalledProcessError rc cmd out err)
  else ret r.

End subprocess.

(** [ffmpeg.run(stream, capture_stdout=True, capture_stderr=True)]. *)
Definition ffmpeg_run (s : ffmpeg.stream) : M (string * string) :=
  cmd <- lift (ffmpeg.compile s) ;;
  r <- spawn cmd ;;
  let '(rc, out, err) := r in
  if negb (rc =? 0) then raise (FFmpegError "ffmpeg" out err)
  else ret (out, err).

(** [ffmpeg.probe(filename)]. *)
Definition ffmpeg_probe (filename : string) : M json :=
  r <- spawn ["ffprobe"; "-show_format"; "-show_streams"; "-of"; "json"; filename] ;;
  let '(rc, out, err) := r in
  if negb (rc =? 0) then raise (FFmpegError "ffprobe" out err)
  else fun e st => (st, json_loads e out).

(** [path.mkdir(exist_ok=True)], with [parents] left at [False]. *)
Definition Path_mkdir_exist_ok (p : Path) : M unit :=
  fun e st =>
    match posix.mkdir (cwd e) p (fs st) with
    | inr fs' => ({| fs := fs'; events := events st |}, Returns tt)
    | inl posix.ENOENT => (st, Raises (FileNotFoundError (pathlib.str p)))
    | inl err =>
        if posix.isdir (cwd e) p (fs st) then (st, Returns tt)
        else (st, Raises (oserror err (pathlib.str p)))
    end.

(** ** The demos *)

Definition tick : string := "✓".
Definition cross : string := "✗".
Definition warning_sign : string := "⚠".

(** The three lines every demo starts with. *)
Definition banner (title : string) : M unit :=
  print (str_repeat "=" 80) >>
  print title >>
  print (str_repeat "=" 80).

Fixpoint print_all (lines : list string) : M unit :=
  match lines with
  | [] => ret tt
  | l :: ls => print l >> print_all ls
  end.

(** [__init__], lines 38-42. *)
Definition init (dir : string) : M FFmpegMasterclass :=
  let self := {| output_dir := pathlib.of_str dir |} in
  Path_mkdir_exist_ok (output_dir self) >>
  (fun e st =>
     print ("Output directory: "
            +:+ pathlib.str (pathlib.absolute (cwd e) (output_dir self))
            +:+ nl) e st) >>
  ret self.

(** Demo 1, lines 48-94. *)
Definition demo_cli_basic_conversion (self : FFmpegMasterclass) (input_file : string)
    : M unit :=
  banner "DEMO 1: Basic CLI Conversion (MP4 to WebM)" >>
  let output_file := output_dir self // "converted_basic.webm" in
  let cmd := demo_cli_basic_conversion_cmd self input_file in
  print ("Command: " +:+ join " " cmd +:+ nl) >>
  try_except
    (result <- subprocess.run cmd false ;;
     let '(returncode, _, stderr) := result in
     if returncode =? 0
     then print (tick +:+ " Success! Output: " +:+ pathlib.str output_file)
     else print (cross +:+ " Error: " +:+ stderr))
    (fun x =>
       match x with
       | FileNotFoundError _ =>
           Some (print (cross +:+ " ffmpeg not found! Please install ffmpeg first."))
       | e => Some (print (cross +:+ " Error: " +:+ exn_str e))
       end) >>
  print "".

(** Demo 2, lines 96-149. *)
Definition demo_cli_with_filters (self : FFmpegMasterclass) (input_file : string)
    : M unit :=
  banner "DEMO 2: CLI with Complex Filters" >>
  let output_file := output_dir self // "filtered_cli.mp4" in
  let cmd := demo_cli_with_filters_cmd self input_file in
  print_all
    [ "Filter chain:"; "  1. Scale to 1280x720"; "  2. Add text overlay with box";
      "  3. Adjust contrast and brightness";
      nl +:+ "Command: " +:+ join " " cmd +:+ nl ] >>
  try_except
    (subprocess.run cmd true >>
     print (tick +:+ " Success! Output: " +:+ pathlib.str output_file +:+ nl))
    (fun x =>
       match x with
       | CalledProcessError _ _ _ stderr =>
           Some (print (cross +:+ " Error: " +:+ stderr +:+ nl))
       | FileNotFoundError _ => Some (print (cross +:+ " ffmpeg not found!" +:+ nl))
       | _ => None
       end).

(** Demo 3, lines 151-180. *)
Definition demo_cli_extract_audio (self : FFmpegMasterclass) (input_file : string)
    : M unit :=
  banner "DEMO 3: Extract Audio Track" >>
  let output_file := output_dir self // "extracted_audio.mp3" in
  let cmd := demo_cli_extract_audio_cmd self input_file in
  print ("Command: " +:+ join " " cmd +:+ nl) >>
  try_except
    (subprocess.run cmd true >>
     print (tick +:+ " Success! Output: " +:+ pathlib.str output_file +:+ nl))
    (fun e => Some (print (cross +:+ " Error: " +:+ exn_str e +:+ nl))).

(** [except ffmpeg.Error as e: print(f"... {e.stderr.decode()}\n")]. *)
Definition except_ffmpeg_error (label : string) (x : exn) : option (M unit) :=
  match x with
  | FFmpegError _ _ stderr => Some (print (cross +:+ label +:+ stderr +:+ nl))
  | _ => None
  end.

(** The body shared by demos 6 to 16: build the stream, print the notes,
    run, print the success line; [ffmpeg.Error] is caught. *)
Definition library_demo (stream : outcome ffmpeg.stream) (notes : list string)
    (success : string) : M unit :=
  try_except
    (s <- lift stream ;;
     print_all notes >>
     ffmpeg_run s >>
     print success)
    (except_ffmpeg_error " Error: ").

Definition success_line (p : Path) : string :=
  tick +:+ " Success! Output: " +:+ pathlib.str p +:+ nl.

(** Demo 4, lines 186-222. *)
Definition demo_ffmpeg_python_basic (self : FFmpegMasterclass) (input_file : string)
    : M unit :=
  banner "DEMO 4: FFmpeg-Python Basic Conversion" >>
  let output_file := output_dir self // "converted_python.mp4" in
  try_except
    (s <- lift (demo_ffmpeg_python_basic_stream self input_file) ;;
     print "Generated FFmpeg command:" >>
     (cmd <- lift (ffmpeg.compile s) ;; print (join " " cmd)) >>
     print "" >>
     ffmpeg_run s >>
     print (success_line output_file))
    (except_ffmpeg_error " FFmpeg error: ").

(** Demo 6, lines 273-306. *)
Definition demo_ffmpeg_python_filters (self : FFmpegMasterclass) (input_file : string)
    : M unit :=
  banner "DEMO 6: FFmpeg-Python Filter Chain" >>
  library_demo (demo_ffmpeg_python_filters_stream self input_file)
    [ "Applied filters:"; "  1. Scale to 1280x720"; "  2. Set framerate to 30fps";
      "  3. Adjust contrast and brightness"; "  4. Shift hue"; "" ]
    (success_line (output_dir self // "filtered_python.mp4")).

(** Demo 7, lines 308-340. *)
Definition demo_ffmpeg_python_trim (self : FFmpegMasterclass) (input_file : string)
    (start duration : number) : M unit :=
  banner "DEMO 7: Trim Video" >>
  library_demo (demo_ffmpeg_python_trim_stream self input_file start duration)
    [ "Trimming from " +:+ py_str (number_val start) +:+ "s for "
        +:+ py_str (number_val duration) +:+ "s duration";
      "Using stream copy (no re-encoding)" +:+ nl ]
    (success_line (output_dir self // "trimmed.mp4")).

(** Demo 8, lines 342-371. *)
Definition demo_ffmpeg_python_concat (self : FFmpegMasterclass)
    (input_files : list string) : M unit :=
  banner "DEMO 8: Concatenate Videos" >>
  library_demo (demo_ffmpeg_python_concat_stream self input_files)
    [ "Concatenating " +:+ pretty (Z.of_nat (length input_files)) +:+ " videos" +:+ nl ]
    (success_line (output_dir self // "concatenated.mp4")).

(** Demo 9, lines 373-407. *)
Definition demo_ffmpeg_python_overlay (self : FFmpegMasterclass)
    (base_video overlay_video : string) : M unit :=
  banner "DEMO 9: Video Overlay (Picture-in-Picture)" >>
  library_demo (demo_ffmpeg_python_overlay_stream self base_video overlay_video)
    [ "Creating picture-in-picture effect"; "  - Overlay scaled to 25%";
      "  - Positioned in bottom-right corner" +:+ nl ]
    (success_line (output_dir self // "overlay.mp4")).

(** Demo 10, lines 413-439. *)
Definition demo_extract_frames (self : FFmpegMasterclass) (input_file : string)
    (fps : Z) : M unit :=
  banner "DEMO 10: Extract Frames as Images" >>
  let frames_dir := output_dir self // "frames" in
  Path_mkdir_exist_ok frames_dir >>
  library_demo (demo_extract_frames_stream self input_file fps)
    [ "Extracting " +:+ pretty fps +:+ " frame(s) per second" +:+ nl ]
    (tick +:+ " Success! Frames saved to: " +:+ pathlib.str frames_dir +:+ nl).

(** Demo 11, lines 441-464. *)
Definition demo_create_video_from_images (self : FFmpegMasterclass)
    (image_pattern : string) (fps : Z) : M unit :=
  banner "DEMO 11: Create Video from Images" >>
  library_demo (demo_create_video_from_images_stream self image_pattern fps)
    [ "Creating video from images at " +:+ pretty fps +:+ " fps" +:+ nl ]
    (success_line (output_dir self // "from_images.mp4")).

(** Demo 12, lines 466-495. *)
Definition demo_add_audio_to_video (self : FFmpegMasterclass)
    (video_file audio_file : string) : M unit :=
  banner "DEMO 12: Add/Replace Audio Track" >>
  library_demo (demo_add_audio_to_video_stream self video_file audio_file)
    [ "Replacing audio track" +:+ nl ]
    (success_line (output_dir self // "with_audio.mp4")).

(** Demo 13, lines 497-525. *)
Definition demo_create_gif (self : FFmpegMasterclass) (input_file : string)
    (start duration : number) : M unit :=
  banner "DEMO 13: Create Optimized GIF" >>
  library_demo (demo_create_gif_stream self input_file start duration)
    [ "Creating GIF from " +:+ py_str (number_val start) +:+ "s for "
        +:+ py_str (number_val duration) +:+ "s";
      "  - 10 fps"; "  - Width: 480px" +:+ nl ]
    (success_line (output_dir self // "output.gif")).

(** Demo 14, lines 527-562. *)
Definition demo_streaming_hls (self : FFmpegMasterclass) (input_file : string)
    : M unit :=
  banner "DEMO 14: Create HLS Streaming Segments" >>
  let hls_dir := output_dir self // "hls" in
  Path_mkdir_exist_ok hls_dir >>
  library_demo (demo_streaming_hls_stream self input_file)
    [ "Creating HLS segments"; "  - 10 second segments";
      "  - H.264 video, AAC audio" +:+ nl ]
    (tick +:+ " Success! Playlist: " +:+ pathlib.str (hls_dir // "playlist.m3u8") +:+ nl).

(** Demo 15, lines 564-590. *)
Definition demo_watermark (self : FFmpegMasterclass)
    (input_file watermark_image : string) : M unit :=
  banner "DEMO 15: Add Watermark" >>
  library_demo (demo_watermark_stream self input_file watermark_image)
    [ "Adding watermark to top-right corner" +:+ nl ]
    (success_line (output_dir self // "watermarked.mp4")).

(** Demo 16, lines 592-618. *)
Definition demo_audio_visualization (self : FFmpegMasterclass) (audio_file : string)
    : M unit :=
  banner "DEMO 16: Audio Waveform Visualization" >>
  library_demo (demo_audio_visualization_stream self audio_file)
    [ "Creating waveform visualization" +:+ nl ]
    (success_line (output_dir self // "audio_viz.mp4")).

(** Running an operation is calling its demo. *)
Definition run_operation (self : FFmpegMasterclass) (op : operation) : M unit :=
  match op with
  | CliBasicConversion f => demo_cli_basic_conversion self f
  | CliWithFilters f => demo_cli_with_filters self f
  | CliExtractAudio f => demo_cli_extract_audio self f
  | PythonBasic f => demo_ffmpeg_python_basic self f
  | PythonFilters f => demo_ffmpeg_python_filters self f
  | PythonTrim f s d => demo_ffmpeg_python_trim self f s d
  | PythonConcat fs => demo_ffmpeg_python_concat self fs
  | PythonOverlay b o => demo_ffmpeg_python_overlay self b o
  | ExtractFrames f fps => demo_extract_frames self f fps
  | CreateVideoFromImages p fps => demo_create_video_from_images self p fps
  | AddAudioToVideo v a => demo_add_audio_to_video self v a
  | CreateGif f s d => demo_create_gif self f s d
  | StreamingHls f => demo_streaming_hls self f
  | Watermark f w => demo_watermark self f w
  | AudioVisualization f => demo_audio_visualization self f
  end.

(** The texts printed by a run, in order. *)
Definition printed (evs : list event) : list string :=
  flat_map (fun ev => match ev with Print t => [t] | Spawn _ _ => [] end) evs.

(** ** Probing *)

(** [repr(v)] of a value that came from [json.loads]. *)
Fixpoint json_repr (j : json) : string :=
  match j with
  | JNull => "None"
  | JBool true => "True"
  | JBool false => "False"
  | JInt z => pretty z
  | JFloat text => text
  | JStr s => py_repr s
  | JList l => "[" +:+ join ", " (map json_repr l) +:+ "]"
  | JDict d =>
      "{" +:+ join ", "
                ((fix items (d : list (string * json)) : list string :=
                    match d with
                    | [] => []
                    | (k, v) :: d' => (py_repr k +:+ ": " +:+ json_repr v) :: items d'
                    end) d)
          +:+ "}"
  end.

(** [str(v)], what an f-string field prints. *)
Definition json_str (j : json) : string :=
  match j with
  | JStr s => s
  | _ => json_repr j
  end.

Fixpoint assoc (k : string) (d : list (string * json)) : option json :=
  match d with
  | [] => None
  | (k', v) :: d' => if String.eqb k k' then Some v else assoc k d'
  end.

(** [v[k]] for a text key [k]. *)
Definition subscript (j : json) (k : string) : outcome json :=
  match j with
  | JDict d =>
      match assoc k d with
      | Some v => Returns v
      | None => Raises (KeyError k)
      end
  | _ => Raises (TypeError "object is not subscriptable by a string")
  end.

(** [v.get(k, default)] on a dictionary. *)
Definition get_default (j : json) (k : string) (default : json) : outcome json :=
  match j with
  | JDict d => Returns (match assoc k d with Some v => v | None => default end)
  | _ => Raises (TypeError "object has no attribute 'get'")
  end.

Fixpoint chars (s : string) : list json :=
  match s with
  | EmptyString => []
  | String c s' => JStr (String c "") :: chars s'
  end.

(** The items [for s in v] goes through. *)
Definition iterate (j : json) : outcome (list json) :=
  match j with
  | JList l => Returns l
  | JDict d => Returns (map (fun e => JStr (fst e)) d)
  | JStr s => Returns (chars s)
  | _ => Raises (TypeError "object is not iterable")
  end.

(** [v == text]. *)
Definition eq_str (j : json) (text : string) : bool :=
  match j with
  | JStr s => String.eqb s text
  | _ => false
  end.

(** [if v:]. *)
Definition truthy (j : json) : bool :=
  match j with
  | JNull | JBool false | JInt 0 | JStr "" | JList [] | JDict [] => false
  | JFloat text => negb (String.eqb text "0.0" || String.eqb text "-0.0")
  | _ => true
  end.

(** [[s for s in streams if s["codec_type"] == codec_type]]. *)
Fixpoint streams_of_type (codec_type : string) (streams : list json)
    : outcome (list json) :=
  match streams with
  | [] => Returns []
  | s :: rest =>
      let* t := subscript s "codec_type" in
      let* more := streams_of_type codec_type rest in
      Returns (if eq_str t codec_type then s :: more else more)
  end.

(** [next((s for s in streams if s["codec_type"] == codec_type), None)]:
    the generator stops at the first match. *)
Fixpoint first_stream_of_type (codec_type : string) (streams : list json)
    : outcome json :=
  match streams with
  | [] => Returns JNull
  | s :: rest =>
      let* t := subscript s "codec_type" in
      if eq_str t codec_type then Returns s
      else first_stream_of_type codec_type rest
  end.

(** [get_video_info], lines 624-642. *)
Definition get_video_info (self : FFmpegMasterclass) (input_file : string) : M json :=
  try_except
    (probe <- ffmpeg_probe input_file ;;
     format <- lift (subscript probe "format") ;;
     video <- lift (let* streams := subscript probe "streams" in
                    let* l := iterate streams in
                    streams_of_type "video" l) ;;
     audio <- lift (let* streams := subscript probe "streams" in
                    let* l := iterate streams in
                    streams_of_type "audio" l) ;;
     subtitle <- lift (let* streams := subscript probe "streams" in
                       let* l := iterate streams in
                       streams_of_type "subtitle" l) ;;
     ret (JDict [ ("format", format);
                  ("video_streams", JList video);
                  ("audio_streams", JList audio);
                  ("subtitle_streams", JList subtitle) ]))
    (fun x =>
       match x with
       | FFmpegError _ _ stderr =>
           Some (print ("Error getting video info: " +:+ stderr) >> ret (JDict []))
       | _ => None
       end).

(** [check_ffmpeg_installed], lines 644-652. *)
Definition check_ffmpeg_installed (self : FFmpegMasterclass) : M bool :=
  try_except
    (result <- subprocess.run ["ffmpeg"; "-version"] false ;;
     let '(returncode, _, _) := result in
     ret (returncode =? 0))
    (fun x =>
       match x with
       | FileNotFoundError _ => Some (ret false)
       | _ => None
       end).

(** *** [eval] *)

(** The expressions interpreted here: a decimal numeral, a quotient of two
    numerals, and the call [__import__('os').mkdir('NAME')] for a plain
    file name.  Every other text is left to the environment. *)
Inductive pyexpr :=
| ENum (z : Z)
| EDiv (n d : Z)
| EOsMkdir (name : string).

Definition is_digit (c : ascii) : bool :=
  let n := N_of_ascii c in (N.leb 48 n && N.leb n 57)%bool.

Fixpoint all_chars (p : ascii -> bool) (s : string) : bool :=
  match s with
  | EmptyString => true
  | String c s' => if p c then all_chars p s' else false
  end.

(** A decimal integer literal: digits, with no leading zero unless all
    digits are zero. *)
Definition is_numeral (s : string) : bool :=
  match s with
  | EmptyString => false
  | String c _ =>
      (all_chars is_digit s
       && (negb (Ascii.eqb c "0"%char) || all_chars (Ascii.eqb "0"%char) s))%bool
  end.

Fixpoint numeral_value (acc : Z) (s : string) : Z :=
  match s with
  | EmptyString => acc
  | String c s' => numeral_value (10 * acc + (Z.of_N (N_of_ascii c) - 48)) s'
  end.

(** Cut [s] at its first ["/"]. *)
Fixpoint cut_slash (s : string) : option (string * string) :=
  match s with
  | EmptyString => None
  | String c s' =>
      if Ascii.eqb c "/"%char then Some ("", s')
      else match cut_slash s' with
           | Some (l, r) => Some (String c l, r)
           | None => None
           end
  end.

Fixpoint strip_prefix (pre s : string) : option string :=
  match pre, s with
  | EmptyString, _ => Some s
  | String a pre', String b s' => if Ascii.eqb a b then strip_prefix pre' s' else None
  | _, EmptyString => None
  end.

(** Cut [s] at its first single quote. *)
Fixpoint cut_quote (s : string) : option (string * string) :=
  match s with
  | EmptyString => None
  | String c s' =>
      if Ascii.eqb c "'"%char then Some ("", s')
      else match cut_quote s' with
           | Some (l, r) => Some (String c l, r)
           | None => None
           end
  end.

Definition is_name_char (c : ascii) : bool :=
  let n := N_of_ascii c in
  (N.leb 32 n && N.ltb n 127
   && negb (Ascii.eqb c "/"%char) && negb (Ascii.eqb c "\"%char))%bool.

Definition is_plain_name (s : string) : bool :=
  (all_chars is_name_char s
   && negb (String.eqb s "" || String.eqb s "." || String.eqb s ".."))%bool.

Definition parse_expr (text : string) : option pyexpr :=
  if is_numeral text then Some (ENum (numeral_value 0 text))
  else
    match cut_slash text with
    | Some (l, r) =>
        if (is_numeral l && is_numeral r)%bool
        then Some (EDiv (numeral_value 0 l) (numeral_value 0 r))
        else None
    | None =>
        match strip_prefix "__import__('os').mkdir('" text with
        | Some rest =>
            match cut_quote rest with
            | Some (name, ")") => if is_plain_name name then Some (EOsMkdir name) else None
            | _ => None
            end
        | None => None
        end
    end.

(** What [eval] gives back: the float of a true division, or an object. *)
Inductive evalue :=
| Quotient (n d : Z)
| Obj (j : json).

(** [os.mkdir(name)]. *)
Definition os_mkdir (name : string) : M unit :=
  fun e st =>
    match posix.mkdir (cwd e) (pathlib.of_str name) (fs st) with
    | inr fs' => ({| fs := fs'; events := events st |}, Returns tt)
    | inl err => (st, Raises (oserror err name))
    end.

(** [eval(v)]: only text is evaluated. *)
Definition py_eval (v : json) : M evalue :=
  match v with
  | JStr text =>
      match parse_expr text with
      | Some (ENum z) => ret (Obj (JInt z))
      | Some (EDiv n d) => if d =? 0 then raise ZeroDivisionError else ret (Quotient n d)
      | Some (EOsMkdir name) => os_mkdir name >> ret (Obj JNull)
      | None =>
          fun e st =>
            match eval_other e text st with
            | (st', Returns j) => (st', Returns (Obj j))
            | (st', Raises x) => (st', Raises x)
            end
      end
  | _ => raise (TypeError "eval() arg 1 must be a string, bytes or code object")
  end.

(** [f"{v:.2f}"] for the value of [eval]. *)
Definition format_2f (v : evalue) : M string :=
  match v with
  | Quotient n d => fun e st => (st, Returns (format_quotient_2f e n d))
  | Obj (JInt z) => fun e st => (st, Returns (format_quotient_2f e z 1))
  | Obj JNull =>
      raise (TypeError "unsupported format string passed to NoneType.__format__")
  | Obj (JStr _) => raise (ValueError "Unknown format code 'f' for object of type 'str'")
  | Obj (JList _) =>
      raise (TypeError "unsupported format string passed to list.__format__")
  | Obj (JDict _) =>
      raise (TypeError "unsupported format string passed to dict.__format__")
  | Obj j => fun e st => (st, format_float e Seconds2f j)
  end.

Definition show_float (f : float_format) (j : json) : M string :=
  fun e st => (st, format_float e f j).

(** Demo 5, lines 224-271. *)
Definition demo_ffmpeg_python_probe (self : FFmpegMasterclass) (input_file : string)
    : M unit :=
  banner "DEMO 5: Probe Video Metadata" >>
  try_except
    (probe <- ffmpeg_probe input_file ;;
     video_stream <- lift (let* streams := subscript probe "streams" in
                           let* l := iterate streams in
                           first_stream_of_type "video" l) ;;
     audio_stream <- lift (let* streams := subscript probe "streams" in
                           let* l := iterate streams in
                           first_stream_of_type "audio" l) ;;
     print "File Information:" >>
     (name <- lift (let* f := subscript probe "format" in
                    subscript f "format_long_name") ;;
      print ("  Format: " +:+ json_str name)) >>
     (d <- lift (let* f := subscript probe "format" in subscript f "duration") ;;
      t <- show_float Seconds2f d ;;
      print ("  Duration: " +:+ t +:+ " seconds")) >>
     (sz <- lift (let* f := subscript probe "format" in subscript f "size") ;;
      t <- show_float Megabytes2f sz ;;
      print ("  Size: " +:+ t +:+ " MB")) >>
     (br <- lift (let* f := subscript probe "format" in subscript f "bit_rate") ;;
      t <- show_float Kbps0f br ;;
      print ("  Bitrate: " +:+ t +:+ " kbps")) >>
     (if truthy video_stream then
        print (nl +:+ "Video Stream:") >>
        (c <- lift (subscript video_stream "codec_name") ;;
         print ("  Codec: " +:+ json_str c)) >>
        (w <- lift (subscript video_stream "width") ;;
         h <- lift (subscript video_stream "height") ;;
         print ("  Resolution: " +:+ json_str w +:+ "x" +:+ json_str h)) >>
        (r <- lift (get_default video_stream "r_frame_rate" (JStr "0/1")) ;;
         v <- py_eval r ;;
         t <- format_2f v ;;
         print ("  FPS: " +:+ t)) >>
        (p <- lift (get_default video_stream "pix_fmt" (JStr "N/A")) ;;
         print ("  Pixel Format: " +:+ json_str p))
      else ret tt) >>
     (if truthy audio_stream then
        print (nl +:+ "Audio Stream:") >>
        (c <- lift (subscript audio_stream "codec_name") ;;
         print ("  Codec: " +:+ json_str c)) >>
        (r <- lift (subscript audio_stream "sample_rate") ;;
         print ("  Sample Rate: " +:+ json_str r +:+ " Hz")) >>
        (c <- lift (subscript audio_stream "channels") ;;
         print ("  Channels: " +:+ json_str c)) >>
        (b <- lift (get_default audio_stream "bit_rate" (JInt 0)) ;;
         t <- show_float Kbps0f b ;;
         print ("  Bitrate: " +:+ t +:+ " kbps"))
      else ret tt) >>
     print "")
    (except_ffmpeg_error " Error probing file: ").

(** ** [main], lines 655-736 *)

Definition not_installed_line : string :=
  warning_sign +:+ " FFmpeg is not installed or not in PATH!".

Definition usage_lines : list string :=
  [ "USAGE EXAMPLES:"; str_repeat "-" 80; "";
    "# Basic conversion"; "masterclass.demo_cli_basic_conversion('input.mp4')"; "";
    "# Apply filters"; "masterclass.demo_cli_with_filters('input.mp4')"; "";
    "# Extract audio"; "masterclass.demo_cli_extract_audio('input.mp4')"; "";
    "# Using ffmpeg-python library"; "masterclass.demo_ffmpeg_python_basic('input.mp4')"; "";
    "# Probe video metadata"; "masterclass.demo_ffmpeg_python_probe('input.mp4')"; "";
    "# Apply filter chain"; "masterclass.demo_ffmpeg_python_filters('input.mp4')"; "";
    "# Trim video";
    "masterclass.demo_ffmpeg_python_trim('input.mp4', start=5, duration=10)"; "";
    "# Concatenate videos";
    "masterclass.demo_ffmpeg_python_concat(['vid1.mp4', 'vid2.mp4'])"; "";
    "# Picture-in-picture overlay";
    "masterclass.demo_ffmpeg_python_overlay('base.mp4', 'overlay.mp4')"; "";
    "# Extract frames"; "masterclass.demo_extract_frames('input.mp4', fps=1)"; "";
    "# Create video from images";
    "masterclass.demo_create_video_from_images('frames/*.png', fps=30)"; "";
    "# Add/replace audio";
    "masterclass.demo_add_audio_to_video('video.mp4', 'audio.mp3')"; "";
    "# Create GIF"; "masterclass.demo_create_gif('input.mp4', start=10, duration=5)"; "";
    "# Create HLS streaming segments"; "masterclass.demo_streaming_hls('input.mp4')"; "";
    "# Add watermark"; "masterclass.demo_watermark('input.mp4', 'logo.png')"; "";
    "# Audio visualization"; "masterclass.demo_audio_visualization('audio.mp3')"; "";
    str_repeat "=" 80;
    nl +:+ "To run these demos, provide your own video files and uncomment";
    "the desired demo calls in the main() function.";
    "";
    "All outputs will be saved to: ./ffmpeg_output/";
    str_repeat "=" 80 +:+ nl ].

Definition main : M unit :=
  print (nl +:+ str_repeat "=" 80) >>
  print (str_repeat " " 25 +:+ "FFmpeg Masterclass") >>
  print (str_repeat "=" 80 +:+ nl) >>
  masterclass <- init "./ffmpeg_output" ;;
  installed <- check_ffmpeg_installed masterclass ;;
  if negb installed then
    print_all
      [ not_installed_line;
        nl +:+ "Installation instructions:";
        "  Ubuntu/Debian: sudo apt install ffmpeg";
        "  macOS: brew install ffmpeg";
        "  Windows: Download from https://ffmpeg.org/download.html" ]
  else
    print (tick +:+ " FFmpeg is installed and ready!" +:+ nl) >>
    print_all usage_lines.


(** [needle in text]. *)
Fixpoint substring_at (needle text : string) : bool :=
  match needle, text with
  | EmptyString, _ => true
  | String a n', String b t' => if Ascii.eqb a b then substring_at n' t' else false
  | _, EmptyString => false
  end.

Fixpoint contains (needle text : string) : bool :=
  if substring_at needle text then true
  else match text with
       | EmptyString => false
       | String _ t' => contains needle t'
       end.


(** ** Vocabulary of the properties *)

(** The supplied paths without repetition, first occurrences kept. *)
Fixpoint uniq (seen : list string) (paths : list string) : list string :=
  match paths with
  | [] => seen
  | p :: rest =>
      if existsb (String.eqb p) seen then uniq seen rest
      else uniq (seen ++ [p]) rest
  end.

(** The requests for which a stream can be built: [ffmpeg.concat] with
    [v=1, a=1] takes its streams two by two and wants at least one. *)
Definition request_ok (op : operation) : bool :=
  match op with
  | PythonConcat fs =>
      (Z.of_nat (length fs) mod 2 =? 0) && negb (Nat.eqb (length fs) 0)
  | _ => true
  end%bool.




(** The overwrite flag closes the sequence: it is the last argument, or the
    last before the output path. *)
Definition overwrite_flag_appended (args : list string) : Prop :=
  exists pre, args = pre ++ ["-y"] \/ exists out, args = pre ++ ["-y"; out].

(** The line a failed run prints shows the error stream as it is. *)
Definition surfaces_verbatim (stderr : string) (lines : list string) : Prop :=
  exists label, In (cross +:+ label +:+ stderr) lines
             \/ In (cross +:+ label +:+ stderr +:+ nl) lines.


(** The nodes of the graphs the demos build, named for the proofs. *)
Definition input_node (f : string) : ffmpeg.node :=
  ffmpeg.Node ffmpeg.KInput "input" [] [("filename", PyStr f)] [].

Definition concat_node (files : list string) : ffmpeg.node :=
  ffmpeg.Node ffmpeg.KFilter "concat" []
    [ ("v", PyInt 1); ("a", PyInt 1);
      ("n", PyInt (Z.of_nat (length (map (fun f => ffmpeg.input f []) files)) / (1 + 1))) ]
    (map (fun f => ffmpeg.input f []) files).

Definition concat_output (files : list string) (out : string) : ffmpeg.node :=
  ffmpeg.Node ffmpeg.KOutput "output" []
    [("vcodec", PyStr "libx264"); ("acodec", PyStr "aac"); ("filename", PyStr out)]
    [(concat_node files, None)].

Definition concat_global (files : list string) (out : string) : ffmpeg.node :=
  ffmpeg.Node ffmpeg.KGlobal "overwrite_output" [PyStr "-y"] []
    [(concat_output files out, None)].

(** ** Names used by the statements *)

(** The characters of a decimal numeral. *)
Definition numeral_char (c : ascii) : bool :=
  (is_digit c || Ascii.eqb c "-"%char)%bool.

Definition demo_self : FFmpegMasterclass :=
  {| output_dir := pathlib.of_str "./ffmpeg_output" |}.


Definition probe_cmd (input_file : string) : list string :=
  ["ffprobe"; "-show_format"; "-show_streams"; "-of"; "json"; input_file].

(** The stream record has a [codec_type] entry. *)
Definition has_codec_type (s : json) : Prop :=
  exists t, subscript s "codec_type" = Returns t.

(** The stream's [codec_type] is the text [codec_type]. *)
Definition is_type (codec_type : string) (s : json) : bool :=
  match subscript s "codec_type" with
  | Returns t => eq_str t codec_type
  | Raises _ => false
  end.

Definition sample_streams : list json :=
  [ JDict [("index", JInt 0); ("codec_type", JStr "video")];
    JDict [("index", JInt 1); ("codec_type", JStr "audio")];
    JDict [("index", JInt 2); ("codec_type", JStr "data")] ].

Definition sample_format : json :=
  JDict [("format_long_name", JStr "QuickTime / MOV")].

Definition sample_probe : list (string * json) :=
  [ ("streams", JList sample_streams); ("format", sample_format) ].

Definition sample_env : env :=
  {| cwd := pathlib.of_str "/home/user";
     launch_of := fun _ => Exited 0 "{}" "";
     json_loads := fun _ => Returns (JDict sample_probe);
     format_float := fun _ _ => Returns "0.00";
     format_quotient_2f := fun _ _ => "0.00";
     eval_other := fun _ st => (st, Returns JNull) |}.

Definition home_fs : posix.filesystem :=
  {[ [] := posix.Dir; ["home"] := posix.Dir; ["home"; "user"] := posix.Dir ]}.

Definition home_state : state := {| fs := home_fs; events := [] |}.

(** [path.mkdir(exist_ok=True)] succeeds in this file system. *)
Definition mkdir_succeeds (cwd p : Path) (fs : posix.filesystem) : bool :=
  match posix.mkdir cwd p fs with
  | inr _ => true
  | inl posix.ENOENT => false
  | inl _ => posix.isdir cwd p fs
  end.

(** The file system it leaves. *)
Definition after_mkdir (cwd p : Path) (fs : posix.filesystem) : posix.filesystem :=
  match posix.mkdir cwd p fs with
  | inr fs' => fs'
  | inl _ => fs
  end.


Definition absent_env : env :=
  {| cwd := pathlib.of_str "/home/user";
     launch_of := fun _ => NotFound;
     json_loads := fun _ => Returns JNull;
     format_float := fun _ _ => Returns "0.00";
     format_quotient_2f := fun _ _ => "0.00";
     eval_other := fun _ st => (st, Returns JNull) |}.

(** The directories a demo makes before it builds its stream can be made. *)
Definition directories_ready (self : FFmpegMasterclass) (op : operation)
    (e : env) (st : state) : bool :=
  match op with
  | ExtractFrames _ _ => mkdir_succeeds (cwd e) (output_dir self // "frames") (fs st)
  | StreamingHls _ => mkdir_succeeds (cwd e) (output_dir self // "hls") (fs st)
  | _ => true
  end.

Definition failing_env (stderr : string) : env :=
  {| cwd := pathlib.of_str "/home/user";
     launch_of := fun _ => Exited 1 "" stderr;
     json_loads := fun _ => Returns JNull;
     format_float := fun _ _ => Returns "0.00";
     format_quotient_2f := fun _ _ => "0.00";
     eval_other := fun _ st => (st, Returns JNull) |}.

Definition missing_input_message : string := "clip.mp4: No such file or directory".

Definition hostile_frame_rate : string := "__import__('os').mkdir('pwned')".

(** A probe result whose video stream carries an expression with an effect
    in place of the frame rate. *)
Definition hostile_probe : json :=
  JDict
    [ ("streams",
       JList [ JDict [ ("codec_type", JStr "video"); ("codec_name", JStr "h264");
                       ("width", JInt 1920); ("height", JInt 1080);
                       ("r_frame_rate", JStr hostile_frame_rate) ] ]);
      ("format",
       JDict [ ("format_long_name", JStr "QuickTime / MOV");
               ("duration", JStr "1.000000"); ("size", JStr "1048576");
               ("bit_rate", JStr "8388608") ]) ].

Definition probing_env : env :=
  {| cwd := pathlib.of_str "/home/user";
     launch_of := fun _ => Exited 0 "{}" "";
     json_loads := fun _ => Returns hostile_probe;
     format_float := fun _ _ => Returns "1.00";
     format_quotient_2f := fun _ _ => "0.00";
     eval_other := fun _ st => (st, Returns JNull) |}.

(** ** Vocabulary of the runs *)

(** The commands a run handed to the process launcher, in order. *)
Definition commands (evs : list event) : list (list string) :=
  flat_map (fun ev => match ev with Spawn cmd _ => [cmd] | Print _ => [] end) evs.

(** The commands an operation launches: its constructed command, once its
    directories are made. *)
Definition launched (self : FFmpegMasterclass) (op : operation) (e : env) (st : state)
    : list (list string) :=
  match constructed_command self op with
  | Returns cmd => if directories_ready self op e st then [cmd] else []
  | Raises _ => []
  end.

(** Some line starts with the given mark. *)
Definition marked (mark : string) (lines : list string) : bool :=
  existsb (substring_at mark) lines.

(** The path a demo names in its success line: the output file, the
    playlist, or the directory of the frames. *)
Definition reported_path (self : FFmpegMasterclass) (op : operation) : Path :=
  match op with
  | CliBasicConversion _ => output_dir self // "converted_basic.webm"
  | CliWithFilters _ => output_dir self // "filtered_cli.mp4"
  | CliExtractAudio _ => output_dir self // "extracted_audio.mp3"
  | PythonBasic _ => output_dir self // "converted_python.mp4"
  | PythonFilters _ => output_dir self // "filtered_python.mp4"
  | PythonTrim _ _ _ => output_dir self // "trimmed.mp4"
  | PythonConcat _ => output_dir self // "concatenated.mp4"
  | PythonOverlay _ _ => output_dir self // "overlay.mp4"
  | ExtractFrames _ _ => output_dir self // "frames"
  | CreateVideoFromImages _ _ => output_dir self // "from_images.mp4"
  | AddAudioToVideo _ _ => output_dir self // "with_audio.mp4"
  | CreateGif _ _ _ => output_dir self // "output.gif"
  | StreamingHls _ => output_dir self // "hls" // "playlist.m3u8"
  | Watermark _ _ => output_dir self // "watermarked.mp4"
  | AudioVisualization _ => output_dir self // "audio_viz.mp4"
  end.

(** The path a demo hands to [ffmpeg] as its output: [output_file],
    [output_pattern] or [playlist]. *)
Definition output_path (self : FFmpegMasterclass) (op : operation) : Path :=
  match op with
  | ExtractFrames _ _ => output_dir self // "frames" // "frame_%04d.png"
  | _ => reported_path self op
  end.

(** The name of a demo's output under the output directory. *)
Definition output_name (op : operation) : string :=
  match op with
  | CliBasicConversion _ => "converted_basic.webm"
  | CliWithFilters _ => "filtered_cli.mp4"
  | CliExtractAudio _ => "extracted_audio.mp3"
  | PythonBasic _ => "converted_python.mp4"
  | PythonFilters _ => "filtered_python.mp4"
  | PythonTrim _ _ _ => "trimmed.mp4"
  | PythonConcat _ => "concatenated.mp4"
  | PythonOverlay _ _ => "overlay.mp4"
  | ExtractFrames _ _ => "frames/frame_%04d.png"
  | CreateVideoFromImages _ _ => "from_images.mp4"
  | AddAudioToVideo _ _ => "with_audio.mp4"
  | CreateGif _ _ _ => "output.gif"
  | StreamingHls _ => "hls/playlist.m3u8"
  | Watermark _ _ => "watermarked.mp4"
  | AudioVisualization _ => "audio_viz.mp4"
  end.

(** The number of the demo in the script. *)
Definition demo_number (op : operation) : nat :=
  match op with
  | CliBasicConversion _ => 1
  | CliWithFilters _ => 2
  | CliExtractAudio _ => 3
  | PythonBasic _ => 4
  | PythonFilters _ => 6
  | PythonTrim _ _ _ => 7
  | PythonConcat _ => 8
  | PythonOverlay _ _ => 9
  | ExtractFrames _ _ => 10
  | CreateVideoFromImages _ _ => 11
  | AddAudioToVideo _ _ => 12
  | CreateGif _ _ _ => 13
  | StreamingHls _ => 14
  | Watermark _ _ => 15
  | AudioVisualization _ => 16
  end%nat.

(** What [str] puts before the last name of a path under [p]. *)
Definition path_stem (p : Path) : string :=
  match pathlib.names p with
  | [] => pathlib.anchor p
  | ns => pathlib.anchor p +:+ join "/" ns +:+ "/"
  end.

(** The line a CLI demo prints when [ffmpeg] is not found: lines 90, 149
    and, with the text of the [FileNotFoundError], line 180. *)
Definition not_found_line (op : operation) : string :=
  match op with
  | CliBasicConversion _ => cross +:+ " ffmpeg not found! Please install ffmpeg first."
  | CliWithFilters _ => cross +:+ " ffmpeg not found!" +:+ nl
  | _ => cross +:+ " Error: [Errno 2] No such file or directory: 'ffmpeg'" +:+ nl
  end.

(** The demos that print their command: lines 76, 141, 174 and 214. *)
Definition shows_command (op : operation) : bool :=
  match op with
  | CliBasicConversion _ | CliWithFilters _ | CliExtractAudio _ | PythonBasic _ => true
  | _ => false
  end.

(** The line that shows the command [cmd]. *)
Definition command_shown (cmd : list string) (lines : list string) : Prop :=
  In ("Command: " +:+ join " " cmd +:+ nl) lines
  \/ In (nl +:+ "Command: " +:+ join " " cmd +:+ nl) lines
  \/ In (join " " cmd) lines.

(** The directory a demo makes under the output directory before it runs. *)
Definition subdirectory (op : operation) : option string :=
  match op with
  | ExtractFrames _ _ => Some "frames"
  | StreamingHls _ => Some "hls"
  | _ => None
  end.



(** The errors of a directory that cannot be made. *)
Definition mkdir_error (x : exn) (filename : string) : Prop :=
  x = FileNotFoundError filename \/ x = FileExistsError filename
  \/ x = NotADirectoryError filename.

(** The errors of a failed [s["codec_type"]]. *)
Definition lookup_error (x : exn) : Prop :=
  x = KeyError "codec_type" \/ exists msg, x = TypeError msg.

(** A step that leaves the file system as it is and launches nothing. *)
Definition quiet {A} (m : M A) (e : env) : Prop :=
  forall st,
    fs (fst (m e st)) = fs st
    /\ commands (events (fst (m e st))) = commands (events st).

(** What [ffmpeg.probe] returns, when [ffprobe] ran, exited with status 0
    and printed JSON. *)
Definition probe_result (e : env) (input_file : string) : option json :=
  match launch_of e (probe_cmd input_file) with
  | Exited 0 out _ =>
      match json_loads e out with
      | Returns probe => Some probe
      | Raises _ => None
      end
  | _ => None
  end.

(** The value the probe demo hands to [eval]: the [r_frame_rate] of the
    first video stream, ["0/1"] when the stream has none. *)
Definition displayed_frame_rate (probe : json) : option json :=
  match (let* streams := subscript probe "streams" in
         let* l := iterate streams in
         first_stream_of_type "video" l) with
  | Returns video_stream =>
      if truthy video_stream then
        match get_default video_stream "r_frame_rate" (JStr "0/1") with
        | Returns r => Some r
        | Raises _ => None
        end
      else None
  | Raises _ => None
  end.

(** A numeral or a quotient of two numerals, as [ffprobe] prints a rate. *)
Definition fraction_text (r : json) : bool :=
  match r with
  | JStr text =>
      match parse_expr text with
      | Some (ENum _) | Some (EDiv _ _) => true
      | _ => false
      end
  | _ => false
  end.

(** Whatever the probe demo evaluates is a numeral or a quotient. *)
Definition frame_rate_is_fraction (e : env) (input_file : string) : bool :=
  match probe_result e input_file with
  | Some probe =>
      match displayed_frame_rate probe with
      | Some r => fraction_text r
      | None => true
      end
  | None => true
  end.

(** A probe result with one video stream, whose frame rate is [rate]. *)
Definition video_probe (rate : json) : json :=
  JDict
    [ ("streams",
       JList [ JDict [ ("codec_type", JStr "video"); ("codec_name", JStr "h264");
                       ("width", JInt 1920); ("height", JInt 1080);
                       ("r_frame_rate", rate) ] ]);
      ("format",
       JDict [ ("format_long_name", JStr "QuickTime / MOV");
               ("duration", JStr "1.000000"); ("size", JStr "1048576");
               ("bit_rate", JStr "8388608") ]) ].


(** A probe result as [ffprobe] gives it for a video file. *)
Definition ordinary_probe : json := video_probe (JStr "30000/1001").

Definition ordinary_env : env :=
  {| cwd := pathlib.of_str "/home/user";
     launch_of := fun _ => Exited 0 "{}" "";
     json_loads := fun _ => Returns ordinary_probe;
     format_float := fun _ _ => Returns "1.00";
     format_quotient_2f := fun _ _ => "29.97";
     eval_other := fun _ st => (st, Returns JNull) |}.

(** The home directory after [__init__]. *)
Definition prepared_state : state :=
  {| fs := <[ ["home"; "user"; "ffmpeg_output"] := posix.Dir ]> home_fs; events := [] |}.

(** A home directory where a regular file has the name of the output
    directory. *)
Definition blocked_state : state :=
  {| fs := <[ ["home"; "user"; "ffmpeg_output"] := posix.File ]> home_fs; events := [] |}.

(** * Properties *)

(** ** Text and paths *)

Lemma append_cons (c : ascii) (s t : string) : String c s +:+ t = String c (s +:+ t).
Proof. reflexivity. Qed.

Lemma append_assoc (a b c : string) : (a +:+ b) +:+ c = a +:+ (b +:+ c).
Proof. induction a as [|x a IH]; [reflexivity | now rewrite !append_cons, IH]. Qed.

Lemma length_append (a b : string) :
  String.length (a +:+ b) = (String.length a + String.length b)%nat.
Proof.
  induction a as [|x a IH]; [reflexivity|].
  rewrite append_cons. cbn [String.length]. now rewrite IH.
Qed.

Lemma append_neq_empty (s t : string) : t <> "" -> s +:+ t <> "".
Proof. intros Ht. destruct s; [exact Ht | rewrite append_cons; discriminate]. Qed.

Lemma append_not_empty (s t : string) : t <> "" -> String.eqb (s +:+ t) "" = false.
Proof. intros Ht. now apply String.eqb_neq, append_neq_empty. Qed.

(** Joining a list that ends with [x] gives a text that ends with [x]. *)
Lemma join_snoc (sep : string) (l : list string) (x : string) :
  exists stem, join sep (l ++ [x]) = stem +:+ x.
Proof.
  induction l as [|y l [stem IH]].
  - exists "". reflexivity.
  - unfold join in *. cbn [app String.concat].
    destruct (l ++ [x]) as [|z r] eqn:E.
    + destruct l; discriminate.
    + exists (y +:+ sep +:+ stem). rewrite IH. now rewrite !append_assoc.
Qed.

(** A path extended by one plain name prints as a stem followed by the name. *)
Lemma str_joinpath_name (p : Path) (name : string) :
  pathlib.of_str name = pathlib.mkPath "" [name] ->
  exists stem, pathlib.str (p // name) = stem +:+ name.
Proof.
  intros Hname. unfold pathlib.joinpath. rewrite Hname.
  cbn [pathlib.anchor pathlib.names]. unfold pathlib.str.
  cbn [pathlib.anchor pathlib.names].
  destruct (join_snoc "/" (pathlib.names p) name) as [stem Hstem].
  destruct (pathlib.anchor p) as [|c a] eqn:Ha.
  - destruct (pathlib.names p ++ [name]) as [|z r] eqn:E.
    + destruct (pathlib.names p); discriminate.
    + exists stem. exact Hstem.
  - exists (String c a +:+ stem). rewrite Hstem. now rewrite append_assoc.
Qed.

(** A text that ends with a name of three characters or more is not the
    flag [-i]. *)
Lemma long_not_dash_i (stem name : string) :
  (2 < String.length name)%nat -> String.eqb (stem +:+ name) "-i" = false.
Proof.
  intros Hlen. apply String.eqb_neq. intros E.
  apply (f_equal String.length) in E. rewrite length_append in E. cbn in E. lia.
Qed.

(** The output path of a demo is not the flag [-i]. *)
Lemma output_not_dash_i (p : Path) (name : string) :
  pathlib.of_str name = pathlib.mkPath "" [name] ->
  (2 < String.length name)%nat ->
  String.eqb (pathlib.str (p // name)) "-i" = false.
Proof.
  intros Hname Hlen. destruct (str_joinpath_name p name Hname) as [stem ->].
  now apply long_not_dash_i.
Qed.

(** The filter chain of demo 2, in one piece. *)
Example filter_complex_cli_text :
  filter_complex_cli
  = "[0:v]scale=1280:720,drawtext=text='FFmpeg Demo':fontsize=48:fontcolor=white:x=(w-text_w)/2:y=50:box=1:boxcolor=black@0.5:boxborderw=5,eq=contrast=1.2:brightness=0.1[v]".
Proof. reflexivity. Qed.

(** ** C1: the extract-audio request *)

(** C1. The command of the extract-audio demo is [ffmpeg] followed by
    [-i <input> -vn -acodec libmp3lame -q:a 2 -y <output>], in this order,
    where the output is the path [extracted_audio.mp3] under the output
    directory and so ends in [.mp3]. *)
Theorem extract_audio_argument_sequence (self : FFmpegMasterclass) (input_file : string) :
  let output_file := pathlib.str (output_dir self // "extracted_audio.mp3") in
  demo_cli_extract_audio_cmd self input_file
    = "ffmpeg" :: [ "-i"; input_file; "-vn"; "-acodec"; "libmp3lame"; "-q:a"; "2";
                    "-y"; output_file ]
  /\ constructed_args self (CliExtractAudio input_file)
    = Returns [ "-i"; input_file; "-vn"; "-acodec"; "libmp3lame"; "-q:a"; "2";
                "-y"; output_file ]
  /\ exists stem, output_file = stem +:+ ".mp3".
Proof.
  intros output_file. split; [reflexivity | split; [reflexivity |]].
  destruct (str_joinpath_name (output_dir self) "extracted_audio.mp3" eq_refl)
    as [stem Hstem].
  exists (stem +:+ "extracted_audio"). unfold output_file. rewrite Hstem.
  now rewrite append_assoc.
Qed.

Example extract_audio_clip :
  constructed_args {| output_dir := pathlib.of_str "./ffmpeg_output" |}
    (CliExtractAudio "clip.mp4")
  = Returns [ "-i"; "clip.mp4"; "-vn"; "-acodec"; "libmp3lame"; "-q:a"; "2"; "-y";
              "ffmpeg_output/extracted_audio.mp3" ].
Proof. reflexivity. Qed.

(** ** The graph of a library demo and its rendering *)

Section Graph.

Import ffmpeg.

Lemma input_is_node f : input f [] = (input_node f, None).
Proof. reflexivity. Qed.

Lemma node_eqb_inputs f g : node_eqb (input_node f) (input_node g) = String.eqb f g.
Proof.
  unfold input_node. cbn. unfold kwargs_eqb. cbn. unfold item_eqb. cbn.
  unfold text_eqb. now destruct (String.eqb f g).
Qed.

Lemma node_eqb_input_inner f k nm a kw e inc :
  node_eqb (input_node f) (Node k nm a kw (e :: inc)) = false.
Proof. reflexivity. Qed.

Lemma node_eqb_inner_input f k nm a kw e inc :
  node_eqb (Node k nm a kw (e :: inc)) (input_node f) = false.
Proof. reflexivity. Qed.

Lemma mem_inputs f acc :
  mem (input_node f) (map input_node acc) = existsb (String.eqb f) acc.
Proof.
  induction acc as [|g acc IH]; [reflexivity|].
  cbn [map mem existsb]. rewrite node_eqb_inputs, IH. now destruct (String.eqb f g).
Qed.

Lemma visit_input f acc :
  visit (input_node f) acc
  = if mem (input_node f) acc then acc else acc ++ [input_node f].
Proof. reflexivity. Qed.

Lemma fold_visit_inputs files acc :
  fold_left (fun acc (e : node * option string) => visit (fst e) acc)
    (map (fun f => input f []) files) (map input_node acc)
  = map input_node (uniq acc files).
Proof.
  revert acc. induction files as [|f files IH]; intros acc; [reflexivity|].
  cbn [map fold_left uniq]. rewrite input_is_node. cbn [fst].
  rewrite visit_input, mem_inputs.
  destruct (existsb (String.eqb f) acc); [apply IH|].
  rewrite <- (IH (acc ++ [f])). now rewrite map_app.
Qed.

Lemma uniq_seen_nonempty seen paths : seen <> [] -> uniq seen paths <> [].
Proof.
  revert seen. induction paths as [|p paths IH]; intros seen H; [exact H|].
  cbn [uniq]. destruct (existsb (String.eqb p) seen); apply IH; [exact H|].
  now destruct seen.
Qed.

Lemma uniq_nonempty paths : paths <> [] -> uniq [] paths <> [].
Proof.
  destruct paths as [|p paths]; [intros H; now elim H|].
  intros _. cbn [uniq existsb]. apply uniq_seen_nonempty. discriminate.
Qed.

Lemma pyval_eqb_refl v : pyval_eqb v v = true.
Proof. destruct v; cbn; unfold text_eqb, int_eqb; auto using String.eqb_refl, Z.eqb_refl. Qed.

Lemma list_eqb_refl {A} (eqb : A -> A -> bool) (l : list A) :
  (forall x, In x l -> eqb x x = true) -> list_eqb eqb l l = true.
Proof.
  induction l as [|x l IH]; intros H; [reflexivity|].
  cbn [list_eqb]. rewrite (H x) by now left. apply IH. intros y Hy. apply H. now right.
Qed.

Lemma kwargs_eqb_refl kw : kwargs_eqb kw kw = true.
Proof.
  unfold kwargs_eqb. apply list_eqb_refl. intros [k v] _. unfold item_eqb. cbn.
  now rewrite String.eqb_refl, pyval_eqb_refl.
Qed.

Lemma concat_node_eqb_refl files : node_eqb (concat_node files) (concat_node files) = true.
Proof.
  unfold concat_node. cbn [node_eqb].
  rewrite list_eqb_refl.
  - cbn [list_eqb]. apply kwargs_eqb_refl.
  - intros [u s] Hin. apply in_map_iff in Hin as [f [Hf _]]. rewrite input_is_node in Hf.
    inversion Hf; subst. cbn [fst snd]. now rewrite node_eqb_inputs, String.eqb_refl.
Qed.

Lemma concat_node_not_input files g : node_eqb (concat_node files) (input_node g) = false.
Proof.
  unfold concat_node. destruct files as [|f files]; [|reflexivity].
  cbn. unfold kwargs_eqb. reflexivity.
Qed.

Lemma input_not_concat_node files g : node_eqb (input_node g) (concat_node files) = false.
Proof.
  unfold concat_node. destruct files as [|f files]; [|reflexivity].
  cbn. unfold kwargs_eqb. reflexivity.
Qed.

Lemma output_not_concat_node files out :
  files <> [] -> node_eqb (concat_output files out) (concat_node files) = false.
Proof.
  destruct files as [|f files]; [intros H; now elim H|]. intros _.
  unfold concat_output. unfold concat_node at 2. cbn [node_eqb map list_eqb fst snd].
  rewrite input_is_node. cbn [fst]. now rewrite (concat_node_not_input (f :: files)).
Qed.

Lemma topo_sort_concat files out :
  topo_sort (concat_global files out)
  = map input_node (uniq [] files)
    ++ [concat_node files; concat_output files out; concat_global files out].
Proof.
  unfold topo_sort, concat_global, concat_output, concat_node.
  cbn [visit mem fold_left fst].
  pose proof (fold_visit_inputs files []) as H. cbn [map] in H. rewrite H.
  now rewrite <- !app_assoc.
Qed.

Lemma filter_kind_inputs k U :
  List.filter (is_kind k) (map input_node U)
  = match k with KInput => map input_node U | _ => [] end.
Proof. induction U as [|f U IH]; destruct k; cbn in *; try reflexivity; now rewrite IH. Qed.

Lemma index_of_inputs f U :
  In f U -> exists i, index_of (input_node f) (map input_node U) = Some i.
Proof.
  induction U as [|g U IH]; [intros []|]. intros Hin. cbn [map index_of].
  rewrite node_eqb_inputs. destruct (String.eqb_spec f g) as [->|Hne]; [now exists 0%nat|].
  destruct Hin as [->|Hin]; [congruence|]. destruct (IH Hin) as [i Hi]. rewrite Hi. now exists (S i).
Qed.

Lemma index_of_concat_in_inputs files U :
  index_of (concat_node files) (map input_node U) = None.
Proof.
  induction U as [|g U IH]; [reflexivity|]. cbn [map index_of].
  now rewrite concat_node_not_input, IH.
Qed.

Lemma uniq_In_seen seen paths p : In p seen -> In p (uniq seen paths).
Proof.
  revert seen. induction paths as [|q paths IH]; intros seen H; [exact H|].
  cbn [uniq]. destruct (existsb (String.eqb q) seen); apply IH; [exact H|].
  apply in_or_app. now left.
Qed.

Lemma uniq_In seen paths p : In p (uniq seen paths) <-> In p seen \/ In p paths.
Proof.
  revert seen. induction paths as [|q paths IH]; intros seen; cbn [uniq].
  - split; [now left | intros [H|[]]; exact H].
  - destruct (existsb (String.eqb q) seen) eqn:E; rewrite IH.
    + apply existsb_exists in E as [x [Hx Hq]]. apply String.eqb_eq in Hq. subst x.
      split; [intros [H|H]; [now left | right; now right]|].
      intros [H|[->|H]]; [now left | now left | now right].
    + rewrite in_app_iff. cbn [In]. tauto.
Qed.

Lemma uniq_NoDup seen paths : List.NoDup seen -> List.NoDup (uniq seen paths).
Proof.
  revert seen. induction paths as [|q paths IH]; intros seen H; [exact H|].
  cbn [uniq]. destruct (existsb (String.eqb q) seen) eqn:E; apply IH; [exact H|].
  apply NoDup_ListNoDup. apply NoDup_ListNoDup in H. apply NoDup_app. split; [exact H|]. split.
  - intros x Hx Hq. apply list_elem_of_singleton in Hq. subst x.
    assert (existsb (String.eqb q) seen = true); [|congruence].
    apply existsb_exists. exists q. split; [now apply list_elem_of_In|apply String.eqb_refl].
  - apply NoDup_singleton.
Qed.

Lemma sorted_kinds files out :
  let sorted := map input_node (uniq [] files)
    ++ [concat_node files; concat_output files out; concat_global files out] in
  List.filter (is_kind KInput) sorted = map input_node (uniq [] files)
  /\ List.filter (is_kind KFilter) sorted = [concat_node files]
  /\ List.filter (is_kind KOutput) sorted = [concat_output files out]
  /\ List.filter (is_kind KGlobal) sorted = [concat_global files out].
Proof.
  cbn zeta. rewrite !List.filter_app, !filter_kind_inputs. cbn. rewrite app_nil_r. auto.
Qed.

Lemma incoming_concat_node files :
  incoming_edges (concat_node files) = map (fun f => input f []) files.
Proof. reflexivity. Qed.

Lemma incoming_concat_output files out :
  incoming_edges (concat_output files out) = [(concat_node files, None)].
Proof. reflexivity. Qed.

Lemma incoming_concat_global files out :
  incoming_edges (concat_global files out) = [(concat_output files out, None)].
Proof. reflexivity. Qed.

Lemma outgoing_count_concat files out :
  files <> [] ->
  outgoing_count (concat_node files)
    (map input_node (uniq [] files)
     ++ [concat_node files; concat_output files out; concat_global files out]) = 1%nat.
Proof.
  intros Hne. unfold outgoing_count. rewrite flat_map_app.
  assert (Hin : flat_map incoming_edges (map input_node (uniq [] files)) = []).
  { induction (uniq [] files) as [|f U IH]; [reflexivity | exact IH]. }
  rewrite Hin. cbn [app flat_map].
  rewrite incoming_concat_node, incoming_concat_output, incoming_concat_global.
  rewrite !List.filter_app.
  assert (Hedges : forall l, List.filter (fun e : stream => node_eqb (fst e) (concat_node files))
                     (map (fun f => input f []) l) = []).
  { induction l as [|f fs IH]; [reflexivity|].
    cbn [map List.filter]. rewrite input_is_node. cbn [fst].
    rewrite input_not_concat_node. exact IH. }
  rewrite Hedges. cbn [List.filter fst app].
  rewrite concat_node_eqb_refl, (output_not_concat_node files out Hne).
  reflexivity.
Qed.

Lemma input_stream_names files l U :
  (forall f, In f l -> In f U) ->
  exists names,
    map_outcome
      (fun e => format_input_stream_name (map input_node U) [concat_node files] e false)
      (map (fun f => input f []) l) = Returns names.
Proof.
  induction l as [|f fs IH]; intros Hsub.
  - now exists [].
  - destruct IH as [names Hn]; [intros g Hg; apply Hsub; now right|].
    cbn [map map_outcome]. rewrite Hn. rewrite input_is_node.
    unfold format_input_stream_name, stream_name. cbn [fst snd].
    destruct (index_of_inputs f U) as [i Hi]; [apply Hsub; now left|].
    rewrite Hi. cbn. eauto.
Qed.

Lemma input_args_of_inputs U :
  map_outcome get_input_args (map input_node U)
  = Returns (map (fun f => ["-i"; f]) U).
Proof.
  induction U as [|f U IH]; [reflexivity|].
  cbn [map map_outcome]. rewrite IH. reflexivity.
Qed.

Lemma concat_output_args files out U :
  get_output_args (map input_node U) [concat_node files] (concat_output files out)
  = Returns ["-map"; "[s0]"; "-acodec"; "aac"; "-vcodec"; "libx264"; out].
Proof.
  unfold get_output_args. rewrite incoming_concat_output.
  cbn [map_outcome]. unfold format_input_stream_name, stream_name. cbn [fst snd].
  rewrite index_of_concat_in_inputs. cbn [index_of]. rewrite concat_node_eqb_refl.
  reflexivity.
Qed.

Lemma get_args_concat files out :
  files <> [] ->
  exists graph,
    get_args (concat_global files out, None)
    = Returns (flat_map (fun f => ["-i"; f]) (uniq [] files)
               ++ [ "-filter_complex"; graph; "-map"; "[s0]"; "-acodec"; "aac";
                    "-vcodec"; "libx264"; out; "-y" ]).
Proof.
  intros Hne. unfold get_args. cbn [fst]. rewrite topo_sort_concat.
  destruct (sorted_kinds files out) as (Hi & Hf & Ho & Hg). cbn zeta in Hi, Hf, Ho, Hg.
  rewrite Hi, Hf, Ho, Hg.
  unfold get_filter_arg. cbn [forallb]. rewrite (outgoing_count_concat files out Hne).
  cbn [Nat.leb andb map_outcome]. unfold get_filter_spec.
  rewrite incoming_concat_node.
  destruct (input_stream_names files files (uniq [] files)) as [names Hnames].
  { intros f Hf'. apply uniq_In. now right. }
  rewrite Hnames. unfold stream_name. rewrite index_of_concat_in_inputs.
  cbn [index_of]. rewrite concat_node_eqb_refl.
  cbn [bind_outcome]. rewrite input_args_of_inputs. cbn [bind_outcome].
  unfold reduce_add at 1.
  destruct (map (fun f => ["-i"; f]) (uniq [] files)) as [|x xs] eqn:Emap.
  { apply map_eq_nil in Emap. now apply uniq_nonempty in Emap. }
  rewrite <- Emap. cbn [bind_outcome map_outcome].
  rewrite concat_output_args. cbn [bind_outcome reduce_add List.concat app flat_map].
  set (graph := join ";" _).
  assert (Hgraph : String.eqb graph "" = false).
  { unfold graph, join. cbn [String.concat].
    apply append_not_empty, append_neq_empty. rewrite append_cons. discriminate. }
  rewrite Hgraph. exists graph. rewrite flat_map_concat_map. reflexivity.
Qed.

End Graph.

(** ** The argument sequence of each operation *)

Lemma text_eqb_refl (s : string) : text_eqb s s = true.
Proof. apply String.eqb_refl. Qed.

Lemma int_eqb_refl (z : Z) : int_eqb z z = true.
Proof. apply Z.eqb_refl. Qed.

(** Evaluate the compiler on a graph whose file names are variables: the
    only tests that do not compute are equalities between values. *)
Ltac run_graph :=
  repeat (cbv -[text_eqb int_eqb]; rewrite ?text_eqb_refl, ?int_eqb_refl).

Ltac run_graph_distinct Hab Hba :=
  repeat (cbv -[text_eqb int_eqb];
          rewrite ?text_eqb_refl, ?int_eqb_refl, ?Hab, ?Hba).

Ltac open_request :=
  intros;
  unfold constructed_args, constructed_command, operation_stream,
    demo_ffmpeg_python_basic_stream, demo_ffmpeg_python_filters_stream,
    demo_ffmpeg_python_trim_stream, demo_ffmpeg_python_overlay_stream,
    demo_extract_frames_stream, demo_create_video_from_images_stream,
    demo_add_audio_to_video_stream, demo_create_gif_stream,
    demo_streaming_hls_stream, demo_watermark_stream,
    demo_audio_visualization_stream;
  match goal with
  | |- context [pathlib.str ?p] => generalize (pathlib.str p); intros out
  end.

Ltac split_paths a b Hab Hba :=
  destruct (String.eqb_spec a b) as [->|Hne];
  [| assert (Hab : text_eqb a b = false) by (now apply String.eqb_neq);
     assert (Hba : text_eqb b a = false) by (apply String.eqb_neq; congruence) ].

Lemma python_basic_args (self : FFmpegMasterclass) (f : string) :
  constructed_args self (PythonBasic f)
  = Returns [ "-i"; f; "-b:v"; "2M"; "-b:a"; "192k"; "-acodec"; "aac";
              "-preset"; "medium"; "-vcodec"; "libx264";
              pathlib.str (output_dir self // "converted_python.mp4"); "-y" ].
Proof. open_request. run_graph. reflexivity. Qed.

Lemma python_filters_args (self : FFmpegMasterclass) (f : string) :
  constructed_args self (PythonFilters f)
  = Returns [ "-i"; f; "-filter_complex";
              "[0]scale=1280:720[s0];[s0]fps=fps=30[s1];"
              +:+ "[s1]eq=brightness=0.05:contrast=1.1[s2];[s2]hue=h=10[s3]";
              "-map"; "[s3]"; "-acodec"; "aac"; "-crf"; "23"; "-vcodec"; "libx264";
              pathlib.str (output_dir self // "filtered_python.mp4"); "-y" ].
Proof. open_request. run_graph. reflexivity. Qed.

Lemma python_trim_args (self : FFmpegMasterclass) (f : string) (start duration : number) :
  constructed_args self (PythonTrim f start duration)
  = Returns [ "-ss"; py_str (number_val start); "-t"; py_str (number_val duration);
              "-i"; f; "-acodec"; "copy"; "-vcodec"; "copy";
              pathlib.str (output_dir self // "trimmed.mp4"); "-y" ].
Proof. open_request. destruct start, duration; run_graph; reflexivity. Qed.

Lemma python_overlay_args (self : FFmpegMasterclass) (a b : string) :
  constructed_args self (PythonOverlay a b)
  = Returns
      ((if String.eqb a b then ["-i"; a] else ["-i"; a; "-i"; b])
       ++ [ "-filter_complex";
            (if String.eqb a b
             then "[0]scale=iw/4:ih/4[s0];[0][s0]overlay=x=W-w-10:y=H-h-10[s1]"
             else "[1]scale=iw/4:ih/4[s0];[0][s0]overlay=x=W-w-10:y=H-h-10[s1]");
            "-map"; "[s1]"; "-acodec"; "aac"; "-vcodec"; "libx264";
            pathlib.str (output_dir self // "overlay.mp4"); "-y" ]).
Proof.
  open_request. split_paths a b Hab Hba.
  - run_graph. reflexivity.
  - run_graph_distinct Hab Hba. reflexivity.
Qed.

Lemma create_video_from_images_args (self : FFmpegMasterclass) (p : string) (fps : Z) :
  constructed_args self (CreateVideoFromImages p fps)
  = Returns [ "-framerate"; py_str (PyInt fps); "-pattern_type"; "glob"; "-i"; p;
              "-crf"; "20"; "-pix_fmt"; "yuv420p"; "-vcodec"; "libx264";
              pathlib.str (output_dir self // "from_images.mp4"); "-y" ].
Proof. open_request. run_graph. reflexivity. Qed.

Lemma add_audio_to_video_args (self : FFmpegMasterclass) (a b : string) :
  constructed_args self (AddAudioToVideo a b)
  = Returns
      ((if String.eqb a b then ["-i"; a] else ["-i"; a; "-i"; b])
       ++ [ "-map"; "0:v"; "-map"; (if String.eqb a b then "0:a" else "1:a");
            "-acodec"; "aac"; "-shortest"; "-vcodec"; "copy";
            pathlib.str (output_dir self // "with_audio.mp4"); "-y" ]).
Proof.
  open_request. split_paths a b Hab Hba.
  - run_graph. reflexivity.
  - run_graph_distinct Hab Hba. reflexivity.
Qed.

Lemma create_gif_args (self : FFmpegMasterclass) (f : string) (start duration : number) :
  constructed_args self (CreateGif f start duration)
  = Returns [ "-ss"; py_str (number_val start); "-t"; py_str (number_val duration);
              "-i"; f; "-filter_complex"; "[0]fps=fps=10[s0];[s0]scale=480:-1[s1]";
              "-map"; "[s1]"; "-f"; "gif";
              pathlib.str (output_dir self // "output.gif"); "-y" ].
Proof. open_request. destruct start, duration; run_graph; reflexivity. Qed.

Lemma streaming_hls_args (self : FFmpegMasterclass) (f : string) :
  constructed_args self (StreamingHls f)
  = Returns [ "-i"; f; "-f"; "hls"; "-acodec"; "aac"; "-hls_list_size"; "0";
              "-hls_time"; "10"; "-start_number"; "0"; "-vcodec"; "libx264";
              pathlib.str (output_dir self // "hls" // "playlist.m3u8"); "-y" ].
Proof. open_request. run_graph. reflexivity. Qed.

Lemma watermark_args (self : FFmpegMasterclass) (a b : string) :
  constructed_args self (Watermark a b)
  = Returns
      ((if String.eqb a b then ["-i"; a] else ["-i"; a; "-i"; b])
       ++ [ "-filter_complex";
            (if String.eqb a b then "[0][0]overlay=x=W-w-10:y=10[s0]"
             else "[0][1]overlay=x=W-w-10:y=10[s0]");
            "-map"; "[s0]"; "-acodec"; "copy"; "-vcodec"; "libx264";
            pathlib.str (output_dir self // "watermarked.mp4"); "-y" ]).
Proof.
  open_request. split_paths a b Hab Hba.
  - run_graph. reflexivity.
  - run_graph_distinct Hab Hba. reflexivity.
Qed.

Lemma audio_visualization_args (self : FFmpegMasterclass) (f : string) :
  constructed_args self (AudioVisualization f)
  = Returns [ "-i"; f; "-filter_complex";
              "[0]showwaves=colors=blue:mode=line:s=1280x720[s0]";
              "-map"; "[s0]"; "-acodec"; "aac"; "-pix_fmt"; "yuv420p";
              "-vcodec"; "libx264";
              pathlib.str (output_dir self // "audio_viz.mp4"); "-y" ].
Proof. open_request. run_graph. reflexivity. Qed.

(** ** Numbers in the filter graph *)

Lemma escape_chars_app (s t chars : string) :
  ffmpeg.escape_chars (s +:+ t) chars
  = ffmpeg.escape_chars s chars +:+ ffmpeg.escape_chars t chars.
Proof.
  induction s as [|c s IH]; [reflexivity|].
  rewrite append_cons. cbn [ffmpeg.escape_chars].
  destruct (ffmpeg.in_chars c chars); now rewrite !append_cons, IH.
Qed.

Lemma escape_chars_plain (s chars : string) :
  all_chars (fun c => negb (ffmpeg.in_chars c chars)) s = true ->
  ffmpeg.escape_chars s chars = s.
Proof.
  induction s as [|c s IH]; [reflexivity|]. cbn [all_chars ffmpeg.escape_chars].
  destruct (ffmpeg.in_chars c chars); cbn [negb]; [discriminate|].
  intros H. now rewrite IH.
Qed.

Lemma all_chars_weaken (p q : ascii -> bool) (s : string) :
  (forall c, p c = true -> q c = true) -> all_chars p s = true -> all_chars q s = true.
Proof.
  intros Hpq. induction s as [|c s IH]; [reflexivity|]. cbn [all_chars].
  destruct (p c) eqn:E; [|discriminate]. rewrite (Hpq c E). exact IH.
Qed.

Lemma pretty_N_char_digit (n : N) : is_digit (pretty_N_char n) = true.
Proof. destruct n as [|p]; [reflexivity|]. do 4 (destruct p as [p|p|]; try reflexivity). Qed.

Lemma pretty_N_go_digits (x : N) (s : string) :
  all_chars numeral_char s = true -> all_chars numeral_char (pretty_N_go x s) = true.
Proof.
  revert s. induction (N.lt_wf_0 x) as [x _ IH]. intros s Hs.
  destruct (N.eq_dec x 0) as [->|Hx].
  - now rewrite pretty_N_go_0.
  - rewrite pretty_N_go_step by lia. apply IH.
    + apply N.div_lt; lia.
    + cbn [all_chars]. unfold numeral_char at 1. rewrite pretty_N_char_digit. exact Hs.
Qed.

Lemma pretty_Z_numeral (z : Z) : all_chars numeral_char (pretty z) = true.
Proof.
  assert (HN : forall n : N, all_chars numeral_char (pretty n) = true).
  { intros n. unfold pretty, pretty_N. destruct (decide (n = 0%N)); [reflexivity|].
    now apply pretty_N_go_digits. }
  destruct z as [|p|p]; [reflexivity | apply HN |].
  change (pretty (Z.neg p)) with ("-" +:+ pretty (N.pos p)).
  rewrite append_cons. cbn [all_chars]. apply HN.
Qed.

Lemma numeral_char_cases (c : ascii) :
  numeral_char c = true ->
  negb (ffmpeg.in_chars c ffmpeg.filter_chars) = true
  /\ negb (ffmpeg.in_chars c ffmpeg.graph_chars) = true.
Proof.
  destruct c as [[] [] [] [] [] [] [] []]; cbv; intros H; try discriminate H; split; reflexivity.
Qed.

(** A rendered integer passes through both escapes of a filter unchanged. *)
Lemma escape_pretty (z : Z) (chars : string) :
  chars = ffmpeg.filter_chars \/ chars = ffmpeg.graph_chars ->
  ffmpeg.escape_chars (pretty z) chars = pretty z.
Proof.
  intros Hc. apply escape_chars_plain.
  apply (all_chars_weaken numeral_char); [|apply pretty_Z_numeral].
  intros c H. destruct (numeral_char_cases c H) as [H1 H2]. now destruct Hc as [->| ->].
Qed.

Lemma get_filter_fps (fps : Z) (inc : list (ffmpeg.node * option string)) :
  ffmpeg.get_filter (ffmpeg.Node ffmpeg.KFilter "fps" [] [("fps", PyInt fps)] inc)
  = "fps=fps=" +:+ pretty fps.
Proof.
  unfold ffmpeg.get_filter.
  cbn [ffmpeg.node_args ffmpeg.node_kwargs ffmpeg.node_name map fst snd py_str app
       ffmpeg.sorted_items fold_right ffmpeg.insert_sorted].
  rewrite (escape_pretty fps ffmpeg.filter_chars) by now left.
  change (ffmpeg.escape_chars "fps" ffmpeg.filter_chars) with "fps".
  unfold join. cbn [String.concat].
  rewrite !escape_chars_app.
  rewrite (escape_pretty fps ffmpeg.graph_chars) by now right.
  reflexivity.
Qed.

Lemma extract_frames_args (self : FFmpegMasterclass) (f : string) (fps : Z) :
  constructed_args self (ExtractFrames f fps)
  = Returns [ "-i"; f; "-filter_complex"; "[0]fps=fps=" +:+ pretty fps +:+ "[s0]";
              "-map"; "[s0]"; "-f"; "image2"; "-vcodec"; "png";
              pathlib.str (output_dir self // "frames" // "frame_%04d.png"); "-y" ].
Proof.
  open_request.
  repeat (cbv -[text_eqb int_eqb ffmpeg.get_filter pretty];
          rewrite ?text_eqb_refl, ?int_eqb_refl).
  rewrite get_filter_fps. reflexivity.
Qed.

Lemma request_ok_concat (files : list string) :
  request_ok (PythonConcat files) = true ->
  Z.of_nat (length files) mod 2 = 0 /\ files <> [].
Proof.
  unfold request_ok. intros H. apply andb_prop in H as [H1 H2].
  apply Z.eqb_eq in H1. split; [exact H1|]. intros ->. discriminate H2.
Qed.

Lemma python_concat_args (self : FFmpegMasterclass) (files : list string) :
  request_ok (PythonConcat files) = true ->
  exists graph,
    constructed_args self (PythonConcat files)
    = Returns (flat_map (fun f => ["-i"; f]) (uniq [] files)
               ++ [ "-filter_complex"; graph; "-map"; "[s0]"; "-acodec"; "aac";
                    "-vcodec"; "libx264";
                    pathlib.str (output_dir self // "concatenated.mp4"); "-y" ]).
Proof.
  intros Hok. destruct (request_ok_concat files Hok) as [Heven Hne].
  destruct (get_args_concat files (pathlib.str (output_dir self // "concatenated.mp4")) Hne)
    as [graph Hgraph].
  exists graph.
  unfold constructed_args, constructed_command, operation_stream,
    demo_ffmpeg_python_concat_stream, ffmpeg.concat.
  assert (Hcond : (Z.of_nat (length (map (fun f => ffmpeg.input f []) files)) mod (1 + 1) =? 0)
                  = true).
  { rewrite length_map. apply Z.eqb_eq. exact Heven. }
  rewrite Hcond. cbn [negb].
  unfold ffmpeg.filter_. destruct files as [|f files]; [now elim Hne|].
  cbn [map ffmpeg.bind_outcome]. unfold ffmpeg.compile.
  change (ffmpeg.overwrite_output _)
    with (concat_global (f :: files) (pathlib.str (output_dir self // "concatenated.mp4")),
          @None string).
  rewrite Hgraph. reflexivity.
Qed.

Lemma python_concat_refused (self : FFmpegMasterclass) (files : list string) :
  request_ok (PythonConcat files) = false ->
  exists msg, constructed_args self (PythonConcat files) = Raises (ValueError msg).
Proof.
  intros Hok.
  unfold constructed_args, constructed_command, operation_stream,
    demo_ffmpeg_python_concat_stream, ffmpeg.concat.
  rewrite length_map. change (1 + 1) with 2.
  destruct (Z.of_nat (length files) mod 2 =? 0) eqn:E; cbn [negb].
  - unfold request_ok in Hok. rewrite E in Hok. cbn [andb] in Hok.
    destruct files as [|f files]; [|discriminate Hok]. cbn. eauto.
  - cbn. eauto.
Qed.

(** ** Reading the argument sequence with the grammar *)

Lemma cli_inputs_input (url : string) (rest : list string) :
  cli_inputs ("-i" :: url :: rest) = url :: cli_inputs rest.
Proof. reflexivity. Qed.

Lemma cli_inputs_value (flag value : string) (rest : list string) :
  String.eqb flag "-i" = false -> is_option flag = true -> is_switch flag = false ->
  cli_inputs (flag :: value :: rest) = cli_inputs rest.
Proof. intros H1 H2 H3. cbn [cli_inputs]. now rewrite H1, H2, H3. Qed.

Lemma cli_inputs_switch (flag : string) (rest : list string) :
  is_switch flag = true -> cli_inputs (flag :: rest) = cli_inputs rest.
Proof.
  intros H. cbn [cli_inputs]. rewrite H.
  assert (Hi : String.eqb flag "-i" = false).
  { unfold is_switch in H. destruct (String.eqb_spec flag "-i") as [->|]; [discriminate H | reflexivity]. }
  rewrite Hi. now rewrite andb_false_r.
Qed.

(** The output path at the end of a CLI command names no input. *)
Lemma cli_inputs_last (out : string) : cli_inputs [out] = [].
Proof.
  cbn [cli_inputs]. destruct (String.eqb out "-i"); [reflexivity|].
  now destruct (is_option out && negb (is_switch out))%bool.
Qed.

(** Nor does the output path followed by the overwrite flag. *)
Lemma cli_inputs_output (out : string) :
  String.eqb out "-i" = false -> cli_inputs [out; "-y"] = [].
Proof.
  intros H. cbn [cli_inputs]. rewrite H.
  now destruct (is_option out && negb (is_switch out))%bool.
Qed.

Lemma cli_inputs_flat (paths rest : list string) :
  cli_inputs (flat_map (fun f => ["-i"; f]) paths ++ rest) = paths ++ cli_inputs rest.
Proof.
  induction paths as [|p paths IH]; [reflexivity|].
  cbn [flat_map app]. rewrite cli_inputs_input, IH. reflexivity.
Qed.

Ltac read_args :=
  repeat first
    [ rewrite cli_inputs_input
    | rewrite cli_inputs_value by reflexivity
    | rewrite cli_inputs_switch by reflexivity ].

Ltac close_output :=
  first
    [ apply cli_inputs_last
    | apply cli_inputs_output, output_not_dash_i; [reflexivity | cbn; lia]
    | rewrite cli_inputs_last; reflexivity
    | rewrite cli_inputs_output by (apply output_not_dash_i; [reflexivity | cbn; lia]);
      reflexivity ].

(** Every request [ffmpeg.concat] accepts gives an argument sequence whose
    input urls are the supplied paths, each once, in order of first use. *)
Lemma constructed_inputs (self : FFmpegMasterclass) (op : operation) :
  request_ok op = true ->
  exists args,
    constructed_args self op = Returns args
    /\ cli_inputs args = uniq [] (input_paths op).
Proof.
  intros Hok. destruct op as [f|f|f|f|f|f s d|fs|a b|f fps|f fps|a b|f s d|f|a b|f].
  - eexists. split; [reflexivity|]. cbn [input_paths uniq existsb app].
    unfold demo_cli_basic_conversion_cmd. cbn [tail]. read_args. f_equal. close_output.
  - eexists. split; [reflexivity|]. cbn [input_paths uniq existsb app].
    unfold demo_cli_with_filters_cmd. cbn [tail]. read_args. f_equal. close_output.
  - eexists. split; [reflexivity|]. cbn [input_paths uniq existsb app].
    unfold demo_cli_extract_audio_cmd. cbn [tail]. read_args. f_equal. close_output.
  - eexists. split; [apply python_basic_args|]. cbn [input_paths uniq existsb app].
    read_args. f_equal. close_output.
  - eexists. split; [apply python_filters_args|]. cbn [input_paths uniq existsb app].
    read_args. f_equal. close_output.
  - eexists. split; [apply python_trim_args|]. cbn [input_paths uniq existsb app].
    read_args. f_equal. close_output.
  - destruct (python_concat_args self fs Hok) as [graph Hargs].
    eexists. split; [exact Hargs|]. cbn [input_paths]. rewrite cli_inputs_flat.
    read_args. rewrite <- (app_nil_r (uniq [] fs)) at 2. f_equal. close_output.
  - eexists. split; [apply python_overlay_args|]. cbn [input_paths uniq existsb app orb].
    rewrite (String.eqb_sym b a).
    destruct (String.eqb a b); cbn [app]; read_args; f_equal; try f_equal; close_output.
  - eexists. split; [apply extract_frames_args|]. cbn [input_paths uniq existsb app].
    read_args. f_equal. close_output.
  - eexists. split; [apply create_video_from_images_args|]. cbn [input_paths uniq existsb app].
    read_args. f_equal. close_output.
  - eexists. split; [apply add_audio_to_video_args|]. cbn [input_paths uniq existsb app orb].
    rewrite (String.eqb_sym b a).
    destruct (String.eqb a b); cbn [app]; read_args; f_equal; try f_equal; close_output.
  - eexists. split; [apply create_gif_args|]. cbn [input_paths uniq existsb app].
    read_args. f_equal. close_output.
  - eexists. split; [apply streaming_hls_args|]. cbn [input_paths uniq existsb app].
    read_args. f_equal. close_output.
  - eexists. split; [apply watermark_args|]. cbn [input_paths uniq existsb app orb].
    rewrite (String.eqb_sym b a).
    destruct (String.eqb a b); cbn [app]; read_args; f_equal; try f_equal; close_output.
  - eexists. split; [apply audio_visualization_args|]. cbn [input_paths uniq existsb app].
    read_args. f_equal. close_output.
Qed.

(** An input url stands right after an [-i] flag. *)
Lemma cli_inputs_after_flag (args : list string) (p : string) :
  In p (cli_inputs args) -> exists pre post, args = pre ++ "-i" :: p :: post.
Proof.
  remember (length args) as n eqn:Hn. revert args Hn.
  induction n as [n IH] using lt_wf_ind. intros args Hn Hin.
  destruct args as [|tok rest]; [destruct Hin|]. cbn [cli_inputs] in Hin.
  destruct (String.eqb_spec tok "-i") as [->|Htok].
  - destruct rest as [|url rest']; [destruct Hin|].
    destruct Hin as [->|Hin]; [now exists [], rest'|].
    destruct (IH (length rest') ltac:(subst n; cbn; lia) rest' eq_refl Hin)
      as (pre & post & ->).
    now exists ("-i" :: url :: pre), post.
  - destruct (is_option tok && negb (is_switch tok))%bool.
    + destruct rest as [|v rest']; [destruct Hin|].
      destruct (IH (length rest') ltac:(subst n; cbn; lia) rest' eq_refl Hin)
        as (pre & post & ->).
      now exists (tok :: v :: pre), post.
    + destruct (IH (length rest) ltac:(subst n; cbn; lia) rest eq_refl Hin)
        as (pre & post & ->).
      now exists (tok :: pre), post.
Qed.

Lemma request_refused (self : FFmpegMasterclass) (op : operation) :
  request_ok op = false -> exists msg, constructed_args self op = Raises (ValueError msg).
Proof.
  destruct op; try discriminate. apply python_concat_refused.
Qed.

(** ** C2: every supplied input path, once, after the input flag *)

(** C2. Whenever an operation constructs an argument sequence, each input
    path the caller supplied is an input url of that sequence exactly once,
    it stands immediately after an [-i] flag, and the sequence has no other
    input url; a sequence is constructed for every request the library
    accepts. *)
Theorem input_paths_exactly_once (self : FFmpegMasterclass) (op : operation) :
  (forall args, constructed_args self op = Returns args ->
     (forall p, In p (input_paths op) ->
        count_occ String.string_dec (cli_inputs args) p = 1%nat
        /\ exists pre post, args = pre ++ "-i" :: p :: post)
     /\ (forall p, In p (cli_inputs args) -> In p (input_paths op)))
  /\ (request_ok op = true -> exists args, constructed_args self op = Returns args).
Proof.
  split.
  - intros args Hargs. destruct (request_ok op) eqn:Hok.
    + destruct (constructed_inputs self op Hok) as (args' & Hargs' & Hin).
      rewrite Hargs in Hargs'. injection Hargs' as <-.
      assert (Hiff : forall p, In p (cli_inputs args) <-> In p (input_paths op)).
      { intros p. rewrite Hin, uniq_In. cbn [In]. tauto. }
      split; [|intros p; apply Hiff].
      intros p Hp. apply Hiff in Hp. split; [|now apply cli_inputs_after_flag].
      revert p Hp. apply List.NoDup_count_occ'. rewrite Hin.
      apply uniq_NoDup. constructor.
    + destruct (request_refused self op Hok) as [msg Hmsg]. congruence.
  - intros Hok. destruct (constructed_inputs self op Hok) as (args & Hargs & _). eauto.
Qed.

(** ** C3: numeric arguments are rendered as they are *)



(** ** C6: the overwrite flag *)

Ltac flag_last :=
  match goal with
  | |- overwrite_flag_appended ?l => exists (removelast l); left; reflexivity
  end.

Ltac flag_before_output :=
  match goal with
  | |- overwrite_flag_appended ?l =>
      exists (removelast (removelast l)); right; eexists; reflexivity
  end.

Lemma constructed_overwrite (self : FFmpegMasterclass) (op : operation) :
  request_ok op = true ->
  exists args, constructed_args self op = Returns args /\ overwrite_flag_appended args.
Proof.
  intros Hok. destruct op as [f|f|f|f|f|f s d|fs|a b|f fps|f fps|a b|f s d|f|a b|f].
  - eexists. split; [reflexivity|]. cbn. flag_before_output.
  - eexists. split; [reflexivity|]. cbn. flag_before_output.
  - eexists. split; [reflexivity|]. cbn. flag_before_output.
  - eexists. split; [apply python_basic_args|]. flag_last.
  - eexists. split; [apply python_filters_args|]. flag_last.
  - eexists. split; [apply python_trim_args|]. flag_last.
  - destruct (python_concat_args self fs Hok) as [graph Hargs].
    eexists. split; [exact Hargs|].
    exists (flat_map (fun f => ["-i"; f]) (uniq [] fs)
            ++ [ "-filter_complex"; graph; "-map"; "[s0]"; "-acodec"; "aac";
                 "-vcodec"; "libx264";
                 pathlib.str (output_dir self // "concatenated.mp4") ]).
    left. rewrite <- app_assoc. reflexivity.
  - eexists. split; [apply python_overlay_args|]. destruct (String.eqb a b); flag_last.
  - eexists. split; [apply extract_frames_args|]. flag_last.
  - eexists. split; [apply create_video_from_images_args|]. flag_last.
  - eexists. split; [apply add_audio_to_video_args|]. destruct (String.eqb a b); flag_last.
  - eexists. split; [apply create_gif_args|]. flag_last.
  - eexists. split; [apply streaming_hls_args|]. flag_last.
  - eexists. split; [apply watermark_args|]. destruct (String.eqb a b); flag_last.
  - eexists. split; [apply audio_visualization_args|]. flag_last.
Qed.

(** C6. Whenever an operation constructs an argument sequence, the
    overwrite flag [-y] closes it: it is the last argument of a library
    demo and the last before the output path of a CLI demo, whatever the
    caller passes; a sequence is constructed for every request the library
    accepts. *)
Theorem overwrite_flag_unconditional (self : FFmpegMasterclass) (op : operation) :
  (forall args, constructed_args self op = Returns args -> overwrite_flag_appended args)
  /\ (request_ok op = true -> exists args, constructed_args self op = Returns args).
Proof.
  split.
  - intros args Hargs. destruct (request_ok op) eqn:Hok.
    + destruct (constructed_overwrite self op Hok) as (args' & Hargs' & H).
      rewrite Hargs in Hargs'. now injection Hargs' as <-.
    + destruct (request_refused self op Hok) as [msg Hmsg]. congruence.
  - intros Hok. destruct (constructed_overwrite self op Hok) as (args & Hargs & _). eauto.
Qed.

Lemma input_paths_exactly_once_witness :
  exists args,
    constructed_args demo_self (PythonOverlay "base.mp4" "overlay.mp4") = Returns args
    /\ count_occ String.string_dec (cli_inputs args) "overlay.mp4" = 1%nat.
Proof.
  destruct (input_paths_exactly_once demo_self (PythonOverlay "base.mp4" "overlay.mp4"))
    as [Hall Hex].
  destruct (Hex eq_refl) as [args Hargs]. exists args. split; [exact Hargs|].
  apply (Hall args Hargs). right. left. reflexivity.
Defined.


Lemma overwrite_flag_unconditional_witness :
  exists args,
    constructed_args demo_self (StreamingHls "input.mp4") = Returns args
    /\ overwrite_flag_appended args.
Proof.
  destruct (overwrite_flag_unconditional demo_self (StreamingHls "input.mp4")) as [Hall Hex].
  destruct (Hex eq_refl) as [args Hargs]. exists args. split; [exact Hargs|].
  exact (Hall args Hargs).
Defined.

(** ** C9: the installation check *)


(** ** C10: [get_video_info] *)





(** ** C7: creating the output directory *)

Lemma walk_app (fs : posix.filesystem) (cur : list string) (a b : list string) :
  posix.walk fs cur (a ++ b)
  = match posix.walk fs cur a with
    | inl err => inl err
    | inr d => posix.walk fs d b
    end.
Proof.
  revert cur. induction a as [|c a IH]; intros cur; [reflexivity|].
  cbn [app posix.walk]. destruct (fs !! cur) as [[]|]; [apply IH | reflexivity | reflexivity].
Qed.

(** A new directory at a free location does not disturb a walk that
    succeeded. *)
Lemma walk_insert (fs : posix.filesystem) (t cur comps d : list string) :
  fs !! t = None ->
  posix.walk fs cur comps = inr d ->
  posix.walk (<[t := posix.Dir]> fs) cur comps = inr d.
Proof.
  intros Ht. revert cur. induction comps as [|c comps IH]; intros cur H; [exact H|].
  cbn [posix.walk] in *. destruct (fs !! cur) as [[]|] eqn:Ecur; try discriminate H.
  rewrite lookup_insert_ne by congruence. rewrite Ecur. now apply IH.
Qed.

Lemma names_split (p : Path) (c : string) (rdirs : list string) :
  rev (pathlib.names p) = c :: rdirs -> pathlib.names p = rev rdirs ++ [c].
Proof. intros H. apply (f_equal (@rev string)) in H. now rewrite rev_involutive in H. Qed.



Lemma isdir_after_create (cwd p : Path) (fs : posix.filesystem)
    (dirs d : list string) (c : string) :
  pathlib.names p = dirs ++ [c] -> c <> ".." ->
  posix.walk fs (posix.start cwd p) dirs = inr d ->
  fs !! d = Some posix.Dir ->
  fs !! (d ++ [c]) = None ->
  posix.isdir cwd p (<[d ++ [c] := posix.Dir]> fs) = true.
Proof.
  intros Hnames Hc Hwalk Hd Ht. unfold posix.isdir.
  rewrite Hnames, walk_app, (walk_insert fs (d ++ [c]) _ dirs d Ht Hwalk).
  cbn [posix.walk]. rewrite lookup_insert_ne by congruence. rewrite Hd.
  apply String.eqb_neq in Hc. rewrite Hc. now rewrite lookup_insert_eq.
Qed.

Lemma mkdir_success_cases (p : Path) (e : env) (st st' : state) :
  Path_mkdir_exist_ok p e st = (st', Returns tt) ->
  (st' = st /\ posix.isdir (cwd e) p (fs st) = true)
  \/ exists dirs d c,
       pathlib.names p = dirs ++ [c] /\ c <> ".."
       /\ posix.walk (fs st) (posix.start (cwd e) p) dirs = inr d
       /\ fs st !! d = Some posix.Dir /\ fs st !! (d ++ [c]) = None
       /\ st' = {| fs := <[d ++ [c] := posix.Dir]> (fs st); events := events st |}.
Proof.
  unfold Path_mkdir_exist_ok.
  destruct (posix.mkdir (cwd e) p (fs st)) as [err|fs'] eqn:Emk.
  - destruct err; try discriminate;
      destruct (posix.isdir (cwd e) p (fs st)) eqn:Edir; try discriminate;
      intros H; injection H as <-; now left.
  - intros H. injection H as <-. right. unfold posix.mkdir in Emk.
    destruct (rev (pathlib.names p)) as [|c rdirs] eqn:Erev; [discriminate|].
    destruct (posix.walk (fs st) (posix.start (cwd e) p) (rev rdirs)) as [err|d] eqn:Ew;
      [discriminate|].
    destruct (fs st !! d) as [[]|] eqn:Ed; try discriminate.
    destruct (String.eqb_spec c "..") as [|Hc]; [discriminate|].
    destruct (fs st !! (d ++ [c])) eqn:Et; [discriminate|].
    injection Emk as <-. exists (rev rdirs), d, c.
    split; [now apply names_split|]. auto.
Qed.




(** ** C5: the run without ffmpeg *)

Lemma mkdir_run (p : Path) (e : env) (st : state) :
  mkdir_succeeds (cwd e) p (fs st) = true ->
  Path_mkdir_exist_ok p e st
  = ({| fs := after_mkdir (cwd e) p (fs st); events := events st |}, Returns tt).
Proof.
  unfold mkdir_succeeds, after_mkdir, Path_mkdir_exist_ok.
  destruct (posix.mkdir (cwd e) p (fs st)) as [[]|fs']; try discriminate;
    try reflexivity; intros ->; now destruct st.
Qed.







(** ** C4: what a failed run prints *)

Lemma state_eta (st : state) : {| fs := fs st; events := events st |} = st.
Proof. now destruct st. Qed.

Lemma print_all_run (lines : list string) (e : env) (st : state) :
  print_all lines e st
  = ({| fs := fs st; events := events st ++ map Print lines |}, Returns tt).
Proof.
  revert st. induction lines as [|l lines IH]; intros st.
  - cbn. now rewrite app_nil_r, state_eta.
  - cbn [print_all map]. unfold bind, print. rewrite IH. cbn [fs events].
    now rewrite <- app_assoc.
Qed.

Lemma banner_run (title : string) (e : env) (st : state) :
  banner title e st
  = ({| fs := fs st;
        events := events st
                  ++ [Print (str_repeat "=" 80); Print title; Print (str_repeat "=" 80)] |},
     Returns tt).
Proof. unfold banner, bind, print. cbn [fs events]. now rewrite <- !app_assoc. Qed.


(** The sibling demo with the same [subprocess.run] call prints the error
    stream. *)
Lemma with_filters_failure (self : FFmpegMasterclass) (input_file : string)
    (e : env) (st : state) (rc : Z) (out err : string) :
  launch_of e (demo_cli_with_filters_cmd self input_file) = Exited rc out err -> rc <> 0 ->
  surfaces_verbatim err
    (printed (events (fst (demo_cli_with_filters self input_file e st)))).
Proof.
  intros Hl Hrc. unfold demo_cli_with_filters.
  unfold bind at 1. rewrite banner_run. unfold bind at 1. rewrite print_all_run.
  cbn [fs events]. unfold try_except, subprocess.run, bind, spawn. cbn [fs events].
  rewrite Hl. apply Z.eqb_neq in Hrc. rewrite Hrc. cbn [andb negb].
  unfold raise, print. cbn [fs events fst].
  exists " Error: ". right. unfold printed. rewrite !flat_map_app. cbn [flat_map].
  apply in_or_app. right. now left.
Qed.

Lemma basic_conversion_failure (self : FFmpegMasterclass) (input_file : string)
    (e : env) (st : state) (rc : Z) (out err : string) :
  launch_of e (demo_cli_basic_conversion_cmd self input_file) = Exited rc out err -> rc <> 0 ->
  surfaces_verbatim err
    (printed (events (fst (demo_cli_basic_conversion self input_file e st)))).
Proof.
  intros Hl Hrc. unfold demo_cli_basic_conversion.
  unfold bind at 1. rewrite banner_run. unfold bind at 1. unfold print at 1.
  cbn [fs events]. unfold bind at 1.
  unfold try_except, subprocess.run, bind, spawn. cbn [fs events].
  rewrite Hl. cbn [andb]. unfold ret at 1. apply Z.eqb_neq in Hrc. rewrite Hrc.
  unfold print. cbn [fs events fst].
  exists " Error: ". left. unfold printed. rewrite !flat_map_app. cbn [flat_map].
  apply in_or_app. left. apply in_or_app. right. now left.
Qed.

(** The library demos print the error stream of [ffmpeg.Error]. *)
Lemma library_demo_failure (stream : outcome ffmpeg.stream) (s : ffmpeg.stream)
    (notes : list string) (success : string) (e : env) (st : state)
    (cmd : list string) (rc : Z) (out err : string) :
  stream = Returns s -> ffmpeg.compile s = Returns cmd ->
  launch_of e cmd = Exited rc out err -> rc <> 0 ->
  library_demo stream notes success e st
  = ({| fs := fs st;
        events := events st ++ map Print notes
                  ++ [Spawn cmd (Exited rc out err);
                      Print (cross +:+ " Error: " +:+ err +:+ nl)] |},
     Returns tt).
Proof.
  intros -> Hc Hl Hrc. unfold library_demo, try_except.
  unfold bind at 1. unfold lift at 1. unfold bind at 1. rewrite print_all_run.
  unfold bind at 1. unfold ffmpeg_run. unfold bind at 1 2. unfold lift. rewrite Hc.
  unfold spawn. cbn [fs events]. rewrite Hl. apply Z.eqb_neq in Hrc. rewrite Hrc.
  cbn [negb]. unfold raise, except_ffmpeg_error, print. cbn [fs events].
  now rewrite <- !app_assoc.
Qed.

Lemma printed_In (text : string) (evs : list event) :
  In (Print text) evs -> In text (printed evs).
Proof.
  intros H. unfold printed. apply in_flat_map. exists (Print text). split; [exact H | now left].
Qed.

Lemma surfaces_newline (label err : string) (evs : list event) :
  In (Print (cross +:+ label +:+ err +:+ nl)) evs -> surfaces_verbatim err (printed evs).
Proof. intros H. exists label. right. now apply printed_In. Qed.

Lemma command_of_stream (s : outcome ffmpeg.stream) (cmd : list string) :
  (let* st := s in ffmpeg.compile st) = Returns cmd ->
  exists st, s = Returns st /\ ffmpeg.compile st = Returns cmd.
Proof. destruct s as [st|x]; [eauto | discriminate]. Qed.

Lemma python_basic_failure (self : FFmpegMasterclass) (input_file : string)
    (e : env) (st : state) (cmd : list string) (rc : Z) (out err : string) :
  constructed_command self (PythonBasic input_file) = Returns cmd ->
  launch_of e cmd = Exited rc out err -> rc <> 0 ->
  surfaces_verbatim err
    (printed (events (fst (demo_ffmpeg_python_basic self input_file e st)))).
Proof.
  intros Hcmd Hl Hrc. apply command_of_stream in Hcmd as (s & Hs & Hc).
  cbn [operation_stream] in Hs.
  unfold demo_ffmpeg_python_basic. unfold bind at 1. rewrite banner_run.
  unfold try_except. unfold bind at 1. rewrite Hs. unfold lift at 1.
  unfold bind at 1. unfold print at 1. unfold bind at 1 2. unfold lift at 1. rewrite Hc.
  unfold print at 1. unfold bind at 1. unfold print at 1. unfold bind at 1.
  unfold ffmpeg_run. unfold bind at 1 2. unfold lift. rewrite Hc.
  unfold spawn. cbn [fs events]. rewrite Hl. apply Z.eqb_neq in Hrc. rewrite Hrc.
  cbn [negb]. unfold raise, except_ffmpeg_error, print. cbn [fs events fst].
  apply (surfaces_newline " FFmpeg error: "). apply in_or_app. right. now left.
Qed.

Ltac library_failure Hcmd Hl Hrc :=
  apply command_of_stream in Hcmd as (s & Hs & Hc);
  cbn [operation_stream] in Hs;
  unfold bind at 1; rewrite banner_run; cbn [fs events];
  rewrite (library_demo_failure _ s _ _ _ _ _ _ _ _ Hs Hc Hl Hrc);
  cbn [fs events fst];
  apply (surfaces_newline " Error: ");
  repeat (apply in_or_app; right); right; now left.

(** Every operation but the extract-audio demo prints the error stream of a
    failed process as it is. *)
Lemma other_operations_surface_stderr (self : FFmpegMasterclass) (op : operation)
    (e : env) (st : state) (cmd : list string) (rc : Z) (out err : string) :
  (forall f, op <> CliExtractAudio f) ->
  constructed_command self op = Returns cmd ->
  directories_ready self op e st = true ->
  launch_of e cmd = Exited rc out err -> rc <> 0 ->
  surfaces_verbatim err (printed (events (fst (run_operation self op e st)))).
Proof.
  intros Hop Hcmd Hdirs Hl Hrc.
  destruct op as [f|f|f|f|f|f s0 d|fs|a b|f fps|f fps|a b|f s0 d|f|a b|f];
    cbn [run_operation]; cbn [constructed_command] in Hcmd.
  - injection Hcmd as <-. now apply (basic_conversion_failure self f e st rc out err).
  - injection Hcmd as <-. now apply (with_filters_failure self f e st rc out err).
  - now elim (Hop f).
  - now apply (python_basic_failure self f e st cmd rc out err).
  - unfold demo_ffmpeg_python_filters. library_failure Hcmd Hl Hrc.
  - unfold demo_ffmpeg_python_trim. library_failure Hcmd Hl Hrc.
  - unfold demo_ffmpeg_python_concat. library_failure Hcmd Hl Hrc.
  - unfold demo_ffmpeg_python_overlay. library_failure Hcmd Hl Hrc.
  - unfold demo_extract_frames. cbn [directories_ready] in Hdirs.
    apply command_of_stream in Hcmd as (s & Hs & Hc). cbn [operation_stream] in Hs.
    unfold bind at 1. rewrite banner_run. unfold bind at 1.
    rewrite mkdir_run by exact Hdirs. cbn [fs events].
    rewrite (library_demo_failure _ s _ _ _ _ _ _ _ _ Hs Hc Hl Hrc).
    cbn [fs events fst]. apply (surfaces_newline " Error: ").
    repeat (apply in_or_app; right). right. now left.
  - unfold demo_create_video_from_images. library_failure Hcmd Hl Hrc.
  - unfold demo_add_audio_to_video. library_failure Hcmd Hl Hrc.
  - unfold demo_create_gif. library_failure Hcmd Hl Hrc.
  - unfold demo_streaming_hls. cbn [directories_ready] in Hdirs.
    apply command_of_stream in Hcmd as (s & Hs & Hc). cbn [operation_stream] in Hs.
    unfold bind at 1. rewrite banner_run. unfold bind at 1.
    rewrite mkdir_run by exact Hdirs. cbn [fs events].
    rewrite (library_demo_failure _ s _ _ _ _ _ _ _ _ Hs Hc Hl Hrc).
    cbn [fs events fst]. apply (surfaces_newline " Error: ").
    repeat (apply in_or_app; right). right. now left.
  - unfold demo_watermark. library_failure Hcmd Hl Hrc.
  - unfold demo_audio_visualization. library_failure Hcmd Hl Hrc.
Qed.

(** C4, where the code departs from it.  With [ffmpeg] exiting with status 1
    and the error text [clip.mp4: No such file or directory], the
    extract-audio demo prints the text of the [CalledProcessError], the
    command and its status; the error text of the tool is in none of the
    printed lines. *)
Theorem extract_audio_prints_exception_text :
  let run := demo_cli_extract_audio demo_self "clip.mp4"
               (failing_env missing_input_message) home_state in
  snd run = Returns tt
  /\ printed (events (fst run))
     = [ str_repeat "=" 80; "DEMO 3: Extract Audio Track"; str_repeat "=" 80;
         "Command: ffmpeg -i clip.mp4 -vn -acodec libmp3lame -q:a 2 -y "
         +:+ "ffmpeg_output/extracted_audio.mp3" +:+ nl;
         cross +:+ " Error: Command '['ffmpeg', '-i', 'clip.mp4', '-vn', '-acodec', "
         +:+ "'libmp3lame', '-q:a', '2', '-y', 'ffmpeg_output/extracted_audio.mp3']' "
         +:+ "returned non-zero exit status 1." +:+ nl ]
  /\ existsb (contains missing_input_message) (printed (events (fst run))) = false.
Proof. vm_compute. repeat split; reflexivity. Qed.

Example with_filters_prints_stderr :
  List.last (printed (events (fst (demo_cli_with_filters demo_self "clip.mp4"
                                (failing_env missing_input_message) home_state)))) ""
  = cross +:+ " Error: " +:+ missing_input_message +:+ nl.
Proof. vm_compute. reflexivity. Qed.

(** ** C8: the probe demo evaluates the frame rate *)

Example hostile_text_is_a_call : parse_expr hostile_frame_rate = Some (EOsMkdir "pwned").
Proof. reflexivity. Qed.

Example frame_rate_is_a_quotient : parse_expr "30000/1001" = Some (EDiv 30000 1001).
Proof. reflexivity. Qed.

Lemma mkdir_changes (cwd p : Path) (fs fs' : posix.filesystem) :
  posix.mkdir cwd p fs = inr fs' -> fs' <> fs.
Proof.
  unfold posix.mkdir.
  destruct (rev (pathlib.names p)) as [|c rdirs]; [discriminate|].
  destruct (posix.walk fs (posix.start cwd p) (rev rdirs)) as [err|d]; [discriminate|].
  destruct (fs !! d) as [[]|]; try discriminate.
  destruct (String.eqb c ".."); [discriminate|].
  destruct (fs !! (d ++ [c])) eqn:Et; [discriminate|].
  intros H. injection H as <-. intros E.
  apply (f_equal (fun m => m !! (d ++ [c]))) in E.
  rewrite lookup_insert_eq, Et in E. discriminate E.
Qed.

(** C8, where the code departs from it.  When [ffprobe] returns
    [hostile_probe], the demo gets past its first lines, evaluates the
    frame-rate text with [eval], and the file system it leaves has a new
    directory: the run is not read-only.  The call returns [None], which
    the format [.2f] rejects, so the demo ends with a [TypeError]. *)
Theorem probe_runs_frame_rate_text
    (self : FFmpegMasterclass) (input_file : string) (e : env) (st : state)
    (out err t1 t2 t3 : string) (fs' : posix.filesystem) :
  launch_of e (probe_cmd input_file) = Exited 0 out err ->
  json_loads e out = Returns hostile_probe ->
  format_float e Seconds2f (JStr "1.000000") = Returns t1 ->
  format_float e Megabytes2f (JStr "1048576") = Returns t2 ->
  format_float e Kbps0f (JStr "8388608") = Returns t3 ->
  posix.mkdir (cwd e) (pathlib.of_str "pwned") (fs st) = inr fs' ->
  fs (fst (demo_ffmpeg_python_probe self input_file e st)) = fs'
  /\ fs' <> fs st
  /\ snd (demo_ffmpeg_python_probe self input_file e st)
     = Raises (TypeError "unsupported format string passed to NoneType.__format__").
Proof.
  intros Hl Hj H1 H2 H3 Hmk.
  split; [|split; [exact (mkdir_changes _ _ _ _ Hmk)|]].
  - unfold demo_ffmpeg_python_probe, try_except, ffmpeg_probe, banner, show_float,
      py_eval, format_2f, os_mkdir, bind, spawn, lift, print, raise, ret.
    cbn [fs events]. fold (probe_cmd input_file). rewrite Hl. cbn [fs events Z.eqb negb].
    rewrite Hj. cbn -[posix.mkdir pathlib.of_str]. rewrite H1, H2, H3.
    cbn -[posix.mkdir pathlib.of_str]. rewrite hostile_text_is_a_call.
    cbn -[posix.mkdir pathlib.of_str]. rewrite Hmk. reflexivity.
  - unfold demo_ffmpeg_python_probe, try_except, ffmpeg_probe, banner, show_float,
      py_eval, format_2f, os_mkdir, bind, spawn, lift, print, raise, ret.
    cbn [fs events]. fold (probe_cmd input_file). rewrite Hl. cbn [fs events Z.eqb negb].
    rewrite Hj. cbn -[posix.mkdir pathlib.of_str]. rewrite H1, H2, H3.
    cbn -[posix.mkdir pathlib.of_str]. rewrite hostile_text_is_a_call.
    cbn -[posix.mkdir pathlib.of_str]. rewrite Hmk. reflexivity.
Qed.

Lemma probe_runs_frame_rate_text_witness :
  fs (fst (demo_ffmpeg_python_probe demo_self "input.mp4" probing_env home_state))
  = <[ ["home"; "user"; "pwned"] := posix.Dir ]> home_fs
  /\ <[ ["home"; "user"; "pwned"] := posix.Dir ]> home_fs <> fs home_state
  /\ snd (demo_ffmpeg_python_probe demo_self "input.mp4" probing_env home_state)
     = Raises (TypeError "unsupported format string passed to NoneType.__format__").
Proof.
  apply (probe_runs_frame_rate_text demo_self "input.mp4" probing_env home_state
           "{}" "" "1.00" "1.00" "1.00"); reflexivity.
Defined.

(** On the frame rates [ffprobe] prints, [eval] is a division and touches
    nothing; a zero denominator raises. *)
Example eval_frame_rate (e : env) (st : state) :
  py_eval (JStr "30000/1001") e st = (st, Returns (Quotient 30000 1001))
  /\ py_eval (JStr "0/0") e st = (st, Raises ZeroDivisionError).
Proof. split; reflexivity. Qed.

(** ** What a run launches and reports *)

Lemma commands_app (a b : list event) : commands (a ++ b) = commands a ++ commands b.
Proof. apply flat_map_app. Qed.

Lemma commands_prints (lines : list string) : commands (map Print lines) = [].
Proof. induction lines as [|l lines IH]; [reflexivity | exact IH]. Qed.



(** What the shared body of the library demos does, case by case. *)
Lemma library_demo_run (stream : outcome ffmpeg.stream) (notes : list string)
    (success : string) (e : env) (st : state) :
  library_demo stream notes success e st
  = match stream with
    | Raises x =>
        match except_ffmpeg_error " Error: " x with
        | Some h => h e st
        | None => (st, Raises x)
        end
    | Returns s =>
        let st1 := {| fs := fs st; events := events st ++ map Print notes |} in
        match ffmpeg.compile s with
        | Raises x =>
            match except_ffmpeg_error " Error: " x with
            | Some h => h e st1
            | None => (st1, Raises x)
            end
        | Returns cmd =>
            let launched := events st ++ map Print notes ++ [Spawn cmd (launch_of e cmd)] in
            match launch_of e cmd with
            | NotFound =>
                ({| fs := fs st; events := launched |}, Raises (FileNotFoundError (hd "" cmd)))
            | Exited rc out err =>
                ({| fs := fs st;
                    events := launched
                              ++ [Print (if rc =? 0 then success
                                         else cross +:+ " Error: " +:+ err +:+ nl)] |},
                 Returns tt)
            end
        end
    end.
Proof.
  unfold library_demo, try_except. destruct stream as [s|x]; [|reflexivity].
  unfold bind at 1. unfold lift at 1. unfold bind at 1. rewrite print_all_run.
  unfold bind at 1. unfold ffmpeg_run. unfold bind at 1 2. unfold lift.
  destruct (ffmpeg.compile s) as [cmd|x]; [|reflexivity].
  unfold spawn. cbn [fs events].
  destruct (launch_of e cmd) as [|rc out err].
  - cbn. now rewrite <- !app_assoc.
  - destruct (rc =? 0); cbn; unfold print; cbn [fs events]; now rewrite <- !app_assoc.
Qed.

Lemma compile_head (s : ffmpeg.stream) (cmd : list string) :
  ffmpeg.compile s = Returns cmd -> hd "" cmd = "ffmpeg".
Proof.
  unfold ffmpeg.compile. destruct (ffmpeg.get_args s); [|discriminate].
  intros H. injection H as <-. reflexivity.
Qed.

Lemma compile_command (s : ffmpeg.stream) (cmd : list string) :
  ffmpeg.compile s = Returns cmd -> exists args, cmd = "ffmpeg" :: args.
Proof.
  unfold ffmpeg.compile. destruct (ffmpeg.get_args s) as [args|]; [|discriminate].
  intros H. injection H as <-. now exists args.
Qed.

(** The command line of [ffmpeg] starts with no mark. *)
Lemma command_line_unmarked (args : list string) :
  substring_at cross (join " " ("ffmpeg" :: args)) = false
  /\ substring_at tick (join " " ("ffmpeg" :: args)) = false.
Proof. destruct args; split; reflexivity. Qed.

Lemma banner_bind {A} (title : string) (k : M A) (e : env) (st : state) :
  bind (banner title) (fun _ => k) e st
  = k e {| fs := fs st;
           events := events st
                     ++ [Print (str_repeat "=" 80); Print title; Print (str_repeat "=" 80)] |}.
Proof. unfold bind at 1. now rewrite banner_run. Qed.

Lemma mkdir_bind {A} (p : Path) (k : M A) (e : env) (st : state) :
  mkdir_succeeds (cwd e) p (fs st) = true ->
  bind (Path_mkdir_exist_ok p) (fun _ => k) e st
  = k e {| fs := after_mkdir (cwd e) p (fs st); events := events st |}.
Proof. intros H. unfold bind at 1. now rewrite mkdir_run. Qed.

Lemma mkdir_refused (p : Path) (e : env) (st : state) :
  mkdir_succeeds (cwd e) p (fs st) = false ->
  exists x, Path_mkdir_exist_ok p e st = (st, Raises x).
Proof.
  unfold mkdir_succeeds, Path_mkdir_exist_ok.
  destruct (posix.mkdir (cwd e) p (fs st)) as [[]|fs']; try discriminate;
    try (intros ->); eauto.
Qed.

Lemma library_demo_commands (stream : outcome ffmpeg.stream) (notes : list string)
    (success : string) (e : env) (st : state) :
  commands (events (fst (library_demo stream notes success e st)))
  = commands (events st)
    ++ match (let* s := stream in ffmpeg.compile s) with
       | Returns cmd => [cmd]
       | Raises _ => []
       end.
Proof.
  rewrite library_demo_run. destruct stream as [s|x]; cbn [ffmpeg.bind_outcome].
  - destruct (ffmpeg.compile s) as [cmd|x].
    + destruct (launch_of e cmd) as [|rc out err]; cbn [fst events];
        rewrite !commands_app, commands_prints; cbn; now rewrite ?app_nil_r.
    + destruct x; cbn; rewrite ?commands_app, ?commands_prints, ?app_nil_r;
        cbn; now rewrite ?app_nil_r.
  - destruct x; cbn; rewrite ?commands_app, ?app_nil_r; cbn; now rewrite ?app_nil_r.
Qed.

Ltac library_commands :=
  rewrite banner_bind, library_demo_commands; cbn [fs events];
  rewrite commands_app; cbn [commands flat_map app]; rewrite app_nil_r;
  f_equal;
  match goal with
  | |- context [ffmpeg.bind_outcome ?s _] => destruct s; reflexivity
  end.

(** X5. An operation launches at most one process, and it is the constructed
    command: the command is launched once when the request is accepted and
    the demo's directory can be made, and nothing is launched otherwise. *)
Theorem one_launch_per_operation (self : FFmpegMasterclass) (op : operation)
    (e : env) (st : state) :
  commands (events (fst (run_operation self op e st)))
  = commands (events st) ++ launched self op e st.
Proof.
  unfold launched.
  destruct op as [f|f|f|f|f|f s0 d|fs|a b|f fps|f fps|a b|f s0 d|f|a b|f];
    cbn [run_operation constructed_command operation_stream directories_ready].
  - unfold demo_cli_basic_conversion. rewrite banner_bind.
    unfold bind, print, try_except, subprocess.run, bind, spawn, ret. cbn [fs events andb].
    destruct (launch_of e (demo_cli_basic_conversion_cmd self f)) as [|rc out err].
    + cbn. rewrite !commands_app. cbn. now rewrite !app_nil_r.
    + destruct (rc =? 0); cbn; rewrite !commands_app; cbn; now rewrite !app_nil_r.
  - unfold demo_cli_with_filters. rewrite banner_bind.
    unfold bind at 1. rewrite print_all_run.
    unfold bind, print, try_except, subprocess.run, bind, spawn, ret, raise.
    cbn [fs events andb].
    destruct (launch_of e (demo_cli_with_filters_cmd self f)) as [|rc out err].
    + cbn. rewrite !commands_app. cbn. now rewrite !app_nil_r.
    + destruct (rc =? 0); cbn; rewrite !commands_app; cbn; now rewrite !app_nil_r.
  - unfold demo_cli_extract_audio. rewrite banner_bind.
    unfold bind, print, try_except, subprocess.run, bind, spawn, ret, raise.
    cbn [fs events andb].
    destruct (launch_of e (demo_cli_extract_audio_cmd self f)) as [|rc out err].
    + cbn. rewrite !commands_app. cbn. now rewrite !app_nil_r.
    + destruct (rc =? 0); cbn; rewrite !commands_app; cbn; now rewrite !app_nil_r.
  - unfold demo_ffmpeg_python_basic. rewrite banner_bind.
    destruct (demo_ffmpeg_python_basic_stream self f) as [s|x].
    + unfold try_except, bind, lift, print, ffmpeg_run, bind, lift, spawn, ret, raise.
      cbn [ffmpeg.bind_outcome fs events].
      destruct (ffmpeg.compile s) as [cmd|x].
      * destruct (launch_of e cmd) as [|rc out err].
        -- cbn. rewrite !commands_app. cbn. now rewrite !app_nil_r.
        -- destruct (rc =? 0); cbn; rewrite !commands_app; cbn; now rewrite !app_nil_r.
      * destruct x; cbn; rewrite !commands_app; cbn; now rewrite !app_nil_r.
    + unfold try_except, bind, lift. cbn [ffmpeg.bind_outcome].
      destruct x; cbn; rewrite ?commands_app; cbn; now rewrite ?app_nil_r.
  - unfold demo_ffmpeg_python_filters. library_commands.
  - unfold demo_ffmpeg_python_trim. library_commands.
  - unfold demo_ffmpeg_python_concat. library_commands.
  - unfold demo_ffmpeg_python_overlay. library_commands.
  - unfold demo_extract_frames. rewrite banner_bind. unfold bind at 1.
    destruct (mkdir_succeeds (cwd e) (output_dir self // "frames") (fs st)) eqn:Emk.
    + rewrite mkdir_run by exact Emk. rewrite library_demo_commands. cbn [fs events].
      rewrite commands_app. cbn [commands flat_map app]. rewrite app_nil_r.
      now destruct (ffmpeg.bind_outcome _ _).
    + match goal with
      | |- context [Path_mkdir_exist_ok ?p e ?s] =>
          destruct (mkdir_refused p e s Emk) as [x ->]
      end.
      cbn [fst events].
      rewrite commands_app. cbn [commands flat_map app].
      now destruct (ffmpeg.bind_outcome _ _).
  - unfold demo_create_video_from_images. library_commands.
  - unfold demo_add_audio_to_video. library_commands.
  - unfold demo_create_gif. library_commands.
  - unfold demo_streaming_hls. rewrite banner_bind. unfold bind at 1.
    destruct (mkdir_succeeds (cwd e) (output_dir self // "hls") (fs st)) eqn:Emk.
    + rewrite mkdir_run by exact Emk. rewrite library_demo_commands. cbn [fs events].
      rewrite commands_app. cbn [commands flat_map app]. rewrite app_nil_r.
      now destruct (ffmpeg.bind_outcome _ _).
    + match goal with
      | |- context [Path_mkdir_exist_ok ?p e ?s] =>
          destruct (mkdir_refused p e s Emk) as [x ->]
      end.
      cbn [fst events].
      rewrite commands_app. cbn [commands flat_map app].
      now destruct (ffmpeg.bind_outcome _ _).
  - unfold demo_watermark. library_commands.
  - unfold demo_audio_visualization. library_commands.
Qed.

Ltac open_library Hcmd :=
  apply command_of_stream in Hcmd as (s & Hs & Hc);
  cbn [operation_stream] in Hs;
  rewrite banner_bind, ?library_demo_run, ?Hs, ?Hc; cbv zeta.

Ltac open_library_dir Hcmd Hdirs :=
  apply command_of_stream in Hcmd as (s & Hs & Hc);
  cbn [operation_stream] in Hs; cbn [directories_ready] in Hdirs;
  rewrite banner_bind, mkdir_bind by exact Hdirs;
  rewrite library_demo_run, Hs, Hc; cbv zeta.

Ltac new_events :=
  cbn [fst snd fs events]; rewrite <- ?app_assoc;
  eexists; split; [reflexivity|]; split; [reflexivity|];
  cbn [map app printed flat_map].

Ltac close_failure label :=
  split; [reflexivity|]; split; [reflexivity|];
  intros _; exists label; right; cbn; tauto.






(** X3. When [ffmpeg] is not found, the three CLI demos catch the
    [FileNotFoundError]: each prints its own line and returns, and no
    success line is printed. *)
Theorem cli_demos_report_missing_ffmpeg (self : FFmpegMasterclass) (op : operation)
    (e : env) (st : state) (cmd : list string) :
  operation_stream self op = None ->
  constructed_command self op = Returns cmd ->
  launch_of e cmd = NotFound ->
  exists new,
    events (fst (run_operation self op e st)) = events st ++ new
    /\ snd (run_operation self op e st) = Returns tt
    /\ marked tick (printed new) = false
    /\ In (not_found_line op) (printed new).
Proof.
  intros Hcli Hcmd Hl.
  destruct op as [f|f|f|f|f|f s0 d|fs|a b|f fps|f fps|a b|f s0 d|f|a b|f];
    try discriminate Hcli;
    cbn [run_operation not_found_line]; cbn [constructed_command] in Hcmd.
  - injection Hcmd as <-. unfold demo_cli_basic_conversion. rewrite banner_bind.
    unfold bind, print, try_except, subprocess.run, bind, spawn, ret. cbn [fs events andb].
    rewrite Hl. new_events. split; [reflexivity|]. cbn. tauto.
  - injection Hcmd as <-. unfold demo_cli_with_filters. rewrite banner_bind.
    unfold bind at 1. rewrite print_all_run.
    unfold bind, print, try_except, subprocess.run, bind, spawn, ret, raise.
    cbn [fs events andb]. rewrite Hl. new_events. split; [reflexivity|]. cbn. tauto.
  - injection Hcmd as <-. unfold demo_cli_extract_audio. rewrite banner_bind.
    unfold bind, print, try_except, subprocess.run, bind, spawn, ret, raise.
    cbn [fs events andb]. rewrite Hl. new_events. split; [reflexivity|]. cbn. tauto.
Qed.

Lemma cli_demos_report_missing_ffmpeg_witness :
  exists new,
    events (fst (run_operation demo_self (CliExtractAudio "clip.mp4") absent_env home_state))
    = events home_state ++ new
    /\ snd (run_operation demo_self (CliExtractAudio "clip.mp4") absent_env home_state)
       = Returns tt
    /\ marked tick (printed new) = false
    /\ In (not_found_line (CliExtractAudio "clip.mp4")) (printed new).
Proof.
  eapply (cli_demos_report_missing_ffmpeg demo_self (CliExtractAudio "clip.mp4")
            absent_env home_state);
    [reflexivity | reflexivity | reflexivity].
Defined.



Ltac close_escape := split; reflexivity.

(** X4. The library demos catch [ffmpeg.Error] only: when [ffmpeg] is not
    found, the [FileNotFoundError] of the launch leaves the demo, and
    neither a success line nor a failure line is printed. *)
Theorem library_demos_raise_on_missing_ffmpeg (self : FFmpegMasterclass) (op : operation)
    (stream : outcome ffmpeg.stream) (e : env) (st : state) (cmd : list string) :
  operation_stream self op = Some stream ->
  constructed_command self op = Returns cmd ->
  directories_ready self op e st = true ->
  launch_of e cmd = NotFound ->
  exists new,
    events (fst (run_operation self op e st)) = events st ++ new
    /\ snd (run_operation self op e st) = Raises (FileNotFoundError "ffmpeg")
    /\ marked cross (printed new) = false
    /\ marked tick (printed new) = false.
Proof.
  intros Hlib Hcmd Hdirs Hl.
  destruct op as [f|f|f|f|f|f s0 d|fs|a b|f fps|f fps|a b|f s0 d|f|a b|f];
    try discriminate Hlib; clear Hlib;
    cbn [run_operation]; cbn [constructed_command] in Hcmd.
  - apply command_of_stream in Hcmd as (s & Hs & Hc). cbn [operation_stream] in Hs.
    unfold demo_ffmpeg_python_basic. rewrite banner_bind, Hs.
    unfold try_except, bind, lift, print, ffmpeg_run, bind, lift, spawn, ret, raise.
    cbn [fs events]. rewrite Hc. cbn [fs events]. rewrite Hl.
    unfold except_ffmpeg_error. rewrite (compile_head s cmd Hc). new_events.
    destruct (compile_command s cmd Hc) as [args ->].
    destruct (command_line_unmarked args) as [Hx Ht].
    unfold marked. cbn [existsb]. rewrite Hx, Ht. close_escape.
  - unfold demo_ffmpeg_python_filters. open_library Hcmd.
    rewrite Hl, (compile_head s cmd Hc). new_events. close_escape.
  - unfold demo_ffmpeg_python_trim. open_library Hcmd.
    rewrite Hl, (compile_head s cmd Hc). new_events. close_escape.
  - unfold demo_ffmpeg_python_concat. open_library Hcmd.
    rewrite Hl, (compile_head s cmd Hc). new_events. close_escape.
  - unfold demo_ffmpeg_python_overlay. open_library Hcmd.
    rewrite Hl, (compile_head s cmd Hc). new_events. close_escape.
  - unfold demo_extract_frames. open_library_dir Hcmd Hdirs.
    rewrite Hl, (compile_head s cmd Hc). new_events. close_escape.
  - unfold demo_create_video_from_images. open_library Hcmd.
    rewrite Hl, (compile_head s cmd Hc). new_events. close_escape.
  - unfold demo_add_audio_to_video. open_library Hcmd.
    rewrite Hl, (compile_head s cmd Hc). new_events. close_escape.
  - unfold demo_create_gif. open_library Hcmd.
    rewrite Hl, (compile_head s cmd Hc). new_events. close_escape.
  - unfold demo_streaming_hls. open_library_dir Hcmd Hdirs.
    rewrite Hl, (compile_head s cmd Hc). new_events. close_escape.
  - unfold demo_watermark. open_library Hcmd.
    rewrite Hl, (compile_head s cmd Hc). new_events. close_escape.
  - unfold demo_audio_visualization. open_library Hcmd.
    rewrite Hl, (compile_head s cmd Hc). new_events. close_escape.
Qed.

Lemma library_demos_raise_on_missing_ffmpeg_witness :
  exists new,
    events (fst (run_operation demo_self (StreamingHls "input.mp4") absent_env
                   prepared_state))
    = events prepared_state ++ new
    /\ snd (run_operation demo_self (StreamingHls "input.mp4") absent_env prepared_state)
       = Raises (FileNotFoundError "ffmpeg")
    /\ marked cross (printed new) = false
    /\ marked tick (printed new) = false.
Proof.
  eapply (library_demos_raise_on_missing_ffmpeg demo_self (StreamingHls "input.mp4") _
            absent_env prepared_state);
    [reflexivity | vm_compute; reflexivity | vm_compute; reflexivity | reflexivity].
Defined.



(** X7. Demos 1 to 4 show the command they launch: whatever the launch does,
    the run launches the constructed command, once, and a printed line holds
    that command joined with spaces. *)
Theorem shown_command_is_launched (self : FFmpegMasterclass) (op : operation)
    (e : env) (st : state) (cmd : list string) :
  shows_command op = true ->
  constructed_command self op = Returns cmd ->
  exists new,
    events (fst (run_operation self op e st)) = events st ++ new
    /\ commands new = [cmd]
    /\ command_shown cmd (printed new).
Proof.
  intros Hop Hcmd.
  destruct op as [f|f|f|f|f|f s0 d|fs|a b|f fps|f fps|a b|f s0 d|f|a b|f];
    try discriminate Hop; clear Hop;
    cbn [run_operation]; cbn [constructed_command] in Hcmd.
  - injection Hcmd as <-. unfold demo_cli_basic_conversion. rewrite banner_bind.
    unfold bind, print, try_except, subprocess.run, bind, spawn, ret. cbn [fs events andb].
    destruct (launch_of e _) as [|rc out err]; [|destruct (rc =? 0)];
      cbn [fst fs events]; rewrite <- ?app_assoc;
      (eexists; split; [reflexivity|]; split; [reflexivity|]);
      left; cbn; tauto.
  - injection Hcmd as <-. unfold demo_cli_with_filters. rewrite banner_bind.
    unfold bind at 1. rewrite print_all_run.
    unfold bind, print, try_except, subprocess.run, bind, spawn, ret, raise.
    cbn [fs events andb].
    destruct (launch_of e _) as [|rc out err]; [|destruct (rc =? 0)];
      cbn [fst fs events andb negb]; rewrite <- ?app_assoc;
      (eexists; split; [reflexivity|]; split; [reflexivity|]);
      right; left; cbn; tauto.
  - injection Hcmd as <-. unfold demo_cli_extract_audio. rewrite banner_bind.
    unfold bind, print, try_except, subprocess.run, bind, spawn, ret, raise.
    cbn [fs events andb].
    destruct (launch_of e _) as [|rc out err]; [|destruct (rc =? 0)];
      cbn [fst fs events andb negb]; rewrite <- ?app_assoc;
      (eexists; split; [reflexivity|]; split; [reflexivity|]);
      left; cbn; tauto.
  - apply command_of_stream in Hcmd as (s & Hs & Hc). cbn [operation_stream] in Hs.
    unfold demo_ffmpeg_python_basic. rewrite banner_bind, Hs.
    unfold try_except, bind, lift, print, ffmpeg_run, bind, lift, spawn, ret, raise.
    cbn [fs events]. rewrite Hc. cbn [fs events].
    destruct (launch_of e cmd) as [|rc out err]; [|destruct (rc =? 0)];
      cbn [fst fs events andb negb except_ffmpeg_error]; unfold print;
      cbn [fst fs events]; rewrite <- ?app_assoc;
      (eexists; split; [reflexivity|]; split; [reflexivity|]);
      right; right; cbn; tauto.
Qed.

Lemma shown_command_is_launched_witness :
  exists new,
    events (fst (run_operation demo_self (PythonBasic "input.mp4") sample_env home_state))
    = events home_state ++ new
    /\ commands new
       = [ [ "ffmpeg"; "-i"; "input.mp4"; "-b:v"; "2M"; "-b:a"; "192k"; "-acodec"; "aac";
             "-preset"; "medium"; "-vcodec"; "libx264";
             "ffmpeg_output/converted_python.mp4"; "-y" ] ]
    /\ command_shown
         [ "ffmpeg"; "-i"; "input.mp4"; "-b:v"; "2M"; "-b:a"; "192k"; "-acodec"; "aac";
           "-preset"; "medium"; "-vcodec"; "libx264";
           "ffmpeg_output/converted_python.mp4"; "-y" ]
         (printed new).
Proof.
  apply (shown_command_is_launched demo_self (PythonBasic "input.mp4") sample_env
           home_state);
    [reflexivity | vm_compute; reflexivity].
Defined.

(** X8. Demo 8 ends with the [ValueError] of [ffmpeg.concat] when the list
    of files is empty or of odd length: the banner is printed, nothing is
    launched, and the error is not caught. *)
Theorem concat_refuses_uneven_lists (self : FFmpegMasterclass) (files : list string)
    (e : env) (st : state) :
  let banner_only :=
    {| fs := fs st;
       events := events st
                 ++ [ Print (str_repeat "=" 80); Print "DEMO 8: Concatenate Videos";
                      Print (str_repeat "=" 80) ] |} in
  (files = [] ->
   demo_ffmpeg_python_concat self files e st
   = (banner_only, Raises (ValueError "Expected at least 1 input stream(s); got 0")))
  /\ (Z.of_nat (length files) mod 2 <> 0 ->
      demo_ffmpeg_python_concat self files e st
      = (banner_only,
         Raises (ValueError
           ("Expected concat input streams to have length multiple of 2 (v=1, a=1); got "
            +:+ pretty (Z.of_nat (length files)))))).
Proof.
  intros banner_only. split.
  - intros ->. unfold demo_ffmpeg_python_concat.
    now rewrite banner_bind, library_demo_run.
  - intros Hodd. unfold demo_ffmpeg_python_concat. rewrite banner_bind, library_demo_run.
    unfold demo_ffmpeg_python_concat_stream, ffmpeg.concat. rewrite length_map.
    change (1 + 1) with 2. apply Z.eqb_neq in Hodd. rewrite Hodd. reflexivity.
Qed.

Lemma concat_refuses_uneven_lists_witness :
  demo_ffmpeg_python_concat demo_self ["vid1.mp4"; "vid2.mp4"; "vid3.mp4"] sample_env
    home_state
  = ({| fs := fs home_state;
        events := events home_state
                  ++ [ Print (str_repeat "=" 80); Print "DEMO 8: Concatenate Videos";
                       Print (str_repeat "=" 80) ] |},
     Raises (ValueError
       ("Expected concat input streams to have length multiple of 2 (v=1, a=1); got "
        +:+ pretty (Z.of_nat (length ["vid1.mp4"; "vid2.mp4"; "vid3.mp4"]))))).
Proof.
  apply (proj2 (concat_refuses_uneven_lists demo_self ["vid1.mp4"; "vid2.mp4"; "vid3.mp4"]
                  sample_env home_state)).
  vm_compute. lia.
Defined.

(** ** The outputs of the demos *)

Ltac output_last :=
  match goal with
  | |- exists pre, ?l = pre ++ _ \/ _ => exists (removelast l); left; reflexivity
  end.

Ltac output_before_flag :=
  match goal with
  | |- exists pre, ?a ++ ?l = _ \/ _ =>
      exists (a ++ removelast (removelast l)); right; rewrite <- app_assoc; reflexivity
  | |- exists pre, ?l = pre ++ _ \/ _ =>
      exists (removelast (removelast l)); right; reflexivity
  end.

(** X9. The output path of a demo closes its argument sequence: it is the
    last argument of a CLI demo, and the last before the final [-y] of a
    library demo. *)
Theorem output_path_closes_command (self : FFmpegMasterclass) (op : operation)
    (args : list string) :
  constructed_args self op = Returns args ->
  exists pre,
    args = pre ++ [pathlib.str (output_path self op)]
    \/ args = pre ++ [pathlib.str (output_path self op); "-y"].
Proof.
  intros H.
  destruct op as [f|f|f|f|f|f s0 d|fs|a b|f fps|f fps|a b|f s0 d|f|a b|f];
    cbn [output_path reported_path].
  - injection H as <-. output_last.
  - injection H as <-. output_last.
  - injection H as <-. output_last.
  - rewrite python_basic_args in H. injection H as <-. output_before_flag.
  - rewrite python_filters_args in H. injection H as <-. output_before_flag.
  - rewrite python_trim_args in H. injection H as <-. output_before_flag.
  - destruct (request_ok (PythonConcat fs)) eqn:Hok.
    + destruct (python_concat_args self fs Hok) as [graph Hargs].
      rewrite Hargs in H. injection H as <-. output_before_flag.
    + destruct (python_concat_refused self fs Hok) as [msg Hmsg]. congruence.
  - rewrite python_overlay_args in H. injection H as <-. output_before_flag.
  - rewrite extract_frames_args in H. injection H as <-. output_before_flag.
  - rewrite create_video_from_images_args in H. injection H as <-. output_before_flag.
  - rewrite add_audio_to_video_args in H. injection H as <-. output_before_flag.
  - rewrite create_gif_args in H. injection H as <-. output_before_flag.
  - rewrite streaming_hls_args in H. injection H as <-. output_before_flag.
  - rewrite watermark_args in H. injection H as <-. output_before_flag.
  - rewrite audio_visualization_args in H. injection H as <-. output_before_flag.
Qed.

Lemma output_path_closes_command_witness :
  exists pre,
    [ "-i"; "clip.mp4"; "-vn"; "-acodec"; "libmp3lame"; "-q:a"; "2"; "-y";
      "ffmpeg_output/extracted_audio.mp3" ]
    = pre ++ [pathlib.str (output_path demo_self (CliExtractAudio "clip.mp4"))]
    \/ [ "-i"; "clip.mp4"; "-vn"; "-acodec"; "libmp3lame"; "-q:a"; "2"; "-y";
         "ffmpeg_output/extracted_audio.mp3" ]
       = pre ++ [pathlib.str (output_path demo_self (CliExtractAudio "clip.mp4")); "-y"].
Proof.
  apply (output_path_closes_command demo_self (CliExtractAudio "clip.mp4")).
  reflexivity.
Defined.

Lemma join_snoc_eq (l : list string) (x : string) :
  join "/" (l ++ [x]) = match l with [] => x | _ => join "/" l +:+ "/" +:+ x end.
Proof.
  induction l as [|y l IH]; [reflexivity|].
  unfold join in *. cbn [app String.concat].
  destruct (l ++ [x]) as [|z r] eqn:E; [destruct l; discriminate|].
  rewrite IH. destruct l as [|y' l]; [reflexivity|].
  now rewrite !append_assoc.
Qed.

(** A path extended by one plain name prints as the stem of the path
    followed by the name. *)
Lemma str_under (p : Path) (name : string) :
  pathlib.of_str name = pathlib.mkPath "" [name] ->
  pathlib.str (p // name) = path_stem p +:+ name.
Proof.
  intros Hname. unfold pathlib.joinpath. rewrite Hname.
  cbn [pathlib.anchor pathlib.names]. unfold pathlib.str, path_stem.
  cbn [pathlib.anchor pathlib.names].
  assert (Hj := join_snoc_eq (pathlib.names p) name).
  destruct (pathlib.names p ++ [name]) as [|z r] eqn:E;
    [destruct (pathlib.names p); discriminate|].
  destruct (pathlib.anchor p) as [|c a]; rewrite Hj;
    (destruct (pathlib.names p) as [|n ns]; [reflexivity|]); now rewrite !append_assoc.
Qed.

Lemma path_stem_under (p : Path) (name : string) :
  pathlib.of_str name = pathlib.mkPath "" [name] ->
  path_stem (p // name) = path_stem p +:+ name +:+ "/".
Proof.
  intros Hname. unfold pathlib.joinpath. rewrite Hname.
  cbn [pathlib.anchor pathlib.names]. unfold path_stem.
  cbn [pathlib.anchor pathlib.names]. 
  destruct (pathlib.names p ++ [name]) as [|z r] eqn:E;
    [destruct (pathlib.names p); discriminate|].
  rewrite <- E, join_snoc_eq.
  destruct (pathlib.names p) as [|n ns]; [reflexivity|]. now rewrite !append_assoc.
Qed.

Lemma output_path_text (self : FFmpegMasterclass) (op : operation) :
  pathlib.str (output_path self op) = path_stem (output_dir self) +:+ output_name op.
Proof.
  destruct op; cbn [output_path reported_path output_name];
    rewrite ?str_under, ?path_stem_under by reflexivity; rewrite ?append_assoc; reflexivity.
Qed.

Lemma append_cancel (s a b : string) : s +:+ a = s +:+ b -> a = b.
Proof.
  induction s as [|c s IH]; [trivial|]. rewrite !append_cons. intros H.
  injection H as H. now apply IH.
Qed.

(** X10. Two different demos never write to the same path: under one output
    directory their output paths differ. *)
Theorem demos_write_distinct_outputs (self : FFmpegMasterclass) (a b : operation) :
  demo_number a <> demo_number b ->
  String.eqb (pathlib.str (output_path self a)) (pathlib.str (output_path self b)) = false.
Proof.
  intros Hne. apply String.eqb_neq. intros H. apply Hne.
  rewrite !output_path_text in H. apply append_cancel in H.
  destruct a, b; cbn [output_name] in H; try discriminate H; reflexivity.
Qed.

Lemma demos_write_distinct_outputs_witness :
  String.eqb (pathlib.str (output_path demo_self (CliBasicConversion "input.mp4")))
    (pathlib.str (output_path demo_self (PythonBasic "input.mp4"))) = false.
Proof.
  apply (demos_write_distinct_outputs demo_self (CliBasicConversion "input.mp4")
           (PythonBasic "input.mp4")).
  vm_compute. lia.
Defined.

(** X11. The options given to [ffmpeg.input] (start and duration in the trim
    and GIF demos, frame rate and pattern type in the image demo) stand
    before the [-i] of that input, where [ffmpeg] reads them as options of
    the input. *)
Theorem input_options_precede_input (self : FFmpegMasterclass) (f : string)
    (start duration : number) (fps : Z) :
  (exists rest,
     constructed_args self (PythonTrim f start duration)
     = Returns ([ "-ss"; py_str (number_val start); "-t"; py_str (number_val duration);
                  "-i"; f ] ++ rest))
  /\ (exists rest,
        constructed_args self (CreateGif f start duration)
        = Returns ([ "-ss"; py_str (number_val start); "-t"; py_str (number_val duration);
                     "-i"; f ] ++ rest))
  /\ (exists rest,
        constructed_args self (CreateVideoFromImages f fps)
        = Returns ([ "-framerate"; pretty fps; "-pattern_type"; "glob"; "-i"; f ] ++ rest)).
Proof.
  split; [|split];
    [rewrite python_trim_args | rewrite create_gif_args
     | rewrite create_video_from_images_args];
    eexists; reflexivity.
Qed.

(** X22. The add-audio demo takes the video of its first input and the audio
    of its second: the argument sequence maps [0:v] and [1:a], or [0:v] and
    [0:a] of the one input when the two files are the same, and
    [shortest=None] is rendered as the switch [-shortest], without a value. *)
Theorem audio_replacement_maps_streams (self : FFmpegMasterclass)
    (video_file audio_file : string) :
  let out := pathlib.str (output_dir self // "with_audio.mp4") in
  (video_file <> audio_file ->
   constructed_args self (AddAudioToVideo video_file audio_file)
   = Returns [ "-i"; video_file; "-i"; audio_file; "-map"; "0:v"; "-map"; "1:a";
               "-acodec"; "aac"; "-shortest"; "-vcodec"; "copy"; out; "-y" ])
  /\ constructed_args self (AddAudioToVideo video_file video_file)
     = Returns [ "-i"; video_file; "-map"; "0:v"; "-map"; "0:a";
                 "-acodec"; "aac"; "-shortest"; "-vcodec"; "copy"; out; "-y" ].
Proof.
  intros out. split.
  - intros Hne. rewrite add_audio_to_video_args.
    apply String.eqb_neq in Hne. now rewrite Hne.
  - rewrite add_audio_to_video_args. now rewrite String.eqb_refl.
Qed.

Lemma audio_replacement_maps_streams_witness :
  constructed_args demo_self (AddAudioToVideo "video.mp4" "audio.mp3")
  = Returns [ "-i"; "video.mp4"; "-i"; "audio.mp3"; "-map"; "0:v"; "-map"; "1:a";
              "-acodec"; "aac"; "-shortest"; "-vcodec"; "copy";
              "ffmpeg_output/with_audio.mp4"; "-y" ].
Proof.
  apply (proj1 (audio_replacement_maps_streams demo_self "video.mp4" "audio.mp3")).
  discriminate.
Defined.

(** ** The directories and [main] *)

Lemma isdir_after_mkdir (p : Path) (e : env) (st st' : state) :
  Path_mkdir_exist_ok p e st = (st', Returns tt) ->
  posix.isdir (cwd e) p (fs st') = true.
Proof.
  intros H.
  destruct (mkdir_success_cases p e st st' H)
    as [[-> Hd] | (dirs & d & c & Hn & Hc & Hw & Hd & Ht & ->)]; [exact Hd|].
  cbn [fs]. exact (isdir_after_create (cwd e) p (fs st) dirs d c Hn Hc Hw Hd Ht).
Qed.

Lemma init_returns (dir : string) (e : env) (st st1 : state) (self : FFmpegMasterclass) :
  init dir e st = (st1, Returns self) ->
  self = {| output_dir := pathlib.of_str dir |}
  /\ posix.isdir (cwd e) (pathlib.of_str dir) (fs st1) = true.
Proof.
  unfold init. unfold bind at 1. cbn [output_dir].
  destruct (Path_mkdir_exist_ok (pathlib.of_str dir) e st) as [st' [[]|x]] eqn:Emk;
    [|discriminate].
  unfold bind, print, ret. cbn [fs events]. intros H. injection H as <- <-.
  split; [reflexivity|]. cbn [fs]. exact (isdir_after_mkdir _ e st st' Emk).
Qed.

(** Under an existing directory, a plain name can be made a directory unless
    it is the name of a regular file. *)
Lemma subdirectory_ready (cwd p : Path) (fs : posix.filesystem) (name : string) :
  posix.isdir cwd p fs = true ->
  pathlib.of_str name = pathlib.mkPath "" [name] -> name <> ".." ->
  exists d,
    posix.walk fs (posix.start cwd p) (pathlib.names p) = inr d
    /\ fs !! d = Some posix.Dir
    /\ (fs !! (d ++ [name]) <> Some posix.File -> mkdir_succeeds cwd (p // name) fs = true).
Proof.
  intros Hdir Hname Hne. unfold posix.isdir in Hdir.
  destruct (posix.walk fs (posix.start cwd p) (pathlib.names p)) as [err|d] eqn:Hw;
    [discriminate|].
  destruct (fs !! d) as [[]|] eqn:Hd; try discriminate.
  exists d. split; [reflexivity|]. split; [exact Hd|]. intros Hfile.
  assert (Hnames : pathlib.names (p // name) = pathlib.names p ++ [name]).
  { unfold pathlib.joinpath. now rewrite Hname. }
  assert (Hstart : posix.start cwd (p // name) = posix.start cwd p).
  { unfold posix.start, pathlib.joinpath. now rewrite Hname. }
  unfold mkdir_succeeds, posix.mkdir, posix.isdir.
  rewrite Hnames, Hstart, rev_app_distr. cbn [rev app]. rewrite rev_involutive, Hw, Hd.
  apply String.eqb_neq in Hne. rewrite Hne.
  rewrite walk_app, Hw. cbn [posix.walk]. rewrite Hd, Hne.
  destruct (fs !! (d ++ [name])) as [[]|]; [reflexivity | now elim Hfile | reflexivity].
Qed.

(** X12. After [__init__] returned, the output directory exists, and the
    [frames] and [hls] directories of demos 10 and 14 can be made unless a
    regular file has their name. *)
Theorem subdirectories_after_init (dir : string) (e : env) (st st1 : state)
    (self : FFmpegMasterclass) :
  init dir e st = (st1, Returns self) ->
  exists d,
    posix.walk (fs st1) (posix.start (cwd e) (output_dir self))
      (pathlib.names (output_dir self)) = inr d
    /\ fs st1 !! d = Some posix.Dir
    /\ forall op,
         match subdirectory op with
         | Some name => fs st1 !! (d ++ [name]) <> Some posix.File
         | None => True
         end ->
         directories_ready self op e st1 = true.
Proof.
  intros H. apply init_returns in H as [-> Hdir]. cbn [output_dir].
  destruct (subdirectory_ready (cwd e) (pathlib.of_str dir) (fs st1) "frames" Hdir eq_refl)
    as (d & Hw & Hd & Hframes); [discriminate|].
  destruct (subdirectory_ready (cwd e) (pathlib.of_str dir) (fs st1) "hls" Hdir eq_refl)
    as (d' & Hw' & _ & Hhls); [discriminate|].
  assert (d' = d) by congruence. subst d'.
  exists d. split; [exact Hw|]. split; [exact Hd|].
  intros op Hop. destruct op; cbn [subdirectory directories_ready output_dir] in *; auto.
Qed.

Lemma subdirectories_after_init_witness :
  exists d,
    posix.walk (fs (fst (init "./ffmpeg_output" sample_env home_state)))
      (posix.start (cwd sample_env) (output_dir demo_self))
      (pathlib.names (output_dir demo_self)) = inr d
    /\ fs (fst (init "./ffmpeg_output" sample_env home_state)) !! d = Some posix.Dir
    /\ forall op,
         match subdirectory op with
         | Some name =>
             fs (fst (init "./ffmpeg_output" sample_env home_state)) !! (d ++ [name])
             <> Some posix.File
         | None => True
         end ->
         directories_ready demo_self op sample_env
           (fst (init "./ffmpeg_output" sample_env home_state)) = true.
Proof.
  apply (subdirectories_after_init "./ffmpeg_output" sample_env home_state
           (fst (init "./ffmpeg_output" sample_env home_state)) demo_self).
  vm_compute. reflexivity.
Defined.







Lemma mkdir_refused_error (p : Path) (e : env) (st : state) :
  mkdir_succeeds (cwd e) p (fs st) = false ->
  exists x, Path_mkdir_exist_ok p e st = (st, Raises x) /\ mkdir_error x (pathlib.str p).
Proof.
  unfold mkdir_succeeds, Path_mkdir_exist_ok, mkdir_error.
  destruct (posix.mkdir (cwd e) p (fs st)) as [[]|fs']; try discriminate;
    try (intros ->); cbn [oserror]; eauto 6.
Qed.

(** X14. When the output directory cannot be made, [main] ends with the
    error of [mkdir] after its three title lines: nothing is launched and
    the file system is unchanged. *)
Theorem main_stops_without_output_directory (e : env) (st : state) :
  mkdir_succeeds (cwd e) (pathlib.of_str "./ffmpeg_output") (fs st) = false ->
  exists x,
    main e st
    = ({| fs := fs st;
          events := events st
                    ++ [ Print (nl +:+ str_repeat "=" 80);
                         Print (str_repeat " " 25 +:+ "FFmpeg Masterclass");
                         Print (str_repeat "=" 80 +:+ nl) ] |},
       Raises x)
    /\ mkdir_error x "ffmpeg_output".
Proof.
  intros Hmk. unfold main, init. unfold bind at 1 2 3 4. unfold print at 1 2 3.
  cbn [fs events]. unfold bind at 1 2 3. cbn [output_dir].
  match goal with
  | |- context [Path_mkdir_exist_ok ?p e ?s] =>
      destruct (mkdir_refused_error p e s Hmk) as (x & -> & Hx)
  end.
  exists x. split; [|exact Hx]. now rewrite <- !app_assoc.
Qed.

Lemma main_stops_without_output_directory_witness :
  exists x,
    main sample_env blocked_state
    = ({| fs := fs blocked_state;
          events := events blocked_state
                    ++ [ Print (nl +:+ str_repeat "=" 80);
                         Print (str_repeat " " 25 +:+ "FFmpeg Masterclass");
                         Print (str_repeat "=" 80 +:+ nl) ] |},
       Raises x)
    /\ mkdir_error x "ffmpeg_output".
Proof.
  apply (main_stops_without_output_directory sample_env blocked_state).
  vm_compute. reflexivity.
Defined.

(** ** Probing without effects *)



Lemma quiet_ret {A} (a : A) (e : env) : quiet (ret a) e.
Proof. intros st. now split. Qed.

Lemma quiet_raise {A} (x : exn) (e : env) : quiet (@raise A x) e.
Proof. intros st. now split. Qed.

Lemma quiet_lift {A} (o : outcome A) (e : env) : quiet (lift o) e.
Proof. intros st. now split. Qed.

Lemma quiet_print (text : string) (e : env) : quiet (print text) e.
Proof.
  intros st. split; [reflexivity|]. cbn. rewrite commands_app. cbn. now rewrite app_nil_r.
Qed.

Lemma quiet_show_float (f : float_format) (j : json) (e : env) : quiet (show_float f j) e.
Proof. intros st. now split. Qed.

Lemma quiet_format_2f (v : evalue) (e : env) : quiet (format_2f v) e.
Proof. intros st. destruct v as [n d|[]]; now split. Qed.

Lemma quiet_bind {A B} (m : M A) (k : A -> M B) (e : env) :
  quiet m e ->
  (forall a, (exists st, snd (m e st) = Returns a) -> quiet (k a) e) ->
  quiet (bind m k) e.
Proof.
  intros Hm Hk st. unfold bind. specialize (Hm st).
  destruct (m e st) as [st' [a|x]] eqn:E; cbn [fst snd] in *.
  - assert (Ha : exists st0, snd (m e st0) = Returns a) by (exists st; now rewrite E).
    destruct (Hk a Ha st') as [H1 H2]. destruct Hm as [H3 H4]. split; congruence.
  - exact Hm.
Qed.

Lemma quiet_try {A} (body : M A) (handler : exn -> option (M A)) (e : env) :
  quiet body e ->
  (forall x h, handler x = Some h -> quiet h e) ->
  quiet (try_except body handler) e.
Proof.
  intros Hb Hh st. unfold try_except. specialize (Hb st).
  destruct (body e st) as [st' [a|x]] eqn:E; cbn [fst snd] in *; [exact Hb|].
  destruct (handler x) as [h|] eqn:Eh; [|exact Hb].
  destruct (Hh x h Eh st') as [H1 H2]. destruct Hb as [H3 H4]. split; congruence.
Qed.

Lemma quiet_handler (label : string) (x : exn) (h : M unit) (e : env) :
  except_ffmpeg_error label x = Some h -> quiet h e.
Proof.
  destruct x; try discriminate. intros H. injection H as <-. apply quiet_print.
Qed.

(** [eval] of a numeral or a quotient computes and does nothing else. *)
Lemma quiet_eval_fraction (r : json) (e : env) :
  fraction_text r = true -> quiet (py_eval r) e.
Proof.
  destruct r as [| | | |text| |]; try discriminate. cbn [fraction_text py_eval].
  destruct (parse_expr text) as [[z|n d|name]|]; try discriminate; intros _.
  - apply quiet_ret.
  - destruct (d =? 0); [apply quiet_raise | apply quiet_ret].
Qed.

Ltac quiet_step :=
  first [ apply quiet_print | apply quiet_ret | apply quiet_lift
        | apply quiet_show_float | apply quiet_format_2f | apply quiet_raise
        | apply quiet_bind; [| intros ? ?] ].

(** X16. When the frame rate the probe demo evaluates is a numeral or a
    quotient of numerals (or the demo does not get to evaluate one), the
    demo leaves the file system unchanged and its only launch is [ffprobe]. *)
Theorem probe_reads_only (self : FFmpegMasterclass) (input_file : string)
    (e : env) (st : state) :
  frame_rate_is_fraction e input_file = true ->
  fs (fst (demo_ffmpeg_python_probe self input_file e st)) = fs st
  /\ commands (events (fst (demo_ffmpeg_python_probe self input_file e st)))
     = commands (events st) ++ [probe_cmd input_file].
Proof.
  intros Hrate. unfold frame_rate_is_fraction, probe_result in Hrate.
  remember (demo_ffmpeg_python_probe self input_file e st) as run eqn:Erun.
  unfold demo_ffmpeg_python_probe in Erun. rewrite banner_bind in Erun.
  unfold try_except at 1 in Erun. unfold bind at 1 in Erun.
  unfold ffmpeg_probe at 1 in Erun.
  unfold bind at 1 in Erun. unfold spawn at 1 in Erun.
  fold (probe_cmd input_file) in Erun. cbn [fs events] in Erun.
  destruct (launch_of e (probe_cmd input_file)) as [|rc out err].
  { subst run. cbn -[commands]. rewrite !commands_app. cbn. now rewrite app_nil_r. }
  destruct (Z.eqb_spec rc 0) as [->|Hrc].
  2:{ subst run. cbn -[commands]. rewrite !commands_app. cbn. now rewrite !app_nil_r. }
  cbn [negb] in Erun. destruct (json_loads e out) as [probe|x].
  2:{ subst run. destruct x; cbn -[commands]; rewrite !commands_app; cbn;
        now rewrite ?app_nil_r. }
  match type of Erun with
  | context [match ?body e ?s with _ => _ end] =>
      change (run = try_except body (except_ffmpeg_error " Error probing file: ") e s)
        in Erun;
      assert (Hq : quiet (try_except body (except_ffmpeg_error " Error probing file: ")) e)
  end.
  { apply quiet_try; [|intros x h; apply quiet_handler].
    apply quiet_bind; [apply quiet_lift | intros video_stream [st0 Hvs]].
    cbn [lift snd] in Hvs.
    apply quiet_bind; [apply quiet_lift | intros audio_stream _].
    unfold displayed_frame_rate in Hrate. rewrite Hvs in Hrate.
    do 5 (apply quiet_bind; [repeat quiet_step | intros _ _]).
    apply quiet_bind; [|intros _ _].
    - destruct (truthy video_stream); [|apply quiet_ret].
      do 3 (apply quiet_bind; [repeat quiet_step | intros _ _]).
      apply quiet_bind; [|intros _ _; repeat quiet_step].
      apply quiet_bind; [apply quiet_lift | intros r [st1 Hr]].
      cbn [lift snd] in Hr. rewrite Hr in Hrate.
      apply quiet_bind; [now apply quiet_eval_fraction | intros v _].
      repeat quiet_step.
    - apply quiet_bind; [|intros _ _; apply quiet_print].
      destruct (truthy audio_stream); [|apply quiet_ret]. repeat quiet_step. }
  match type of Erun with
  | context [try_except ?body ?h e ?s] => destruct (Hq s) as [H1 H2]
  end.
  subst run. rewrite H1, H2. cbn [fs events]. split; [reflexivity|].
  rewrite !commands_app. cbn. now rewrite app_nil_r.
Qed.

Lemma probe_reads_only_witness :
  fs (fst (demo_ffmpeg_python_probe demo_self "input.mp4" ordinary_env home_state))
  = fs home_state
  /\ commands (events (fst (demo_ffmpeg_python_probe demo_self "input.mp4" ordinary_env
                              home_state)))
     = commands (events home_state) ++ [probe_cmd "input.mp4"].
Proof.
  apply (probe_reads_only demo_self "input.mp4" ordinary_env home_state).
  vm_compute. reflexivity.
Defined.



Lemma subscript_error (s : json) (x : exn) :
  subscript s "codec_type" = Raises x -> lookup_error x.
Proof.
  unfold subscript, lookup_error.
  destruct s as [| | | | | |d]; try (intros H; injection H as <-; eauto).
  destruct (assoc "codec_type" d); [discriminate|]. intros H. injection H as <-. now left.
Qed.

(** The comprehension of [get_video_info] raises as soon as one stream has
    no [codec_type]. *)
Lemma streams_of_type_error (codec_type : string) (streams : list json) :
  Exists (fun s => ~ has_codec_type s) streams ->
  exists x, streams_of_type codec_type streams = Raises x /\ lookup_error x.
Proof.
  induction streams as [|s streams IH]; intros H; [inversion H|].
  cbn [streams_of_type].
  destruct (subscript s "codec_type") as [t|x] eqn:Es; cbn [ffmpeg.bind_outcome].
  - inversion H as [? ? Hs|? ? Hrest]; subst.
    + elim Hs. now exists t.
    + destruct (IH Hrest) as (x & -> & Hx). now exists x.
  - exists x. split; [reflexivity | now apply (subscript_error s)].
Qed.

(** X18. [get_video_info] catches [ffmpeg.Error] only.  A missing [ffprobe]
    raises [FileNotFoundError]; a probe result without [format] or [streams]
    raises [KeyError]; a stream without [codec_type] raises [KeyError] or
    [TypeError]: such a stream is not skipped. *)
Theorem get_video_info_incomplete_probe
    (self : FFmpegMasterclass) (input_file : string) (e : env) (st : state) :
  (launch_of e (probe_cmd input_file) = NotFound ->
   snd (get_video_info self input_file e st) = Raises (FileNotFoundError "ffprobe"))
  /\ (forall out err d,
        launch_of e (probe_cmd input_file) = Exited 0 out err ->
        json_loads e out = Returns (JDict d) ->
        assoc "format" d = None ->
        snd (get_video_info self input_file e st) = Raises (KeyError "format"))
  /\ (forall out err d format,
        launch_of e (probe_cmd input_file) = Exited 0 out err ->
        json_loads e out = Returns (JDict d) ->
        assoc "format" d = Some format ->
        assoc "streams" d = None ->
        snd (get_video_info self input_file e st) = Raises (KeyError "streams"))
  /\ (forall out err d format streams,
        launch_of e (probe_cmd input_file) = Exited 0 out err ->
        json_loads e out = Returns (JDict d) ->
        assoc "format" d = Some format ->
        assoc "streams" d = Some (JList streams) ->
        Exists (fun s => ~ has_codec_type s) streams ->
        exists x, snd (get_video_info self input_file e st) = Raises x /\ lookup_error x).
Proof.
  repeat split.
  - intros Hl.
    unfold get_video_info, try_except, ffmpeg_probe, bind, spawn, raise, lift, ret.
    fold (probe_cmd input_file). now rewrite Hl.
  - intros out err d Hl Hj Hf.
    unfold get_video_info, try_except, ffmpeg_probe, bind, spawn, raise, lift, ret.
    fold (probe_cmd input_file). rewrite Hl. cbn. rewrite Hj.
    unfold subscript at 1. now rewrite Hf.
  - intros out err d format Hl Hj Hf Hs.
    unfold get_video_info, try_except, ffmpeg_probe, bind, spawn, raise, lift, ret.
    fold (probe_cmd input_file). rewrite Hl. cbn. rewrite Hj.
    unfold subscript at 1. rewrite Hf.
    unfold subscript at 1. now rewrite Hs.
  - intros out err d format streams Hl Hj Hf Hs Hex.
    destruct (streams_of_type_error "video" streams Hex) as (x & Hx & Herr).
    exists x. split; [|exact Herr].
    unfold get_video_info, try_except, ffmpeg_probe, bind, spawn, raise, lift, ret.
    fold (probe_cmd input_file). rewrite Hl. cbn. rewrite Hj.
    unfold subscript at 1. rewrite Hf.
    unfold subscript at 1. rewrite Hs. cbn [ffmpeg.bind_outcome iterate]. rewrite Hx.
    destruct Herr as [->|[msg ->]]; reflexivity.
Qed.

Lemma get_video_info_incomplete_probe_witness :
  snd (get_video_info demo_self "input.mp4" absent_env home_state)
  = Raises (FileNotFoundError "ffprobe").
Proof.
  apply (proj1 (get_video_info_incomplete_probe demo_self "input.mp4" absent_env
                  home_state)).
  reflexivity.
Defined.


(** X20. The stream the probe demo shows for a type is the first of the
    streams [get_video_info] lists for that type, and [None] when that list
    is empty; the demo stops at the first match and does not look at the
    streams after it. *)
Theorem first_stream_heads_the_list (codec_type : string) (streams : list json) :
  (forall s rest,
     streams_of_type codec_type streams = Returns (s :: rest) ->
     first_stream_of_type codec_type streams = Returns s)
  /\ (streams_of_type codec_type streams = Returns [] ->
      first_stream_of_type codec_type streams = Returns JNull)
  /\ (forall s, is_type codec_type s = true ->
      first_stream_of_type codec_type (s :: streams) = Returns s).
Proof.
  split; [|split].
  - induction streams as [|s0 streams IH]; intros s rest H; [discriminate H|].
    cbn [streams_of_type first_stream_of_type] in *.
    destruct (subscript s0 "codec_type") as [t|x]; [|discriminate H].
    cbn [ffmpeg.bind_outcome] in *.
    destruct (streams_of_type codec_type streams) as [more|x]; [|discriminate H].
    cbn [ffmpeg.bind_outcome] in H.
    destruct (eq_str t codec_type).
    + now injection H as -> _.
    + injection H as ->. now apply (IH s rest).
  - induction streams as [|s0 streams IH]; intros H; [reflexivity|].
    cbn [streams_of_type first_stream_of_type] in *.
    destruct (subscript s0 "codec_type") as [t|x]; [|discriminate H].
    cbn [ffmpeg.bind_outcome] in *.
    destruct (streams_of_type codec_type streams) as [more|x]; [|discriminate H].
    cbn [ffmpeg.bind_outcome] in H.
    destruct (eq_str t codec_type); [discriminate H|].
    injection H as ->. now apply IH.
  - intros s H. unfold is_type in H. cbn [first_stream_of_type].
    destruct (subscript s "codec_type") as [t|x]; [|discriminate H].
    cbn [ffmpeg.bind_outcome]. now rewrite H.
Qed.

Lemma first_stream_heads_the_list_witness :
  first_stream_of_type "audio" sample_streams
  = Returns (JDict [("index", JInt 1); ("codec_type", JStr "audio")]).
Proof.
  apply (proj1 (first_stream_heads_the_list "audio" sample_streams) _ []).
  reflexivity.
Defined.

(** ** The file system across runs *)

Lemma library_demo_fs (stream : outcome ffmpeg.stream) (notes : list string)
    (success : string) (e : env) (st : state) :
  fs (fst (library_demo stream notes success e st)) = fs st.
Proof.
  rewrite library_demo_run. destruct stream as [s|x].
  - cbv zeta. destruct (ffmpeg.compile s) as [cmd|x].
    + now destruct (launch_of e cmd).
    + now destruct x.
  - now destruct x.
Qed.

(** The script's own change to the file system during a run is at most the
    subdirectory of the demo. *)
Lemma run_operation_fs (self : FFmpegMasterclass) (op : operation) (e : env) (st : state) :
  fs (fst (run_operation self op e st))
  = match subdirectory op with
    | Some name => after_mkdir (cwd e) (output_dir self // name) (fs st)
    | None => fs st
    end.
Proof.
  destruct op as [f|f|f|f|f|f s0 d|fs|a b|f fps|f fps|a b|f s0 d|f|a b|f];
    cbn [run_operation subdirectory].
  - unfold demo_cli_basic_conversion. rewrite banner_bind.
    unfold bind, print, try_except, subprocess.run, bind, spawn, ret. cbn [fs events andb].
    destruct (launch_of e _) as [|rc out err]; [reflexivity|]. now destruct (rc =? 0).
  - unfold demo_cli_with_filters. rewrite banner_bind.
    unfold bind at 1. rewrite print_all_run.
    unfold bind, print, try_except, subprocess.run, bind, spawn, ret, raise.
    cbn [fs events andb].
    destruct (launch_of e _) as [|rc out err]; [reflexivity|]. now destruct (rc =? 0).
  - unfold demo_cli_extract_audio. rewrite banner_bind.
    unfold bind, print, try_except, subprocess.run, bind, spawn, ret, raise.
    cbn [fs events andb].
    destruct (launch_of e _) as [|rc out err]; [reflexivity|]. now destruct (rc =? 0).
  - unfold demo_ffmpeg_python_basic. rewrite banner_bind.
    destruct (demo_ffmpeg_python_basic_stream self f) as [s|x].
    + unfold try_except, bind, lift, print, ffmpeg_run, bind, lift, spawn, ret, raise.
      cbn [fs events].
      destruct (ffmpeg.compile s) as [cmd|x].
      * destruct (launch_of e cmd) as [|rc out err]; [reflexivity|]. now destruct (rc =? 0).
      * now destruct x.
    + unfold try_except, bind, lift. now destruct x.
  - unfold demo_ffmpeg_python_filters. now rewrite banner_bind, library_demo_fs.
  - unfold demo_ffmpeg_python_trim. now rewrite banner_bind, library_demo_fs.
  - unfold demo_ffmpeg_python_concat. now rewrite banner_bind, library_demo_fs.
  - unfold demo_ffmpeg_python_overlay. now rewrite banner_bind, library_demo_fs.
  - unfold demo_extract_frames. rewrite banner_bind.
    destruct (mkdir_succeeds (cwd e) (output_dir self // "frames") (fs st)) eqn:Emk.
    + rewrite mkdir_bind by exact Emk. now rewrite library_demo_fs.
    + unfold bind at 1.
      match goal with
      | |- context [Path_mkdir_exist_ok ?p e ?s] =>
          destruct (mkdir_refused p e s Emk) as [x ->]
      end.
      cbn [fst fs]. unfold mkdir_succeeds in Emk. unfold after_mkdir.
      now destruct (posix.mkdir (cwd e) (output_dir self // "frames") (fs st)).
  - unfold demo_create_video_from_images. now rewrite banner_bind, library_demo_fs.
  - unfold demo_add_audio_to_video. now rewrite banner_bind, library_demo_fs.
  - unfold demo_create_gif. now rewrite banner_bind, library_demo_fs.
  - unfold demo_streaming_hls. rewrite banner_bind.
    destruct (mkdir_succeeds (cwd e) (output_dir self // "hls") (fs st)) eqn:Emk.
    + rewrite mkdir_bind by exact Emk. now rewrite library_demo_fs.
    + unfold bind at 1.
      match goal with
      | |- context [Path_mkdir_exist_ok ?p e ?s] =>
          destruct (mkdir_refused p e s Emk) as [x ->]
      end.
      cbn [fst fs]. unfold mkdir_succeeds in Emk. unfold after_mkdir.
      now destruct (posix.mkdir (cwd e) (output_dir self // "hls") (fs st)).
  - unfold demo_watermark. now rewrite banner_bind, library_demo_fs.
  - unfold demo_audio_visualization. now rewrite banner_bind, library_demo_fs.
Qed.

Lemma mkdir_made (cwd p : Path) (fs fs' : posix.filesystem) :
  posix.mkdir cwd p fs = inr fs' ->
  exists dirs d c,
    pathlib.names p = dirs ++ [c] /\ c <> ".."
    /\ posix.walk fs (posix.start cwd p) dirs = inr d
    /\ fs !! d = Some posix.Dir /\ fs !! (d ++ [c]) = None
    /\ fs' = <[d ++ [c] := posix.Dir]> fs.
Proof.
  unfold posix.mkdir.
  destruct (rev (pathlib.names p)) as [|c rdirs] eqn:Erev; [discriminate|].
  destruct (posix.walk fs (posix.start cwd p) (rev rdirs)) as [err|d] eqn:Ew;
    [discriminate|].
  destruct (fs !! d) as [[]|] eqn:Ed; try discriminate.
  destruct (String.eqb_spec c "..") as [|Hc]; [discriminate|].
  destruct (fs !! (d ++ [c])) eqn:Et; [discriminate|].
  intros H. injection H as <-. exists (rev rdirs), d, c.
  split; [now apply names_split|]. auto.
Qed.

Lemma mkdir_of_existing (cwd p : Path) (fs : posix.filesystem) :
  posix.isdir cwd p fs = true -> mkdir_succeeds cwd p fs = true.
Proof.
  intros Hdir. unfold mkdir_succeeds.
  destruct (posix.mkdir cwd p fs) as [[]|fs'] eqn:Emk; try reflexivity; try exact Hdir.
  exfalso. unfold posix.isdir in Hdir. unfold posix.mkdir in Emk.
  destruct (rev (pathlib.names p)) as [|c rdirs] eqn:Erev; [discriminate|].
  rewrite (names_split p c rdirs Erev), walk_app in Hdir.
  destruct (posix.walk fs (posix.start cwd p) (rev rdirs)) as [err|d];
    [discriminate Hdir|].
  cbn [posix.walk] in Hdir.
  destruct (fs !! d) as [[]|]; try discriminate.
  destruct (String.eqb c ".."); [discriminate|].
  destruct (fs !! (d ++ [c])); discriminate.
Qed.

Lemma isdir_insert (cwd p : Path) (fs : posix.filesystem) (t : list string) :
  fs !! t = None -> posix.isdir cwd p fs = true ->
  posix.isdir cwd p (<[t := posix.Dir]> fs) = true.
Proof.
  intros Ht. unfold posix.isdir.
  destruct (posix.walk fs (posix.start cwd p) (pathlib.names p)) as [err|d] eqn:Hw;
    [discriminate|].
  rewrite (walk_insert fs t _ _ d Ht Hw).
  destruct (fs !! d) as [[]|] eqn:Hd; try discriminate. intros _.
  rewrite lookup_insert_ne by congruence. now rewrite Hd.
Qed.

(** A new directory elsewhere does not get in the way of [mkdir]. *)
Lemma mkdir_succeeds_insert (cwd p : Path) (fs : posix.filesystem) (t : list string) :
  fs !! t = None -> mkdir_succeeds cwd p fs = true ->
  mkdir_succeeds cwd p (<[t := posix.Dir]> fs) = true.
Proof.
  intros Ht H. unfold mkdir_succeeds in H.
  destruct (posix.mkdir cwd p fs) as [err|fs'] eqn:Emk.
  - apply mkdir_of_existing, isdir_insert; [exact Ht|]. now destruct err.
  - destruct (mkdir_made cwd p fs fs' Emk) as (dirs & d & c & Hn & Hc & Hw & Hd & Hfree & _).
    destruct (decide (t = d ++ [c])) as [->|Hne].
    + apply mkdir_of_existing. now apply (isdir_after_create cwd p fs dirs d c).
    + unfold mkdir_succeeds, posix.mkdir.
      rewrite Hn, rev_app_distr. cbn [rev app]. rewrite rev_involutive.
      rewrite (walk_insert fs t _ _ d Ht Hw).
      rewrite lookup_insert_ne by congruence. rewrite Hd.
      apply String.eqb_neq in Hc. rewrite Hc.
      rewrite lookup_insert_ne by congruence. now rewrite Hfree.
Qed.

Lemma mkdir_succeeds_after (cwd p q : Path) (fs : posix.filesystem) :
  mkdir_succeeds cwd p fs = true -> mkdir_succeeds cwd p (after_mkdir cwd q fs) = true.
Proof.
  intros H. unfold after_mkdir.
  destruct (posix.mkdir cwd q fs) as [err|fs'] eqn:Emk; [exact H|].
  destruct (mkdir_made cwd q fs fs' Emk) as (dirs & d & c & _ & _ & _ & _ & Hfree & ->).
  now apply mkdir_succeeds_insert.
Qed.

(** X23. As far as the script's own file operations go, a run never gets in
    the way of a later one: when the directory of a demo can be made before
    some demo runs, it can still be made after that run.  So the demos can
    be run in any order, and again. *)
Theorem directories_stay_ready (self : FFmpegMasterclass) (op op' : operation)
    (e : env) (st : state) :
  directories_ready self op e st = true ->
  directories_ready self op e (fst (run_operation self op' e st)) = true.
Proof.
  intros H.
  assert (Hfs : forall p,
            mkdir_succeeds (cwd e) p (fs st) = true ->
            mkdir_succeeds (cwd e) p (fs (fst (run_operation self op' e st))) = true).
  { intros p Hp. rewrite run_operation_fs.
    destruct (subdirectory op'); [now apply mkdir_succeeds_after | exact Hp]. }
  destruct op; cbn [directories_ready] in *; auto.
Qed.

Lemma directories_stay_ready_witness :
  directories_ready demo_self (StreamingHls "input.mp4") sample_env
    (fst (run_operation demo_self (ExtractFrames "input.mp4" 1) sample_env prepared_state))
  = true.
Proof.
  apply (directories_stay_ready demo_self (StreamingHls "input.mp4")
           (ExtractFrames "input.mp4" 1) sample_env prepared_state).
  vm_compute. reflexivity.
Defined.

Lemma after_mkdir_keeps (cwd q : Path) (fs : posix.filesystem) (loc : list string)
    (v : posix.node_type) :
  fs !! loc = Some v -> after_mkdir cwd q fs !! loc = Some v.
Proof.
  intros H. unfold after_mkdir.
  destruct (posix.mkdir cwd q fs) as [err|fs'] eqn:Emk; [exact H|].
  destruct (mkdir_made cwd q fs fs' Emk) as (dirs & d & c & _ & _ & _ & _ & Hfree & ->).
  rewrite lookup_insert_ne by congruence. exact H.
Qed.

(** X24. The script itself removes and replaces nothing: every file and
    directory that is there before a run is there, with the same kind, after
    it, also when the process failed. *)
Theorem runs_remove_nothing (self : FFmpegMasterclass) (op : operation)
    (e : env) (st : state) (loc : list string) (v : posix.node_type) :
  fs st !! loc = Some v ->
  fs (fst (run_operation self op e st)) !! loc = Some v.
Proof.
  intros H. rewrite run_operation_fs.
  destruct (subdirectory op); [now apply after_mkdir_keeps | exact H].
Qed.

Lemma runs_remove_nothing_witness :
  fs (fst (run_operation demo_self (ExtractFrames "input.mp4" 1)
             (failing_env missing_input_message) prepared_state))
    !! ["home"; "user"; "ffmpeg_output"]
  = Some posix.Dir.
Proof.
  apply (runs_remove_nothing demo_self (ExtractFrames "input.mp4" 1)
           (failing_env missing_input_message) prepared_state).
  vm_compute. reflexivity.
Defined.
